(** * The persistence and export core of app.py, embedded in Rocq

    The file follows src/app.py: the SQLite file is a record of tables, the
    functions that open a connection are computations in a small monad that
    carries the committed file, the open transaction of the local connection,
    a counter of storage calls and the messages shown through [st.error].

    Conventions of the embedding:
    - a Python [str] is the [string] of its UTF-8 bytes; SQLite compares TEXT
      byte by byte, which is [String.compare];
    - a table with a TEXT PRIMARY KEY that the code only reaches by key
      ([users], [student_project_mapping]) is a [gmap] from the key; a table
      whose row order is observable ([queries], [projects],
      [student_project_map]) is the list of its rows in insertion order, and
      its primary key is checked where the code INSERTs;
    - foreign keys are declared in the schema but SQLite does not enforce
      them unless asked to, and the code never asks;
    - what the code draws from outside (a salt, a uuid, the clock, SQLite's
      DATE function, the text of a large float, an error of the storage
      engine) comes from [Env]. *)

From Stdlib Require Import String Ascii ZArith List Bool Lia.
From Stdlib Require Import Sorting.Sorted Sorting.Permutation.
From stdpp Require Import gmap strings list fin_maps sorting pretty.

Local Open Scope string_scope.
Local Open Scope list_scope.

(** ** Rows and tables *)

(** users (email TEXT PRIMARY KEY, name, role, password_hash); the key is the
    index of the map.  [password_hash] is NULL in a row that predates the
    column. *)
Record user := mk_user {
  u_name : string;
  u_role : string;
  u_password_hash : option string
}.

(** projects (project_id TEXT PRIMARY KEY, email, project_title, timestamp) *)
Record project := mk_project {
  p_project_id : string;
  p_email : string;
  p_project_title : string;
  p_timestamp : string
}.

(** queries (query_id TEXT PRIMARY KEY, email, name, project_title, question,
    response, timestamp, feedback_rating INTEGER) *)
Record query := mk_query {
  q_query_id : string;
  q_email : string;
  q_name : string;
  q_project_title : string;
  q_question : string;
  q_response : string;
  q_timestamp : string;
  q_feedback_rating : option Z
}.

(** student_project_mapping (student_email TEXT PRIMARY KEY, project_title,
    mapped_timestamp); the key is the index of the map. *)
Record mapping := mk_mapping {
  m_project_title : string;
  m_mapped_timestamp : string
}.

(** student_project_map (student_id, project_id, timestamp,
    PRIMARY KEY (student_id, project_id)) *)
Record project_map := mk_project_map {
  pm_student_id : string;
  pm_project_id : string;
  pm_timestamp : string
}.

(** The database file: for every table its column names ([db_schema], absent
    when the table does not exist) and its rows. *)
Record Db := mk_db {
  db_schema : gmap string (list string);
  users : gmap string user;
  projects : list project;
  queries : list query;
  student_project_mapping : gmap string mapping;
  student_project_map : list project_map
}.

(** [sqlite3.connect] creates the file when it is missing: no table at all. *)
Definition empty_db : Db := mk_db ∅ ∅ [] [] ∅ [].

Definition set_schema (f : gmap string (list string) → gmap string (list string)) (d : Db) : Db :=
  mk_db (f (db_schema d)) (users d) (projects d) (queries d)
        (student_project_mapping d) (student_project_map d).
Definition set_users (f : gmap string user → gmap string user) (d : Db) : Db :=
  mk_db (db_schema d) (f (users d)) (projects d) (queries d)
        (student_project_mapping d) (student_project_map d).
Definition set_projects (f : list project → list project) (d : Db) : Db :=
  mk_db (db_schema d) (users d) (f (projects d)) (queries d)
        (student_project_mapping d) (student_project_map d).
Definition set_queries (f : list query → list query) (d : Db) : Db :=
  mk_db (db_schema d) (users d) (projects d) (f (queries d))
        (student_project_mapping d) (student_project_map d).
Definition set_mapping (f : gmap string mapping → gmap string mapping) (d : Db) : Db :=
  mk_db (db_schema d) (users d) (projects d) (queries d)
        (f (student_project_mapping d)) (student_project_map d).
Definition set_project_map (f : list project_map → list project_map) (d : Db) : Db :=
  mk_db (db_schema d) (users d) (projects d) (queries d)
        (student_project_mapping d) (f (student_project_map d)).

(** ** Exceptions, the environment and the monad *)

(** The two classes of exception the handlers tell apart: [sqlite3.Error]
    (with its subclasses) and every other [Exception]; each carries the text
    of [str(e)]. *)
Inductive exn :=
| SqliteError (msg : string)
| OtherError (msg : string).

Definition exn_message (e : exn) : string :=
  match e with SqliteError m => m | OtherError m => m end.

(** What a run takes from outside.  Storage calls (connect, an execute with
    its fetch, commit; for [pd.read_sql_query] the execute and the fetch are
    two calls) are counted from 0; [env_fault = Some (k, e)] makes call
    number [k] raise [e], and this covers every failure whose cause is not in
    [Db] (a locked or unreadable file, a table missing from an old file).
    [env_hash], [env_uuid] and [env_now] are indexed by the number of storage
    calls made so far, so two draws in one run may differ.  [env_date] is
    SQLite's DATE(): the date part of a time string, or NULL.  [env_float]
    is [repr(float(z))] for the integers [z] whose float is printed with an
    exponent (see [float_repr]). *)
Record Env := mk_env {
  env_fault : option (nat * exn);
  env_hash : nat → string → string;
  env_uuid : nat → string;
  env_now : nat → string;
  env_date : string → option string;
  env_float : Z → string
}.

(** The state of a run: the committed file, the open transaction of the
    connection held by the running function ([None] when it has none), the
    number of storage calls made, and the messages passed to [st.error]. *)
Record state := mk_state {
  disk : Db;
  pending : option Db;
  calls : nat;
  shown : list string
}.

Inductive res (A : Type) :=
| Val (a : A) (s : state)
| Exc (e : exn) (s : state).
Arguments Val {A} a s.
Arguments Exc {A} e s.

Definition M (A : Type) : Type := state → res A.

Definition ret {A} (a : A) : M A := fun s => Val a s.

Definition bind {A B} (m : M A) (k : A → M B) : M B :=
  fun s => match m s with
           | Val a s' => k a s'
           | Exc e s' => Exc e s'
           end.

Definition raise {A} (e : exn) : M A := fun s => Exc e s.

#[global] Instance M_ret : MRet M := @ret.
#[global] Instance M_bind : MBind M := fun A B k m => bind m k.

(** A step written on the state of the run. *)
Definition with_state {A} (f : state → res A) : M A := f.

(** [try: body except sqlite3.Error as e: handler] *)
Definition try_except_sqlite {A} (body : M A) (handler : string → M A) : M A :=
  fun s => match body s with
           | Exc (SqliteError msg) s' => handler msg s'
           | r => r
           end.

(** [try: body except Exception as e: handler] *)
Definition try_except_any {A} (body : M A) (handler : string → M A) : M A :=
  fun s => match body s with
           | Exc e s' => handler (exn_message e) s'
           | r => r
           end.

(** A Python function call: [conn] is a local of the callee, so the callee
    starts without a transaction and the caller's is untouched; when the
    callee is left, by return or by exception, its connection is dropped and
    what it did not commit is rolled back. *)
Definition def_ {A} (body : M A) : M A :=
  fun s =>
    let restore s' := mk_state (disk s') (pending s) (calls s') (shown s') in
    match body (mk_state (disk s) None (calls s) (shown s)) with
    | Val a s' => Val a (restore s')
    | Exc e s' => Exc e (restore s')
    end.

(** What a statement of the local connection sees. *)
Definition view (s : state) : Db := default (disk s) (pending s).

Definition st_error (msg : string) : M unit :=
  fun s => Val tt (mk_state (disk s) (pending s) (calls s) (shown s ++ [msg])).

Section Storage.
Variable E : Env.

(** One storage call: it raises when the environment says so. *)
Definition tick : M unit :=
  fun s =>
    let s' := mk_state (disk s) (pending s) (S (calls s)) (shown s) in
    match env_fault E with
    | Some (k, e) => if Nat.eqb k (calls s) then Exc e s' else Val tt s'
    | None => Val tt s'
    end.

(** [sqlite3.connect(DB_PATH)] *)
Definition connect : M unit := tick.

(** A SELECT (or PRAGMA) with its fetch. *)
Definition execute_query {A} (f : Db → A) : M A :=
  tick ;; with_state (fun s => Val (f (view s)) s).

(** INSERT, UPDATE, DELETE, REPLACE: the module opens a transaction before
    the statement; the statement either raises (a constraint) or changes
    the transaction's view and sets [rowcount]. *)
Definition execute_dml (f : Db → exn + Db * nat) : M nat :=
  tick ;; with_state (fun s =>
    match f (view s) with
    | inl e => Exc e (mk_state (disk s) (Some (view s)) (calls s) (shown s))
    | inr (d, n) => Val n (mk_state (disk s) (Some d) (calls s) (shown s))
    end).

(** CREATE TABLE, ALTER TABLE: no transaction is opened for them; outside a
    transaction the statement is durable at once. *)
Definition execute_ddl (f : Db → exn + Db) : M unit :=
  tick ;; with_state (fun s =>
    match f (view s), pending s with
    | inl e, _ => Exc e s
    | inr d, Some _ => Val tt (mk_state (disk s) (Some d) (calls s) (shown s))
    | inr d, None => Val tt (mk_state d None (calls s) (shown s))
    end).

(** [conn.commit()] *)
Definition commit : M unit :=
  tick ;; with_state (fun s => Val tt (mk_state (view s) None (calls s) (shown s))).

(** [conn.close()]: an open transaction is rolled back.  It is not counted
    as a storage call. *)
Definition close : M unit :=
  fun s => Val tt (mk_state (disk s) None (calls s) (shown s)).

(** [hash_password(password)]: [pbkdf2_sha256.hash] with a fresh salt. *)
Definition hash_password (password : string) : M string :=
  fun s => Val (env_hash E (calls s) password) s.

(** [str(uuid.uuid4())] *)
Definition uuid4 : M string := fun s => Val (env_uuid E (calls s)) s.

(** [datetime.now().strftime("%Y-%m-%d %H:%M:%S")] *)
Definition now_timestamp : M string := fun s => Val (env_now E (calls s)) s.

(** What pandas makes of an exception of [cursor.execute]:
    [pandas.errors.DatabaseError], which is no [sqlite3.Error]. *)
Definition pandas_database_error (sql : string) (e : exn) : exn :=
  OtherError ("Execution failed on sql '" +:+ sql +:+ "': " +:+ exn_message e).

(** [pd.read_sql_query(sql, conn, params=...)]: pandas runs
    [cursor.execute] and re-raises whatever it raises as
    [pandas.errors.DatabaseError]; then it fetches the rows, and an
    exception of the fetch reaches the caller as it is. *)
Definition pandas_read_sql_query {A} (sql : string) (f : Db → A) : M A :=
  with_state (fun s => match tick s with
                       | Exc e s' => Exc (pandas_database_error sql e) s'
                       | Val _ s' => Val tt s'
                       end) ;;
  tick ;;
  with_state (fun s => Val (f (view s)) s).
End Storage.

(** Running a function of the program on a database file. *)
Definition start (d : Db) : state := mk_state d None 0 [].

Inductive outcome (A : Type) :=
| Returns (a : A)
| Raises (e : exn).
Arguments Returns {A} a.
Arguments Raises {A} e.

Record run_result (A : Type) := mk_run {
  result : outcome A;
  db_after : Db;
  errors_shown : list string
}.
Arguments mk_run {A} _ _ _.
Arguments result {A} _.
Arguments db_after {A} _.
Arguments errors_shown {A} _.

Definition run {A} (m : M A) (d : Db) : run_result A :=
  match m (start d) with
  | Val a s => mk_run (Returns a) (disk s) (shown s)
  | Exc e s => mk_run (Raises e) (disk s) (shown s)
  end.

(** ** Python strings *)

(** Truth value of a [str]: false exactly for the empty one. *)
Definition nonempty (s : string) : bool :=
  match s with EmptyString => false | String _ _ => true end.

(** Truth value of an optional [str] argument: [None] and [""] are false. *)
Definition truthy (o : option string) : bool :=
  match o with Some s => nonempty s | None => false end.

(** [o or d] *)
Definition or_else (o : option string) (d : string) : string :=
  match o with
  | Some s => if nonempty s then s else d
  | None => d
  end.

Definition in_range (lo hi c : ascii) : bool :=
  Ascii.leb lo c && Ascii.leb c hi.

Definition is_alnum (c : ascii) : bool :=
  in_range "a" "z" c || in_range "A" "Z" c || in_range "0" "9" c.

(** ASCII lower case, as SQLite folds identifiers. *)
Definition ascii_lower (c : ascii) : ascii :=
  if in_range "A" "Z" c then ascii_of_nat (nat_of_ascii c + 32) else c.

Fixpoint lower (s : string) : string :=
  match s with
  | EmptyString => EmptyString
  | String c r => String (ascii_lower c) (lower r)
  end.

(** [str.strip()].  The characters for which [str.isspace] holds, as their
    UTF-8 encodings: U+0009..U+000D, U+001C..U+0020, U+0085, U+00A0, U+1680,
    U+2000..U+200A, U+2028, U+2029, U+202F, U+205F, U+3000. *)
Definition is_ascii_space (c : ascii) : bool :=
  in_range "009" "013" c || in_range "028" " " c.

Definition starts_with_space (s : string) : option string :=
  match s with
  | String c r =>
      if is_ascii_space c then Some r
      else match c, r with
      | "194"%char, String d r' =>
          if Ascii.eqb d "133" || Ascii.eqb d "160" then Some r' else None
      | "225"%char, String "154" (String "128" r') => Some r'
      | "226"%char, String "128" (String d r') =>
          if in_range "128" "138" d || Ascii.eqb d "168" || Ascii.eqb d "169"
             || Ascii.eqb d "175"
          then Some r' else None
      | "226"%char, String "129" (String "159" r') => Some r'
      | "227"%char, String "128" (String "128" r') => Some r'
      | _, _ => None
      end
  | EmptyString => None
  end.

Fixpoint lstrip_fuel (n : nat) (s : string) : string :=
  match n with
  | O => s
  | S n' => match starts_with_space s with
            | Some r => lstrip_fuel n' r
            | None => s
            end
  end.

Definition lstrip (s : string) : string := lstrip_fuel (String.length s) s.

Fixpoint string_rev_onto (s acc : string) : string :=
  match s with
  | EmptyString => acc
  | String c r => string_rev_onto r (String c acc)
  end.

Definition string_rev (s : string) : string := string_rev_onto s EmptyString.

(** The same test on the reversed string: the encodings read backwards. *)
Definition ends_with_space_rev (s : string) : option string :=
  match s with
  | String c r =>
      if is_ascii_space c then Some r
      else match r with
      | String "194" r' =>
          if Ascii.eqb c "133" || Ascii.eqb c "160" then Some r' else None
      | String "154" (String "225" r') =>
          if Ascii.eqb c "128" then Some r' else None
      | String "128" (String "226" r') =>
          if in_range "128" "138" c || Ascii.eqb c "168" || Ascii.eqb c "169"
             || Ascii.eqb c "175"
          then Some r' else None
      | String "129" (String "226" r') =>
          if Ascii.eqb c "159" then Some r' else None
      | String "128" (String "227" r') =>
          if Ascii.eqb c "128" then Some r' else None
      | _ => None
      end
  | EmptyString => None
  end.

Fixpoint rstrip_rev_fuel (n : nat) (s : string) : string :=
  match n with
  | O => s
  | S n' => match ends_with_space_rev s with
            | Some r => rstrip_rev_fuel n' r
            | None => s
            end
  end.

Definition strip (s : string) : string :=
  let l := lstrip s in
  string_rev (rstrip_rev_fuel (String.length l) (string_rev l)).

(** Longest prefix of [s] made of characters satisfying [p], and the rest. *)
Fixpoint span (p : ascii → bool) (s : string) : string * string :=
  match s with
  | String c r =>
      if p c then let '(a, b) := span p r in (String c a, b)
      else (EmptyString, s)
  | EmptyString => (EmptyString, EmptyString)
  end.

(** [is_valid_email]: [re.match] of
    [^[a-zA-Z0-9_.+-]+@[a-zA-Z0-9-]+\.[a-zA-Z0-9-.]+$].
    No class contains the character that must follow it, so the greedy
    prefix is the only split; [$] also matches before one final newline. *)
Definition is_local_char (c : ascii) : bool :=
  is_alnum c || Ascii.eqb c "_" || Ascii.eqb c "." || Ascii.eqb c "+"
  || Ascii.eqb c "-".
Definition is_domain_char (c : ascii) : bool := is_alnum c || Ascii.eqb c "-".
Definition is_tail_char (c : ascii) : bool :=
  is_alnum c || Ascii.eqb c "-" || Ascii.eqb c ".".

Definition is_valid_email (email : string) : bool :=
  let '(loc, r1) := span is_local_char email in
  nonempty loc &&
  match r1 with
  | String "@" r2 =>
      let '(dom, r3) := span is_domain_char r2 in
      nonempty dom &&
      match r3 with
      | String "." r4 =>
          let '(tl, r5) := span is_tail_char r4 in
          nonempty tl &&
          match r5 with
          | EmptyString => true
          | String "010" EmptyString => true
          | _ => false
          end
      | _ => false
      end
  | _ => false
  end.

(** ** The SQL statements of the program, as functions on [Db] *)

(** A data statement gives the new view and [rowcount], or raises. *)
Definition dml := Db → exn + Db * nat.

Definition users_columns : list string := ["email"; "name"; "role"; "password_hash"].
Definition projects_columns : list string :=
  ["project_id"; "email"; "project_title"; "timestamp"].
Definition queries_columns : list string :=
  ["query_id"; "email"; "name"; "project_title"; "question"; "response";
   "timestamp"; "feedback_rating"].
Definition student_project_mapping_columns : list string :=
  ["student_email"; "project_title"; "mapped_timestamp"].
Definition student_project_map_columns : list string :=
  ["student_id"; "project_id"; "timestamp"].

(** CREATE TABLE IF NOT EXISTS t (cols) *)
Definition create_table_if_not_exists (t : string) (cols : list string) (d : Db) : Db :=
  match db_schema d !! t with
  | Some _ => d
  | None => set_schema (insert t cols) d
  end.

Definition sql_create_table_if_not_exists (t : string) (cols : list string)
    (d : Db) : exn + Db :=
  inr (create_table_if_not_exists t cols d).

(** PRAGMA table_info(t), read as [[info[1] for info in c.fetchall()]] *)
Definition sql_table_info (t : string) (d : Db) : list string :=
  default [] (db_schema d !! t).

(** ALTER TABLE t ADD COLUMN col: SQLite compares column names without
    regard to ASCII case and refuses a second column of the same name. *)
Definition sql_alter_table_add_column (t col : string) (d : Db) : exn + Db :=
  match db_schema d !! t with
  | None => inl (SqliteError ("no such table: " +:+ t))
  | Some cols =>
      if bool_decide (lower col ∈ lower <$> cols)
      then inl (SqliteError ("duplicate column name: " +:+ col))
      else inr (set_schema (insert t (cols ++ [col])) d)
  end.

(** INSERT OR IGNORE INTO users (email, name, role, password_hash): the new
    view and [rowcount]. *)
Definition insert_or_ignore_user (email name role : string)
    (password_hash : option string) (d : Db) : Db * nat :=
  match users d !! email with
  | Some _ => (d, 0)
  | None => (set_users (insert email (mk_user name role password_hash)) d, 1)
  end.

Definition sql_insert_or_ignore_user (email name role : string)
    (password_hash : option string) : dml := fun d =>
  inr (insert_or_ignore_user email name role password_hash d).

(** INSERT OR REPLACE INTO users (email, name, role, password_hash) *)
Definition sql_insert_or_replace_user (email name role : string)
    (password_hash : option string) : dml := fun d =>
  inr (set_users (insert email (mk_user name role password_hash)) d, 1).

(** UPDATE users SET name = ?, role = ? WHERE email = ? *)
Definition sql_update_user_name_role (name role email : string) : dml := fun d =>
  match users d !! email with
  | Some u =>
      inr (set_users (insert email (mk_user name role (u_password_hash u))) d, 1)
  | None => inr (d, 0)
  end.

(** UPDATE users SET password_hash = ? WHERE email = ? *)
Definition sql_update_user_password (password_hash email : string) : dml := fun d =>
  match users d !! email with
  | Some u =>
      inr (set_users (insert email (mk_user (u_name u) (u_role u) (Some password_hash))) d,
           1)
  | None => inr (d, 0)
  end.

(** DELETE FROM users WHERE email = ? *)
Definition sql_delete_user (email : string) : dml := fun d =>
  match users d !! email with
  | Some _ => inr (set_users (delete email) d, 1)
  | None => inr (d, 0)
  end.

(** DELETE FROM student_project_mapping WHERE student_email = ? *)
Definition sql_delete_mapping (email : string) : dml := fun d =>
  match student_project_mapping d !! email with
  | Some _ => inr (set_mapping (delete email) d, 1)
  | None => inr (d, 0)
  end.

(** DELETE FROM queries WHERE email = ? *)
Definition sql_delete_queries (email : string) : dml := fun d =>
  inr (set_queries (filter (λ q, q_email q ≠ email)) d,
       length (filter (λ q, q_email q = email) (queries d))).

(** DELETE FROM projects WHERE email = ? *)
Definition sql_delete_projects (email : string) : dml := fun d =>
  inr (set_projects (filter (λ p, p_email p ≠ email)) d,
       length (filter (λ p, p_email p = email) (projects d))).

(** SELECT project_title FROM student_project_mapping WHERE student_email = ?,
    read as [result[0] if result else None] *)
Definition sql_select_project_title (email : string) (d : Db) : option string :=
  m_project_title <$> student_project_mapping d !! email.

(** WHERE email = ? AND question = ? AND timestamp = ? *)
Definition same_query (email question timestamp : string) (q : query) : Prop :=
  q_email q = email ∧ q_question q = question ∧ q_timestamp q = timestamp.

#[global] Instance same_query_dec e qn t q : Decision (same_query e qn t q).
Proof. unfold same_query. apply _. Defined.

(** SELECT * FROM queries WHERE email = ? AND question = ? AND timestamp = ?,
    read with [fetchone()] *)
Definition sql_select_query (email question timestamp : string) (d : Db) : option query :=
  head (filter (same_query email question timestamp) (queries d)).

(** An integer SQLite can hold: signed, 64 bits. *)
Definition fits_int64 (z : Z) : bool := ((- 2 ^ 63 <=? z) && (z <? 2 ^ 63))%Z.

(** A value for the INTEGER column feedback_rating that the sqlite3 module
    can bind: [None] or an integer of 64 bits. *)
Definition storable (feedback_rating : option Z) : bool :=
  match feedback_rating with
  | None => true
  | Some z => fits_int64 z
  end.

(** INSERT INTO queries (...) VALUES (...): the sqlite3 module binds the
    parameters before the statement runs and raises [OverflowError], which
    is no [sqlite3.Error], for an integer beyond 64 bits; [query_id] is the
    primary key. *)
Definition sql_insert_query (q : query) : dml := fun d =>
  if negb (storable (q_feedback_rating q))
  then inl (OtherError "Python int too large to convert to SQLite INTEGER")
  else if bool_decide (q_query_id q ∈ q_query_id <$> queries d)
  then inl (SqliteError "UNIQUE constraint failed: queries.query_id")
  else inr (set_queries (λ l, l ++ [q]) d, 1).

(** INSERT INTO projects (...) VALUES (...): [project_id] is the primary key. *)
Definition sql_insert_project (p : project) : dml := fun d =>
  if bool_decide (p_project_id p ∈ p_project_id <$> projects d)
  then inl (SqliteError "UNIQUE constraint failed: projects.project_id")
  else inr (set_projects (λ l, l ++ [p]) d, 1).

(** INSERT OR IGNORE INTO projects (...) VALUES (...) *)
Definition sql_insert_or_ignore_project (p : project) : dml := fun d =>
  if bool_decide (p_project_id p ∈ p_project_id <$> projects d)
  then inr (d, 0)
  else inr (set_projects (λ l, l ++ [p]) d, 1).

(** INSERT INTO student_project_map (student_id, project_id, timestamp):
    the pair (student_id, project_id) is the primary key. *)
Definition sql_insert_project_map (r : project_map) : dml := fun d =>
  if bool_decide ((pm_student_id r, pm_project_id r)
                  ∈ (λ x, (pm_student_id x, pm_project_id x)) <$> student_project_map d)
  then inl (SqliteError
    "UNIQUE constraint failed: student_project_map.student_id, student_project_map.project_id")
  else inr (set_project_map (λ l, l ++ [r]) d, 1).

(** INSERT OR REPLACE INTO student_project_mapping
    (student_email, project_title, mapped_timestamp) *)
Definition sql_insert_or_replace_mapping (student_email project_title
    mapped_timestamp : string) : dml := fun d =>
  inr (set_mapping (insert student_email (mk_mapping project_title mapped_timestamp)) d,
       1).

(** UPDATE queries SET feedback_rating = ? WHERE email = ? AND timestamp = ? *)
Definition rate (feedback_rating : Z) (email timestamp : string) (q : query) : query :=
  if bool_decide (q_email q = email ∧ q_timestamp q = timestamp)
  then mk_query (q_query_id q) (q_email q) (q_name q) (q_project_title q)
                (q_question q) (q_response q) (q_timestamp q) (Some feedback_rating)
  else q.

Definition sql_update_feedback_rating (feedback_rating : Z) (email timestamp : string)
    : dml := fun d =>
  inr (set_queries (fmap (rate feedback_rating email timestamp)) d,
       length (filter (λ q, q_email q = email ∧ q_timestamp q = timestamp) (queries d))).

(** ** The functions of app.py

    [logger.error] and [logger.info] write to the log only and are left
    out. *)

Section Program.
Variable E : Env.

Definition database_error : bool * string :=
  (false, "Database error. Please try again.").

(** [init_db] (lines 84-159) *)
Definition init_db : M unit :=
  def_ (try_except_sqlite
    (connect E ;;
     execute_ddl E (sql_create_table_if_not_exists "users" users_columns) ;;
     columns ← execute_query E (sql_table_info "users");
     (if bool_decide ("password_hash" ∈ columns) then mret tt
      else execute_ddl E (sql_alter_table_add_column "users" "password_hash")) ;;
     execute_ddl E (sql_create_table_if_not_exists "projects" projects_columns) ;;
     execute_ddl E (sql_create_table_if_not_exists "queries" queries_columns) ;;
     execute_ddl E (sql_create_table_if_not_exists "student_project_mapping"
                      student_project_mapping_columns) ;;
     execute_ddl E (sql_create_table_if_not_exists "student_project_map"
                      student_project_map_columns) ;;
     password_hash ← hash_password E "default123";
     execute_dml E (sql_insert_or_ignore_user "admin@college.edu" "Jane Admin" "admin"
                      (Some password_hash)) ;;
     commit E ;;
     close)
    (fun _ => st_error "Failed to initialize database. Please try again.")).

(** [reset_user_password] (lines 63-77) *)
Definition reset_user_password (email new_password : string) : M (bool * string) :=
  def_ (try_except_sqlite
    (connect E ;;
     password_hash ← hash_password E new_password;
     rowcount ← execute_dml E (sql_update_user_password password_hash email);
     if Nat.eqb rowcount 0 then
       close ;; mret (false, "User not found.")
     else
       commit E ;; close ;; mret (true, "Password reset successfully."))
    (fun _ => mret database_error)).

(** [save_user] (lines 161-177); [role] defaults to ["student"] at the
    call. *)
Definition save_user (email name : string) (password : option string)
    (role : string) : M (bool * string) :=
  def_ (try_except_sqlite
    (connect E ;;
     password_hash ← (if truthy password
                       then h ← hash_password E (default "" password); mret (Some h)
                       else mret None);
     (if truthy password
      then execute_dml E (sql_insert_or_replace_user email name role password_hash)
      else execute_dml E (sql_update_user_name_role name role email)) ;;
     commit E ;;
     close ;;
     mret (true, "User saved successfully."))
    (fun _ => mret database_error)).

(** [get_project_title_for_student] (lines 179-189) *)
Definition get_project_title_for_student (email : string) : M (option string) :=
  def_ (try_except_sqlite
    (connect E ;;
     result ← execute_query E (sql_select_project_title email);
     close ;;
     mret result)
    (fun _ => mret None)).

(** [save_query] (lines 191-209); it has no [return]: the caller gets
    [None] on every path. *)
Definition save_query (email name : string) (project_title : option string)
    (question response timestamp : string) (feedback_rating : option Z) : M unit :=
  def_ (try_except_sqlite
    (connect E ;;
     query_id ← uuid4 E;
     project_title ← (if truthy project_title then mret (default "" project_title)
                       else t ← get_project_title_for_student email;
                            mret (or_else t "No Project Assigned"));
     found ← execute_query E (sql_select_query email question timestamp);
     (if found is Some _ then mret tt
      else execute_dml E (sql_insert_query
             (mk_query query_id email name project_title question response
                       timestamp feedback_rating)) ;;
           commit E) ;;
     close)
    (fun _ => st_error "Failed to save query. Please try again.")).

(** [save_project] (lines 211-231) *)
Definition save_project (email project_title : string) : M (bool * string) :=
  def_ (try_except_sqlite
    (connect E ;;
     timestamp ← now_timestamp E;
     project_id ← uuid4 E;
     execute_dml E (sql_insert_project
                      (mk_project project_id email project_title timestamp)) ;;
     execute_dml E (sql_insert_project_map
                      (mk_project_map email project_id timestamp)) ;;
     execute_dml E (sql_insert_or_replace_mapping email project_title timestamp) ;;
     commit E ;;
     close ;;
     mret (true, "Project saved successfully."))
    (fun _ => mret database_error)).

(** [delete_user] (lines 244-261) *)
Definition delete_user (email : string) : M (bool * string) :=
  def_ (try_except_sqlite
    (connect E ;;
     rowcount ← execute_dml E (sql_delete_user email);
     if Nat.eqb rowcount 0 then
       close ;; mret (false, "User not found.")
     else
       execute_dml E (sql_delete_mapping email) ;;
       execute_dml E (sql_delete_queries email) ;;
       execute_dml E (sql_delete_projects email) ;;
       commit E ;;
       close ;;
       mret (true, "User deleted successfully."))
    (fun _ => mret database_error)).

(** The rating statement of the student page (lines 1032-1037), with the
    handler of the enclosing [try] (line 1041).  [feedback_rating] is the
    value of the slider. *)
Definition submit_rating (feedback_rating : Z) (email timestamp : string) : M unit :=
  def_ (try_except_any
    (connect E ;;
     execute_dml E (sql_update_feedback_rating feedback_rating email timestamp) ;;
     commit E ;;
     close)
    (fun msg => st_error ("Failed to process query: " +:+ msg))).
End Program.

(** ** Values handed back to the caller *)

(** The Python values of the statistics dictionary.  [PyRound2 sum count] is
    the float [round(sum / count, 2)] of an average taken over [count]
    ratings that add up to [sum]; its binary rounding is not unfolded. *)
Inductive pyval :=
| PyNone
| PyInt (n : Z)
| PyRound2 (sum : Z) (count : nat).

(** A [dict] with string keys, in insertion order. *)
Definition dict := list (string * pyval).

Fixpoint dict_get (k : string) (d : dict) : option pyval :=
  match d with
  | [] => None
  | (k', v) :: r => if String.eqb k k' then Some v else dict_get k r
  end.

Definition dict_keys (d : dict) : list string := fst <$> d.

(** SELECT COUNT(DISTINCT email) FROM users WHERE role = 'student' *)
Definition sql_count_students (d : Db) : nat :=
  size (filter (λ kv, u_role kv.2 = "student") (users d)).

(** SELECT COUNT(DISTINCT project_title) FROM student_project_mapping *)
Definition sql_count_mapped_titles (d : Db) : nat :=
  length (remove_dups ((λ kv, m_project_title kv.2)
                        <$> map_to_list (student_project_mapping d))).

(** SELECT COUNT( * ) FROM queries *)
Definition sql_count_queries (d : Db) : nat := length (queries d).

(** The ratings that are not NULL. *)
Definition ratings (d : Db) : list Z := omap q_feedback_rating (queries d).

(** SELECT AVG(feedback_rating) FROM queries WHERE feedback_rating IS NOT
    NULL: NULL over no row, else the sum and the number of the ratings. *)
Definition sql_avg_feedback_rating (d : Db) : option (Z * nat) :=
  match ratings d with
  | [] => None
  | rs => Some (foldr Z.add 0%Z rs, length rs)
  end.

(** [round(avg_rating, 2) if avg_rating else None]: a float is false
    exactly when it is zero, and the average of integers is zero exactly
    when they add up to zero. *)
Definition rounded_average (avg_rating : option (Z * nat)) : pyval :=
  match avg_rating with
  | Some (sum, count) => if Z.eqb sum 0 then PyNone else PyRound2 sum count
  | None => PyNone
  end.

(** ** Export *)

(** [datetime.date]: a day of the proleptic Gregorian calendar, years 1 to
    9999; the constructor refuses everything else. *)
Definition is_leap (y : nat) : bool :=
  (y mod 4 =? 0)%nat && (negb (y mod 100 =? 0)%nat || (y mod 400 =? 0)%nat).

Definition days_in_month (y m : nat) : nat :=
  match m with
  | 2 => if is_leap y then 29 else 28
  | 4 | 6 | 9 | 11 => 30
  | _ => 31
  end.

Definition valid_ymd (y m d : nat) : bool :=
  (1 <=? y)%nat && (Z.of_nat y <=? 9999)%Z && (1 <=? m)%nat && (m <=? 12)%nat
  && (1 <=? d)%nat && (d <=? days_in_month y m)%nat.

Record date := mk_date {
  year : nat;
  month : nat;
  day : nat;
  date_valid : valid_ymd year month day = true
}.

Definition pad (width : nat) (s : string) : string :=
  String.concat "" (replicate (width - String.length s) "0") +:+ s.

(** [d.strftime("%Y-%m-%d")]: the C library prints the year as it is,
    without leading zeros, and month and day with two digits. *)
Definition strftime_ymd (d : date) : string :=
  pretty (year d) +:+ "-" +:+ pad 2 (pretty (month d)) +:+ "-"
  +:+ pad 2 (pretty (day d)).

(** A row of the SELECT of the two exports: the seven listed columns. *)
Record log_row := mk_log_row {
  l_email : string;
  l_name : string;
  l_project_title : string;
  l_question : string;
  l_response : string;
  l_timestamp : string;
  l_feedback_rating : option Z
}.

Definition log_of_query (q : query) : log_row :=
  mk_log_row (q_email q) (q_name q) (q_project_title q) (q_question q)
             (q_response q) (q_timestamp q) (q_feedback_rating q).

(** Comparison of TEXT values: byte by byte. *)
Definition string_le (a b : string) : Prop := String.leb a b = true.

#[global] Instance string_le_dec a b : Decision (string_le a b).
Proof. unfold string_le. apply _. Defined.

(** ORDER BY timestamp DESC *)
Definition later_first (x y : query) : Prop := string_le (q_timestamp y) (q_timestamp x).

#[global] Instance later_first_dec x y : Decision (later_first x y).
Proof. unfold later_first. apply _. Defined.

(** The conditions appended to [WHERE 1=1], each with its parameter. *)
Inductive condition :=
| EmailIs (email : string)                (* AND email = ? *)
| ProjectTitleIs (title : string)         (* AND project_title = ? *)
| DateFrom (d : string)                   (* AND DATE(timestamp) >= ? *)
| DateTo (d : string).                    (* AND DATE(timestamp) <= ? *)

(** The text each [if] appends to the query. *)
Definition condition_sql (c : condition) : string :=
  match c with
  | EmailIs _ => " AND email = ?"
  | ProjectTitleIs _ => " AND project_title = ?"
  | DateFrom _ => " AND DATE(timestamp) >= ?"
  | DateTo _ => " AND DATE(timestamp) <= ?"
  end.

(** The query of the two exports. *)
Definition export_sql (conds : list condition) : string :=
  "SELECT email, name, project_title, question, response, timestamp, feedback_rating FROM queries WHERE 1=1"
  +:+ String.concat "" (condition_sql <$> conds) +:+ " ORDER BY timestamp DESC".

Section ExportLogs.
Variable E : Env.

(** A comparison with NULL is not true: a row whose timestamp DATE() does
    not read is dropped by either date condition. *)
Definition holds (c : condition) (q : query) : bool :=
  match c with
  | EmailIs e => bool_decide (q_email q = e)
  | ProjectTitleIs t => bool_decide (q_project_title q = t)
  | DateFrom d =>
      match env_date E (q_timestamp q) with
      | Some dt => String.leb d dt
      | None => false
      end
  | DateTo d =>
      match env_date E (q_timestamp q) with
      | Some dt => String.leb dt d
      | None => false
      end
  end.

Definition matches (conds : list condition) (q : query) : bool :=
  forallb (λ c, holds c q) conds.

(** SELECT email, name, project_title, question, response, timestamp,
    feedback_rating FROM queries WHERE 1=1 ... ORDER BY timestamp DESC *)
Definition sql_select_logs (conds : list condition) (d : Db) : list log_row :=
  log_of_query <$> merge_sort later_first
                     (filter (λ q, matches conds q = true) (queries d)).
End ExportLogs.

(** [DataFrame.to_csv(index=False).encode('utf-8')]: the writer of the csv
    module as pandas sets it up (comma, double quote, minimal quoting, a line
    feed after every line).  A field is quoted when it holds the delimiter,
    the quote character or a character of the line terminator, which is the
    line feed alone: a carriage return does not make a field quoted. *)
Definition dquote : ascii := "034".
Definition line_feed : ascii := "010".
Definition carriage_return : ascii := "013".

Definition is_special (c : ascii) : bool :=
  Ascii.eqb c "," || Ascii.eqb c dquote || Ascii.eqb c line_feed.

Fixpoint needs_quoting (s : string) : bool :=
  match s with
  | EmptyString => false
  | String c r => is_special c || needs_quoting r
  end.

Fixpoint double_quotes (s : string) : string :=
  match s with
  | EmptyString => EmptyString
  | String c r =>
      if Ascii.eqb c dquote then String dquote (String dquote (double_quotes r))
      else String c (double_quotes r)
  end.

Definition csv_field (s : string) : string :=
  if needs_quoting s
  then String dquote (double_quotes s +:+ String dquote EmptyString)
  else s.

Definition csv_line (fields : list string) : string :=
  String.concat "," (csv_field <$> fields) +:+ String line_feed EmptyString.

(** The column type pandas gives to [feedback_rating]: integers when no
    value is NULL, floats (NaN for NULL) when some are, objects when all
    are. *)
Inductive dtype := Int64 | Float64 | Object.

Definition rating_dtype (rows : list log_row) : dtype :=
  if forallb (λ r, bool_decide (l_feedback_rating r = None)) rows then Object
  else if existsb (λ r, bool_decide (l_feedback_rating r = None)) rows then Float64
  else Int64.

(** [float(z)] where it is an integer below 10^16: every integer up to 2^53
    is a float; from there to 2^54 the floats are the even integers, and an
    odd integer goes to its neighbour that is a multiple of 4 (round half to
    even). *)
Definition to_float64 (z : Z) : option Z :=
  if (Z.abs z <=? 2 ^ 53)%Z then Some z
  else if (Z.abs z <? 2 ^ 54)%Z then
    Some (if Z.even z then z
          else if ((z + 1) mod 4 =? 0)%Z then (z + 1)%Z else (z - 1)%Z)
  else None.

Section Rendering.
Variable E : Env.

(** [repr] of the float of an integer: the digits and [.0] below 10^16,
    with an exponent from there on, which is left to the environment. *)
Definition float_repr (z : Z) : string :=
  match to_float64 z with
  | Some v => if (Z.abs v <? 10 ^ 16)%Z then pretty v +:+ ".0" else env_float E z
  | None => env_float E z
  end.

Definition render_rating (t : dtype) (r : option Z) : string :=
  match r, t with
  | None, _ => ""
  | Some z, Float64 => float_repr z
  | Some z, _ => pretty z
  end.

Definition csv_row_of (t : dtype) (r : log_row) : string :=
  csv_line [l_email r; l_name r; l_project_title r; l_question r; l_response r;
            l_timestamp r; render_rating t (l_feedback_rating r)].

Definition to_csv (rows : list log_row) : string :=
  csv_line ["email"; "name"; "project_title"; "question"; "response"; "timestamp";
            "feedback_rating"]
  +:+ String.concat "" (csv_row_of (rating_dtype rows) <$> rows).
End Rendering.

(** ** Uploaded files *)

(** What [csv.DictReader] makes of an upload: [reader.fieldnames] ([None]
    for a file without a first line) and, for each later line, the values
    under the keys email, name and role ([None] where the line is too
    short).  [Undecodable] is an upload that is not UTF-8. *)
Record csv_row := mk_csv_row {
  row_email : option string;
  row_name : option string;
  row_role : option string
}.

Inductive upload :=
| Undecodable (msg : string)
| Decoded (fieldnames : option (list string)) (rows : list csv_row).

(** What [pd.read_csv] makes of an upload: the column names and, for each
    line, [str()] of the values under student_id and project_title ([None]
    for a missing value).  [Unreadable] is a file pandas refuses. *)
Inductive frame :=
| Unreadable (msg : string)
| Frame (columns : list string) (rows : list (option string * option string)).

Section ProgramAdmin.
Variable E : Env.

(** [get_dashboard_stats] (lines 263-293) *)
Definition get_dashboard_stats : M dict :=
  def_ (try_except_sqlite
    (connect E ;;
     total_students ← execute_query E sql_count_students;
     total_projects ← execute_query E sql_count_mapped_titles;
     total_queries ← execute_query E sql_count_queries;
     avg_rating ← execute_query E sql_avg_feedback_rating;
     close ;;
     mret [("total_students", PyInt (Z.of_nat total_students));
           ("total_projects", PyInt (Z.of_nat total_projects));
           ("total_queries", PyInt (Z.of_nat total_queries));
           ("avg_ratings", rounded_average avg_rating)])
    (fun _ => mret [("total_students", PyInt 0); ("total_projects", PyInt 0);
                    ("total_queries", PyInt 0); ("avg_rating", PyNone)])).

(** The parameters the export appends, in the order of the [if]s. *)
Definition export_conditions (student_email project_filter : option string)
    (date_from date_to : option date) : list condition :=
  let params := [] in
  let params := if truthy student_email
                then params ++ [EmailIs (default "" student_email)] else params in
  let params := if truthy project_filter
                   && negb (String.eqb (default "" project_filter) "All Projects")
                then params ++ [ProjectTitleIs (default "" project_filter)]
                else params in
  let params := if date_from is Some d
                then params ++ [DateFrom (strftime_ymd d)] else params in
  let params := if date_to is Some d
                then params ++ [DateTo (strftime_ymd d)] else params in
  params.

(** [pd.read_sql_query(query, conn, params=params)] *)
Definition read_sql_query (conds : list condition) : M (list log_row) :=
  pandas_read_sql_query E (export_sql conds) (sql_select_logs E conds).

(** [export_query_logs_to_csv] (lines 295-330) *)
Definition export_query_logs_to_csv (student_email project_filter : option string)
    (date_from date_to : option date) : M (option string) :=
  def_ (try_except_sqlite
    (connect E ;;
     query_logs ← read_sql_query
                    (export_conditions student_email project_filter date_from date_to);
     close ;;
     if query_logs is [] then mret None else mret (Some (to_csv E query_logs)))
    (fun _ => mret None)).

(** [row[key].strip()]: [None] has no [strip]. *)
Definition strip_field (v : option string) : M string :=
  match v with
  | Some s => mret (strip s)
  | None => raise (OtherError "'NoneType' object has no attribute 'strip'")
  end.

(** The loop of [bulk_register_users]: [inl] is a [return] from inside
    the loop, [inr] the counter when the rows are exhausted. *)
Fixpoint bulk_register_rows (rows : list csv_row) (users_added : nat)
    : M (bool * string + nat) :=
  match rows with
  | [] => mret (inr users_added)
  | row :: rest =>
      email ← strip_field (row_email row);
      name ← strip_field (row_name row);
      role ← strip_field (row_role row);
      if negb (nonempty email) || negb (nonempty name) || negb (nonempty role) then
        mret (inl (false, "Missing data in row: " +:+ email))
      else if negb (is_valid_email email) then
        mret (inl (false, "Invalid email format: " +:+ email))
      else if negb (bool_decide (role ∈ ["student"; "admin"])) then
        mret (inl (false, "Invalid role for " +:+ email +:+ ": " +:+ role))
      else
        password_hash ← hash_password E "default123";
        rowcount ← execute_dml E (sql_insert_or_ignore_user email name role
                                    (Some password_hash));
        bulk_register_rows rest
          (if Nat.ltb 0 rowcount then S users_added else users_added)
  end.

(** [bulk_register_users] (lines 416-448) *)
Definition bulk_register_users (csv_file : upload) : M (bool * string) :=
  def_ (try_except_any
    (connect E ;;
     match csv_file with
     | Undecodable msg => raise (OtherError msg)
     | Decoded None _ =>
         raise (OtherError "argument of type 'NoneType' is not iterable")
     | Decoded (Some fieldnames) rows =>
         if negb (forallb (λ col, bool_decide (col ∈ fieldnames))
                          ["email"; "name"; "role"]) then
           mret (false, "CSV must contain 'email', 'name', and 'role' columns.")
         else
           r ← bulk_register_rows rows 0;
           match r with
           | inl early => mret early
           | inr users_added =>
               commit E ;;
               close ;;
               mret (true, pretty users_added +:+ " users registered successfully!")
           end
     end)
    (fun msg => mret (false, "Error processing CSV: " +:+ msg))).

(** The loop of [save_student_project_mapping]. *)
Fixpoint save_mapping_rows (rows : list (option string * option string))
    (timestamp : string) (mappings_added : nat) : M (bool * string + nat) :=
  match rows with
  | [] => mret (inr mappings_added)
  | (student_id, title) :: rest =>
      let student_email := strip (default "" student_id) in
      let project_title := strip (default "" title) in
      if negb (is_valid_email student_email) then
        mret (inl (false, "Invalid email format: " +:+ student_email))
      else
        execute_dml E (sql_insert_or_replace_mapping student_email project_title
                         timestamp) ;;
        project_id ← uuid4 E;
        execute_dml E (sql_insert_or_ignore_project
                         (mk_project project_id student_email project_title timestamp)) ;;
        save_mapping_rows rest timestamp (S mappings_added)
  end.

(** [save_student_project_mapping] (lines 450-497) *)
Definition save_student_project_mapping (csv_file : frame) : M (bool * string) :=
  def_ (try_except_any
    (connect E ;;
     match csv_file with
     | Unreadable msg => raise (OtherError msg)
     | Frame columns rows =>
         if negb (forallb (λ col, bool_decide (col ∈ columns))
                          ["student_id"; "project_title"]) then
           mret (false, "CSV must contain 'student_id' and 'project_title' columns.")
         else if rows is [] then
           mret (false, "CSV file is empty.")
         else if existsb (λ r, bool_decide (r.1 = None) || bool_decide (r.2 = None)) rows then
           mret (false, "CSV contains missing values in required columns.")
         else
           timestamp ← now_timestamp E;
           r ← save_mapping_rows rows timestamp 0;
           match r with
           | inl early => mret early
           | inr mappings_added =>
               commit E ;;
               close ;;
               mret (true, pretty mappings_added
                           +:+ " student-project mappings saved successfully!")
           end
     end)
    (fun msg => mret (false, "Error processing mapping file: " +:+ msg))).

(** SELECT DISTINCT project_title FROM student_project_mapping
    ORDER BY project_title *)
Definition sql_select_distinct_titles (d : Db) : list string :=
  merge_sort string_le
    (remove_dups ((λ kv, m_project_title kv.2)
                   <$> map_to_list (student_project_mapping d))).

(** [get_available_projects] (lines 499-509) *)
Definition get_available_projects : M (list string) :=
  def_ (try_except_sqlite
    (connect E ;;
     projects ← execute_query E sql_select_distinct_titles;
     close ;;
     mret projects)
    (fun _ => mret [])).
End ProgramAdmin.

(** The state after one more storage call. *)
Definition bump (s : state) : state :=
  mk_state (disk s) (pending s) (S (calls s)) (shown s).


(** ** Properties kept by every statement of a run *)

Definition inv_state (P : Db → Prop) (s : state) : Prop :=
  P (disk s) ∧ ∀ p, pending s = Some p → P p.

Definition preserves {A} (P : Db → Prop) (m : M A) : Prop :=
  ∀ s, inv_state P s →
       match m s with
       | Val _ s' => inv_state P s'
       | Exc _ s' => inv_state P s'
       end.

Definition closed (P : Db → Prop) (f : dml) : Prop :=
  ∀ d d' n, P d → f d = inr (d', n) → P d'.

Definition closed_ddl (P : Db → Prop) (f : Db → exn + Db) : Prop :=
  ∀ d d', P d → f d = inr d' → P d'.


(** The ratings present are in the range 1..5. *)
Definition rating_in_range (r : option Z) : Prop :=
  match r with Some z => (1 ≤ z ≤ 5)%Z | None => True end.

Definition ratings_in_range (d : Db) : Prop :=
  Forall (λ q, rating_in_range (q_feedback_rating q)) (queries d).


(** ** Histories of the database file *)

(** The calls that write to the file. *)
Inductive op :=
| InitDb
| ResetUserPassword (email new_password : string)
| SaveUser (email name : string) (password : option string) (role : string)
| SaveQuery (email name : string) (project_title : option string)
    (question response timestamp : string) (feedback_rating : option Z)
| SaveProject (email project_title : string)
| DeleteUser (email : string)
| SubmitRating (feedback_rating : Z) (email timestamp : string)
| BulkRegisterUsers (csv_file : upload)
| SaveStudentProjectMapping (csv_file : frame).

Definition exec (E : Env) (o : op) (d : Db) : Db :=
  match o with
  | InitDb => db_after (run (init_db E) d)
  | ResetUserPassword email new_password =>
      db_after (run (reset_user_password E email new_password) d)
  | SaveUser email name password role =>
      db_after (run (save_user E email name password role) d)
  | SaveQuery email name project_title question response timestamp feedback_rating =>
      db_after (run (save_query E email name project_title question response
                       timestamp feedback_rating) d)
  | SaveProject email project_title =>
      db_after (run (save_project E email project_title) d)
  | DeleteUser email => db_after (run (delete_user E email) d)
  | SubmitRating feedback_rating email timestamp =>
      db_after (run (submit_rating E feedback_rating email timestamp) d)
  | BulkRegisterUsers csv_file => db_after (run (bulk_register_users E csv_file) d)
  | SaveStudentProjectMapping csv_file =>
      db_after (run (save_student_project_mapping E csv_file) d)
  end.

(** The files the program can produce, starting from no file, whatever the
    environment does at each call. *)
Inductive reachable : Db → Prop :=
| reachable_empty : reachable empty_db
| reachable_step E o d : reachable d → reachable (exec E o d).

(** An environment without faults, for examples: [tag] keeps the uuids of
    different calls apart.  No example holds a rating whose float is printed
    with an exponent, so [env_float] is never drawn: it is the text of
    [float(10 ** 16)]. *)
Definition sample_env (tag : string) : Env :=
  mk_env None
    (λ n p, "$pbkdf2-sha256$" +:+ tag +:+ pretty n +:+ "$" +:+ p)
    (λ n, "uuid-" +:+ tag +:+ "-" +:+ pretty n)
    (λ n, "2024-05-01 09:30:00")
    (λ s, Some (substring 0 10 s))
    (λ z, "1e+16").

(** The same environment with storage call [k] raising [sqlite3.Error]. *)
Definition failing_env (tag : string) (k : nat) : Env :=
  mk_env (Some (k, SqliteError "disk I/O error"))
    (env_hash (sample_env tag)) (env_uuid (sample_env tag))
    (env_now (sample_env tag)) (env_date (sample_env tag))
    (env_float (sample_env tag)).

(** The file after the first start of the application. *)
Definition fresh_db : Db := exec (sample_env "a") InitDb empty_db.

(** ** The properties of the claims *)

(** The key on which [save_query] de-duplicates. *)
Definition query_key (q : query) : string * string * string :=
  (q_email q, q_question q, q_timestamp q).

Definition deduplicated (d : Db) : Prop := NoDup (query_key <$> queries d).

Definition rows_with (email question timestamp : string) (d : Db) : list query :=
  filter (same_query email question timestamp) (queries d).

(** A file with one student who has a project and has asked a question. *)
Definition sample_db : Db :=
  exec (sample_env "d")
    (SaveQuery "s@c.edu" "Sam" None "How do I start?" "Like so." "2024-05-01 09:31:00"
       None)
    (exec (sample_env "c") (SaveProject "s@c.edu" "AI Tutor")
       (exec (sample_env "b") (SaveUser "s@c.edu" "Sam" (Some "secret") "student")
          fresh_db)).

(** What a property [Q] of the rows of [queries] must allow for a call to
    keep it: only three calls write to the table. *)
Definition op_closed (Q : list query → Prop) (o : op) : Prop :=
  match o with
  | DeleteUser email => ∀ l, Q l → Q (filter (λ q, q_email q ≠ email) l)
  | SubmitRating r email timestamp => ∀ l, Q l → Q (rate r email timestamp <$> l)
  | SaveQuery e n pt qn rs t fr =>
      ∀ l id title, Q l → head (filter (same_query e qn t) l) = None →
                    id ∉ q_query_id <$> l →
                    Q (l ++ [mk_query id e n title qn rs t fr])
  | _ => True
  end.

(** A history: the calls made, first to last, each with its environment. *)
Definition replay (history : list (Env * op)) (d : Db) : Db :=
  foldl (λ d' call, exec call.1 call.2 d') d history.

(** The calls that write a rating, with a rating in 1..5 or none. *)
Definition op_rating_in_range (o : op) : Prop :=
  match o with
  | SaveQuery _ _ _ _ _ _ feedback_rating => rating_in_range feedback_rating
  | SubmitRating feedback_rating _ _ => (1 ≤ feedback_rating ≤ 5)%Z
  | _ => True
  end.

(** The two dictionaries [get_dashboard_stats] can return. *)
Definition stats_on_error : dict :=
  [("total_students", PyInt 0); ("total_projects", PyInt 0);
   ("total_queries", PyInt 0); ("avg_rating", PyNone)].

Definition stats_of (d : Db) : dict :=
  [("total_students", PyInt (Z.of_nat (sql_count_students d)));
   ("total_projects", PyInt (Z.of_nat (sql_count_mapped_titles d)));
   ("total_queries", PyInt (Z.of_nat (sql_count_queries d)));
   ("avg_ratings", rounded_average (sql_avg_feedback_rating d))].

(** ** Schema initialization *)

Definition admin_email : string := "admin@college.edu".

(** The file as a completed [init_db] leaves it: the five tables exist,
    [users] has its password_hash column and a row for the administrator
    (whatever that row holds). *)
Definition initialized (d : Db) : Prop :=
  (∃ cols, db_schema d !! "users" = Some cols ∧ "password_hash" ∈ cols)
  ∧ is_Some (db_schema d !! "projects")
  ∧ is_Some (db_schema d !! "queries")
  ∧ is_Some (db_schema d !! "student_project_mapping")
  ∧ is_Some (db_schema d !! "student_project_map")
  ∧ is_Some (users d !! admin_email).

(** No table is dropped and no column is dropped, renamed or moved: the
    columns of every table are still there, in front of any new one. *)
Definition columns_kept (d d' : Db) : Prop :=
  ∀ t cols, db_schema d !! t = Some cols →
            ∃ added, db_schema d' !! t = Some (cols ++ added).

(** Every row is still there, unchanged, and the only row that may be new
    is the one of the administrator. *)
Definition rows_kept (d d' : Db) : Prop :=
  projects d' = projects d
  ∧ queries d' = queries d
  ∧ student_project_mapping d' = student_project_mapping d
  ∧ student_project_map d' = student_project_map d
  ∧ (∀ email u, users d !! email = Some u → users d' !! email = Some u)
  ∧ (∀ email, email ≠ admin_email → users d' !! email = users d !! email).

(** The number of rows of [users] with the administrator's email. *)
Definition admin_rows (d : Db) : nat :=
  size (filter (λ kv, kv.1 = admin_email) (users d)).

(** [init_db] run once for every environment of the list, last first. *)
Definition init_db_runs (Es : list Env) (d : Db) : Db :=
  foldr (λ E d', exec E InitDb d') d Es.

(** The sample file after the administrator changed name and password. *)
Definition sample_db_admin_changed : Db :=
  exec (sample_env "g") (SaveUser admin_email "Dr. Jane" (Some "s3cret") "admin") sample_db.

(** ** How failures reach the caller *)

(** Every storage call that fails raises [sqlite3.Error]. *)
Definition sqlite_faults (E : Env) : Prop :=
  ∀ k e, env_fault E = Some (k, e) → ∃ msg, e = SqliteError msg.

(** A run of a function that hands back (flag, message): it returns, and a
    false flag comes with an unchanged file. *)
Definition reports (r : run_result (bool * string)) (d : Db) : Prop :=
  ∃ flag msg, result r = Returns (flag, msg) ∧ (flag = false → db_after r = d).

(** A stretch of a function that commits nothing and shows nothing. *)
Definition keeps_disk {A} (m : M A) : Prop :=
  ∀ s, match m s with
       | Val _ s' => disk s' = disk s ∧ shown s' = shown s
       | Exc _ s' => disk s' = disk s ∧ shown s' = shown s
       end.

(** ** The exported file *)

(** The text before the first line feed. *)
Fixpoint first_line (s : string) : string :=
  match s with
  | EmptyString => EmptyString
  | String c r => if Ascii.eqb c line_feed then EmptyString else String c (first_line r)
  end.

(** Two decimal digits of a number below 100, in front of [rest]. *)
Definition two_digits (n : nat) (rest : string) : string :=
  String (ascii_of_nat (48 + n / 10)) (String (ascii_of_nat (48 + n mod 10)) rest).

(** The ISO 8601 text of a day, YYYY-MM-DD, which is how SQLite's DATE()
    writes a day. *)
Definition iso_date (d : date) : string :=
  two_digits (year d / 100)
    (two_digits (year d mod 100)
       (String "-" (two_digits (month d) (String "-" (two_digits (day d) ""))))).

(** The order of the calendar: [a] is the day [b] or an earlier one. *)
Definition date_le (a b : date) : Prop :=
  (year a < year b)%nat
  ∨ (year a = year b
     ∧ ((month a < month b)%nat ∨ (month a = month b ∧ (day a ≤ day b)%nat))).

(** What the four optional filters ask of a row: an email or a title that
    is absent or empty asks nothing, nor does the title "All Projects"; a
    date bound asks that DATE(timestamp) reads and is, as text, on the right
    side of the ISO text of the bound. *)
Definition on_or_after (E : Env) (date_from : option date) (q : query) : Prop :=
  match date_from, env_date E (q_timestamp q) with
  | None, _ => True
  | Some df, Some day => string_le (iso_date df) day
  | Some _, None => False
  end.

Definition on_or_before (E : Env) (date_to : option date) (q : query) : Prop :=
  match date_to, env_date E (q_timestamp q) with
  | None, _ => True
  | Some dt, Some day => string_le day (iso_date dt)
  | Some _, None => False
  end.

Definition passes (E : Env) (student_email project_filter : option string)
    (date_from date_to : option date) (q : query) : Prop :=
  (truthy student_email = true → q_email q = default "" student_email)
  ∧ (truthy project_filter = true → default "" project_filter ≠ "All Projects" →
     q_project_title q = default "" project_filter)
  ∧ on_or_after E date_from q
  ∧ on_or_before E date_to q.

#[global] Instance passes_dec E student_email project_filter date_from date_to q :
  Decision (passes E student_email project_filter date_from date_to q).
Proof.
  unfold passes, on_or_after, on_or_before.
  destruct date_from, date_to, (env_date E (q_timestamp q)); apply _.
Defined.

(** The bounds given have years of four digits. *)
Definition four_digit_years (date_from date_to : option date) : Prop :=
  (∀ df, date_from = Some df → (1000 ≤ year df)%nat)
  ∧ (∀ dt, date_to = Some dt → (1000 ≤ year dt)%nat).

(** *** Reading a CSV text back

    The reading side against which the exported text is judged: records
    end with a line feed, fields are separated by commas, a field that
    starts with a double quote runs to the next double quote that is not
    doubled, and a doubled double quote inside it stands for one. *)
Inductive reader_state := FieldStart | InPlain | InQuoted | AfterQuote.

Fixpoint csv_read (st : reader_state) (cell : string) (row : list string) (s : string)
    : list (list string) :=
  match s with
  | EmptyString =>
      match st, row with
      | FieldStart, [] => []
      | _, _ => [row ++ [cell]]
      end
  | String c r =>
      match st with
      | FieldStart =>
          if Ascii.eqb c dquote then csv_read InQuoted "" row r
          else if Ascii.eqb c "," then csv_read FieldStart "" (row ++ [""]) r
          else if Ascii.eqb c line_feed then (row ++ [""]) :: csv_read FieldStart "" [] r
          else csv_read InPlain (String c "") row r
      | InPlain =>
          if Ascii.eqb c "," then csv_read FieldStart "" (row ++ [cell]) r
          else if Ascii.eqb c line_feed
          then (row ++ [cell]) :: csv_read FieldStart "" [] r
          else csv_read InPlain (cell +:+ String c "") row r
      | InQuoted =>
          if Ascii.eqb c dquote then csv_read AfterQuote cell row r
          else csv_read InQuoted (cell +:+ String c "") row r
      | AfterQuote =>
          if Ascii.eqb c dquote then csv_read InQuoted (cell +:+ String dquote "") row r
          else if Ascii.eqb c "," then csv_read FieldStart "" (row ++ [cell]) r
          else if Ascii.eqb c line_feed
          then (row ++ [cell]) :: csv_read FieldStart "" [] r
          else csv_read InPlain (cell +:+ String c "") row r
      end
  end.

Definition csv_records (s : string) : list (list string) := csv_read FieldStart "" [] s.

(** What the reader does once the field [f] is complete and the delimiter
    [c] is read. *)
Definition field_done (f : string) (row : list string) (c : ascii) (r : string)
    : list (list string) :=
  if Ascii.eqb c "," then csv_read FieldStart "" (row ++ [f]) r
  else (row ++ [f]) :: csv_read FieldStart "" [] r.

(** The seven fields of an exported row, the last one being the text of
    the rating. *)
Definition exported_fields (q : query) (rating : string) : list string :=
  [q_email q; q_name q; q_project_title q; q_question q; q_response q; q_timestamp q;
   rating].

(** The text of the rating of the row [q] in an export of [rows]: nothing
    for a row without rating; the integer when every exported row has a
    rating; else, pandas having made the column one of floats, the integer
    followed by [.0], which is exact up to 2^53. *)
Definition rating_text (rows : list query) (q : query) (text : string) : Prop :=
  match q_feedback_rating q with
  | None => text = ""
  | Some z =>
      (Forall (λ q', q_feedback_rating q' ≠ None) rows → text = pretty z)
      ∧ (Exists (λ q', q_feedback_rating q' = None) rows → (Z.abs z ≤ 2 ^ 53)%Z →
         text = pretty z +:+ ".0")
  end.

(** ** Bulk registration *)

(** [reader.fieldnames] has the three required columns. *)
Definition header_ok (fieldnames : list string) : bool :=
  forallb (λ col, bool_decide (col ∈ fieldnames)) ["email"; "name"; "role"].

(** The three fields of a row after [strip()], when the row has them. *)
Definition stripped (row : csv_row) : option (string * string * string) :=
  match row_email row, row_name row, row_role row with
  | Some email, Some name, Some role => Some (strip email, strip name, strip role)
  | _, _, _ => None
  end.

(** The message of the first check that the fields fail, in the order of
    the checks. *)
Definition row_problem (email name role : string) : option string :=
  if negb (nonempty email) || negb (nonempty name) || negb (nonempty role) then
    Some ("Missing data in row: " +:+ email)
  else if negb (is_valid_email email) then
    Some ("Invalid email format: " +:+ email)
  else if negb (bool_decide (role ∈ ["student"; "admin"])) then
    Some ("Invalid role for " +:+ email +:+ ": " +:+ role)
  else None.

(** A row that passes every check. *)
Definition row_ok (row : csv_row) : bool :=
  match stripped row with
  | Some (email, name, role) =>
      match row_problem email name role with
      | None => true
      | Some _ => false
      end
  | None => false
  end.

(** INSERT OR IGNORE of the rows, in order, into the rows [us] of users: the
    rows afterwards and how many were inserted.  [c] is the number of
    storage calls made before the first INSERT. *)
Fixpoint register_rows (E : Env) (c : nat) (rows : list csv_row)
    (us : gmap string user) : gmap string user * nat :=
  match rows with
  | [] => (us, 0)
  | row :: rest =>
      match stripped row with
      | Some (email, name, role) =>
          match us !! email with
          | Some _ => register_rows E (S c) rest us
          | None =>
              let '(us', k) :=
                register_rows E (S c) rest
                  (<[email := mk_user name role (Some (env_hash E c "default123"))]> us) in
              (us', S k)
          end
      | None => (us, 0)
      end
  end.

(** The emails of the rows of an upload. *)
Definition row_emails (rows : list csv_row) : list string :=
  omap (λ row, (λ f : string * string * string, f.1.1) <$> stripped row) rows.

(** An upload with a bad second row, and one with two good rows of which
    the second repeats an email. *)
Definition upload_bad_second : list csv_row :=
  [mk_csv_row (Some "a@b.com") (Some "Alice") (Some "student");
   mk_csv_row (Some "bad-email") (Some "Bob") (Some "student")].

Definition upload_good : list csv_row :=
  [mk_csv_row (Some "a@b.com") (Some "Alice") (Some "student");
   mk_csv_row (Some " s@c.edu ") (Some "Sam again") (Some "admin")].

(** ** Further functions of app.py *)

(** What [verify_user] hands back as its first component on success: the
    dictionary with the keys name and role. *)
Record login := mk_login { login_name : string; login_role : string }.

(** SELECT password_hash, name, role FROM users WHERE email = ?, read with
    [fetchone()] *)
Definition sql_select_user (email : string) (d : Db) : option user :=
  users d !! email.

Section VerifyUser.
(** [pbkdf2_sha256.verify(password, stored_hash)] of passlib: true or false,
    or an exception for what it does not take as a hash ([None] included). *)
Variable pbkdf2_verify : string → option string → exn + bool.
Variable E : Env.

(** [verify_user] (lines 46-61) *)
Definition verify_user (email password : string) : M (option login * option string) :=
  def_ (try_except_sqlite
    (connect E ;;
     result ← execute_query E (sql_select_user email);
     close ;;
     match result with
     | None => mret (None, Some "Email not found.")
     | Some row =>
         match pbkdf2_verify password (u_password_hash row) with
         | inl e => raise e
         | inr true => mret (Some (mk_login (u_name row) (u_role row)), None)
         | inr false => mret (None, Some "Incorrect password.")
         end
     end)
    (fun _ => mret (None, Some "Database error. Please try again."))).
End VerifyUser.

(** [s.endswith(x)] *)
Fixpoint ends_with (x s : string) : bool :=
  String.eqb x s
  || match s with
     | EmptyString => false
     | String _ r => ends_with x r
     end.

(** A stand-in for passlib in examples: it accepts the hashes that
    [sample_env] makes of the password, which end with it. *)
Definition sample_verify (password : string) (h : option string) : exn + bool :=
  match h with
  | None => inl (OtherError "hash must be unicode or bytes, not None")
  | Some h' => inr (ends_with ("$" +:+ password) h')
  end.

(** ORDER BY timestamp DESC, on projects. *)
Definition project_later_first (x y : project) : Prop :=
  string_le (p_timestamp y) (p_timestamp x).

#[global] Instance project_later_first_dec x y : Decision (project_later_first x y).
Proof. unfold project_later_first. apply _. Defined.

(** SELECT project_title, timestamp FROM projects WHERE email = ?
    ORDER BY timestamp DESC *)
Definition sql_select_user_projects (email : string) (d : Db) : list (string * string) :=
  (λ p, (p_project_title p, p_timestamp p))
    <$> merge_sort project_later_first (filter (λ p, p_email p = email) (projects d)).

Definition user_projects_sql : string :=
  "SELECT project_title, timestamp FROM projects WHERE email = ? ORDER BY timestamp DESC".

(** A [DataFrame] of two text columns: its column names and its rows. *)
Definition projects_frame : Type := list string * list (string * string).

(** [DataFrame.empty] *)
Definition frame_empty (f : projects_frame) : bool :=
  match f.1, f.2 with
  | [], _ => true
  | _, [] => true
  | _, _ => false
  end.

Section GetUserProjects.
Variable E : Env.

(** [get_user_projects] (lines 233-242); on [sqlite3.Error] it hands back
    [pd.DataFrame()], a frame without columns. *)
Definition get_user_projects (email : string) : M projects_frame :=
  def_ (try_except_sqlite
    (connect E ;;
     user_projects ← pandas_read_sql_query E user_projects_sql
                       (sql_select_user_projects email);
     close ;;
     mret (["project_title"; "timestamp"], user_projects))
    (fun _ => mret ([], []))).
End GetUserProjects.

(** *** The table of the PDF export (lines 367-379) *)

(** Python counts and slices a [str] by code points; in UTF-8 every code
    point starts with a byte outside 128..191. *)
Definition is_continuation (c : ascii) : bool := in_range "128" "191" c.

(** [len(s)] *)
Fixpoint py_len (s : string) : nat :=
  match s with
  | EmptyString => 0
  | String c r => if is_continuation c then py_len r else S (py_len r)
  end.

(** [s[:n]] *)
Fixpoint py_take (n : nat) (s : string) : string :=
  match s with
  | EmptyString => EmptyString
  | String c r =>
      if is_continuation c then String c (py_take n r)
      else match n with
           | 0 => EmptyString
           | S n' => String c (py_take n' r)
           end
  end.

(** [s[:n] + "..." if len(str(s)) > n else str(s)] *)
Definition truncated (n : nat) (s : string) : string :=
  if Nat.ltb n (py_len s) then py_take n s +:+ "..." else s.

(** [str(row['feedback_rating']) if pd.notna(row['feedback_rating']) else
    "Not rated"]: the value is an integer or a float according to the type
    pandas gave the column. *)
Definition pdf_header : list string :=
  ["Email"; "Name"; "Project"; "Question"; "Response"; "Timestamp"; "Rating"].

Section PdfExport.
Variable E : Env.

Definition pdf_rating (t : dtype) (r : option Z) : string :=
  match r with
  | None => "Not rated"
  | Some _ => render_rating E t r
  end.

Definition pdf_row (t : dtype) (r : log_row) : list string :=
  [l_email r; l_name r; l_project_title r; truncated 50 (l_question r);
   truncated 100 (l_response r); l_timestamp r; pdf_rating t (l_feedback_rating r)].

(** The list [data] handed to the table of the report. *)
Definition pdf_table_data (query_logs : list log_row) : list (list string) :=
  pdf_header :: (pdf_row (rating_dtype query_logs) <$> query_logs).

(** What reportlab makes of the table (lines 382-407): the bytes of the
    document, or an exception. *)
Variable reportlab_build : list (list string) → exn + string.

(** [export_query_logs_to_pdf] (lines 332-414): the inner [try] turns every
    exception of the rendering into [None]. *)
Definition export_query_logs_to_pdf (student_email project_filter : option string)
    (date_from date_to : option date) : M (option string) :=
  def_ (try_except_sqlite
    (connect E ;;
     query_logs ← read_sql_query E
                    (export_conditions student_email project_filter date_from date_to);
     close ;;
     if query_logs is [] then mret None
     else match reportlab_build (pdf_table_data query_logs) with
          | inr pdf_data => mret (Some pdf_data)
          | inl _ => mret None
          end)
    (fun _ => mret None)).
End PdfExport.

(** The title [save_query] stores (lines 198-199): the argument when it is
    not empty, else the title found for the student when it is not empty,
    else the placeholder. *)
Definition resolve_title (project_title mapped : option string) : string :=
  if truthy project_title then default "" project_title
  else or_else mapped "No Project Assigned".

(** Every row of [queries] has a title that is not empty. *)
Definition titles_present (d : Db) : Prop :=
  Forall (λ q, q_project_title q ≠ "") (queries d).

(** The uuids an environment can draw are not ids of [queries]. *)
Definition fresh_query_ids (E : Env) (d : Db) : Prop :=
  ∀ c, env_uuid E c ∉ q_query_id <$> queries d.

(** An environment without faults that draws the same uuid at every call. *)
Definition fixed_uuid_env (tag : string) : Env :=
  mk_env None (env_hash (sample_env tag)) (λ _, "uuid-" +:+ tag)
    (env_now (sample_env tag)) (env_date (sample_env tag)) (env_float (sample_env tag)).

(** ** The import of student-project mappings *)

(** [df.columns] has the two required columns. *)
Definition mapping_header_ok (columns : list string) : bool :=
  forallb (λ col, bool_decide (col ∈ columns)) ["student_id"; "project_title"].

(** The email and the title of a line after [str(...).strip()]. *)
Definition mapping_email (row : option string * option string) : string :=
  strip (default "" row.1).
Definition mapping_title (row : option string * option string) : string :=
  strip (default "" row.2).

(** A line that has both values and an email that passes the check. *)
Definition mapping_row_ok (row : option string * option string) : bool :=
  match row with
  | (Some student_id, Some _) => is_valid_email (strip student_id)
  | _ => false
  end.

(** INSERT OR REPLACE of the lines, in order, into the rows of
    student_project_mapping. *)
Definition replace_mappings (timestamp : string)
    (rows : list (option string * option string)) (m : gmap string mapping)
    : gmap string mapping :=
  foldl (λ m row, <[mapping_email row := mk_mapping (mapping_title row) timestamp]> m)
        m rows.

(** A mapping file with two lines for the same student. *)
Definition mapping_upload : list (option string * option string) :=
  [(Some "s@c.edu", Some "Robot Arm"); (Some "t@c.edu", Some "Solar Car");
   (Some " s@c.edu ", Some " Wind Farm ")].

(** ** The pattern of [is_valid_email], read as a regular expression *)

(** Every character of [s] is in the class [p]. *)
Fixpoint string_forall (p : ascii → bool) (s : string) : bool :=
  match s with
  | EmptyString => true
  | String c r => p c && string_forall p r
  end.

(** The strings [re.match] accepts for
    [^[a-zA-Z0-9_.+-]+@[a-zA-Z0-9-]+\.[a-zA-Z0-9-.]+$]: some way of cutting
    the string into a local part, the at sign, a domain, a dot and a tail,
    each part not empty and made of its class, with at most a final line
    feed after the tail. *)
Definition email_shape (email : string) : Prop :=
  ∃ loc dom tl nl,
    email = loc +:+ "@" +:+ dom +:+ "." +:+ tl +:+ nl
    ∧ loc ≠ "" ∧ string_forall is_local_char loc = true
    ∧ dom ≠ "" ∧ string_forall is_domain_char dom = true
    ∧ tl ≠ "" ∧ string_forall is_tail_char tl = true
    ∧ (nl = "" ∨ nl = String line_feed "").

(** ** Stored password hashes *)

(** Every row of [users] has a password hash. *)
Definition users_have_hash (d : Db) : Prop :=
  map_Forall (λ _ u, is_Some (u_password_hash u)) (users d).
(** ** Facts about the embedding

    *** The functions on small inputs *)

Example is_valid_email_accepts : is_valid_email "a.b+c@x-y.co.uk" = true.
Proof. reflexivity. Qed.

Example is_valid_email_rejects :
  is_valid_email "bad-email" = false ∧ is_valid_email "a@b" = false
  ∧ is_valid_email "a@.com" = false ∧ is_valid_email "a b@c.de" = false.
Proof. repeat split. Qed.

Example strip_both_ends : strip (" " +:+ String "009" "s@c.edu" +:+ String "010" " ") = "s@c.edu".
Proof. reflexivity. Qed.

Example csv_field_quotes :
  csv_field "plain" = "plain"
  ∧ csv_field "a,b" = String dquote ("a,b" +:+ String dquote EmptyString)
  ∧ csv_field (String dquote "x")
    = String dquote (String dquote (String dquote ("x" +:+ String dquote EmptyString)))
  ∧ csv_field ("r3" +:+ String carriage_return EmptyString)
    = "r3" +:+ String carriage_return EmptyString.
Proof. repeat split. Qed.

(** Month and day are padded, the year is not. *)
Example strftime_ymd_pads :
  strftime_ymd (mk_date 2024 5 1 eq_refl) = "2024-05-01"
  ∧ strftime_ymd (mk_date 999 1 1 eq_refl) = "999-01-01"
  ∧ iso_date (mk_date 999 1 1 eq_refl) = "0999-01-01".
Proof. repeat split. Qed.

(** The float of an integer, printed: exact up to 2^53, the nearest even
    integer from there on. *)
Example float_repr_rounds E :
  float_repr E 5 = "5.0" ∧ float_repr E (-3) = "-3.0"
  ∧ float_repr E 9007199254740992 = "9007199254740992.0"
  ∧ float_repr E 9007199254740993 = "9007199254740992.0"
  ∧ float_repr E 9007199254740995 = "9007199254740996.0".
Proof. repeat split. Qed.

(** The scenario of the specification: after [save_project] of "AI Tutor"
    the student's current title is "AI Tutor". *)
Example save_project_then_title :
  result (run (get_project_title_for_student (sample_env "e") "s@c.edu")
            (exec (sample_env "c") (SaveProject "s@c.edu" "AI Tutor") fresh_db))
  = Returns (Some "AI Tutor").
Proof. vm_compute. reflexivity. Qed.

(** A row with a rating next to a row without: pandas writes the rating as
    a float. *)
Example to_csv_mixed_ratings E :
  to_csv E [mk_log_row "s@c.edu" "Sam" "AI Tutor" "Why, then?" "So." "2024-05-02 10:00:00"
            (Some 5%Z);
          mk_log_row "s@c.edu" "Sam" "AI Tutor" "How?" "Thus." "2024-05-01 09:31:00" None]
  = "email,name,project_title,question,response,timestamp,feedback_rating"
    +:+ String line_feed
         ("s@c.edu,Sam,AI Tutor," +:+ String dquote ("Why, then?" +:+ String dquote
            (",So.,2024-05-02 10:00:00,5.0" +:+ String line_feed
               ("s@c.edu,Sam,AI Tutor,How?,Thus.,2024-05-01 09:31:00,"
                +:+ String line_feed EmptyString)))).
Proof. reflexivity. Qed.

(** *** Reasoning about runs *)

Lemma tick_ok E s : env_fault E = None → tick E s = Val tt (bump s).
Proof. intros H. unfold tick. now rewrite H. Qed.

Lemma tick_cases E s :
  tick E s = Val tt (bump s) ∨ ∃ e, tick E s = Exc e (bump s).
Proof.
  unfold tick. destruct (env_fault E) as [[k e]|]; [|now left].
  destruct (Nat.eqb k (calls s)); [right; now exists e | now left].
Qed.

(** A storage call that is not the one the environment fails. *)
Lemma tick_not_at E s :
  (∀ e, env_fault E ≠ Some (calls s, e)) → tick E s = Val tt (bump s).
Proof.
  intros H. unfold tick. destruct (env_fault E) as [[k e]|] eqn:Hf; [|reflexivity].
  destruct (Nat.eqb_spec k (calls s)) as [->|_]; [|reflexivity].
  now destruct (H e).
Qed.

(** Unfolding of a function of the program down to its storage calls. *)
Ltac unfold_program :=
  unfold run, start, def_, try_except_sqlite, try_except_any, connect,
    pandas_read_sql_query,
    execute_query, execute_dml, execute_ddl, commit, close, hash_password,
    uuid4, now_timestamp, st_error, with_state, raise, view,
    mbind, M_bind, bind, mret, M_ret, ret in *.

(** One storage call that does not fail. *)
Ltac tick_through H :=
  repeat (rewrite (tick_ok _ _ H); cbn -[tick sql_select_distinct_titles sql_select_logs]).

(** One storage call: it goes through, or it raises. *)
Ltac tick_split E :=
  match goal with
  | |- context [tick E ?s] =>
      let e := fresh "e" in
      destruct (tick_cases E s) as [-> | [e ->]];
      cbn -[tick sql_select_distinct_titles sql_select_logs]
  end.

Section SaveUser.
Variable E : Env.
Hypothesis no_fault : env_fault E = None.

Lemma save_user_update_only d email name password role :
  truthy password = false →
  run (save_user E email name password role) d
  = mk_run (Returns (true, "User saved successfully."))
      (match users d !! email with
       | Some u => set_users (insert email (mk_user name role (u_password_hash u))) d
       | None => d
       end) [].
Proof.
  intros Hp. unfold save_user. rewrite Hp. unfold_program.
  cbn -[tick]. tick_through no_fault.
  unfold sql_update_user_name_role.
  destruct (users d !! email); cbn -[tick]; tick_through no_fault; reflexivity.
Qed.
End SaveUser.

(** *** Properties of the file that every statement of a run keeps *)

Section Preserves.
Variable E : Env.
Variable P : Db → Prop.

Lemma inv_state_view s : inv_state P s → P (view s).
Proof. intros [Hd Hp]. unfold view. destruct (pending s); simpl; auto. Qed.

Lemma preserves_ret {A} (a : A) : preserves P (mret a).
Proof. intros s H. exact H. Qed.

Lemma preserves_raise {A} e : preserves P (@raise A e).
Proof. intros s H. exact H. Qed.

Lemma preserves_bind {A B} (m : M A) (k : A → M B) :
  preserves P m → (∀ a, preserves P (k a)) → preserves P (m ≫= k).
Proof.
  intros Hm Hk s H. specialize (Hm s H).
  unfold mbind, M_bind, bind. destruct (m s); [apply Hk|]; assumption.
Qed.

Lemma preserves_tick : preserves P (tick E).
Proof.
  intros s H. destruct (tick_cases E s) as [-> | [e ->]]; exact H.
Qed.

Lemma preserves_with_state {A} (f : state → res A) :
  (∀ s, inv_state P s →
        match f s with Val _ s' => inv_state P s' | Exc _ s' => inv_state P s' end) →
  preserves P (with_state f).
Proof. intros H. exact H. Qed.

Lemma preserves_execute_query {A} (f : Db → A) : preserves P (execute_query E f).
Proof.
  unfold execute_query. apply preserves_bind; [apply preserves_tick|].
  intros _. apply preserves_with_state. intros s H. exact H.
Qed.

Lemma preserves_execute_dml f : closed P f → preserves P (execute_dml E f).
Proof.
  intros Hf. unfold execute_dml. apply preserves_bind; [apply preserves_tick|].
  intros _. apply preserves_with_state. intros s H.
  pose proof (inv_state_view s H) as Hv.
  destruct H as [Hd Hp].
  destruct (f (view s)) as [e | [d n]] eqn:Hfd; split; simpl; try exact Hd;
    intros p [= <-]; eauto.
Qed.

Lemma preserves_execute_ddl f : closed_ddl P f → preserves P (execute_ddl E f).
Proof.
  intros Hf. unfold execute_ddl. apply preserves_bind; [apply preserves_tick|].
  intros _. apply preserves_with_state. intros s H.
  pose proof (inv_state_view s H) as Hv.
  destruct (f (view s)) as [e | d] eqn:Hfd; [exact H|].
  destruct H as [Hd Hp].
  destruct (pending s) eqn:Hq; split; simpl; try exact Hd; try discriminate.
  - intros p [= <-]. eauto.
  - eauto.
Qed.

Lemma preserves_commit : preserves P (commit E).
Proof.
  unfold commit. apply preserves_bind; [apply preserves_tick|].
  intros _. apply preserves_with_state. intros s H.
  split; simpl; [now apply inv_state_view | discriminate].
Qed.

Lemma preserves_close : preserves P close.
Proof.
  intros s [Hd _]. unfold close. split; simpl; [exact Hd | intros p; discriminate].
Qed.

Lemma preserves_st_error msg : preserves P (st_error msg).
Proof. intros s H. exact H. Qed.

Lemma preserves_hash_password p : preserves P (hash_password E p).
Proof. intros s H. exact H. Qed.

Lemma preserves_uuid4 : preserves P (uuid4 E).
Proof. intros s H. exact H. Qed.

Lemma preserves_now_timestamp : preserves P (now_timestamp E).
Proof. intros s H. exact H. Qed.

Lemma preserves_try_except_sqlite {A} (body : M A) handler :
  preserves P body → (∀ msg, preserves P (handler msg)) →
  preserves P (try_except_sqlite body handler).
Proof.
  intros Hb Hh s H. specialize (Hb s H). unfold try_except_sqlite.
  destruct (body s) as [a s' | [msg | msg] s']; try assumption.
  now apply Hh.
Qed.

Lemma preserves_try_except_any {A} (body : M A) handler :
  preserves P body → (∀ msg, preserves P (handler msg)) →
  preserves P (try_except_any body handler).
Proof.
  intros Hb Hh s H. specialize (Hb s H). unfold try_except_any.
  destruct (body s) as [a s' | e s']; try assumption.
  now apply Hh.
Qed.

Lemma preserves_def {A} (body : M A) : preserves P body → preserves P (def_ body).
Proof.
  intros Hb s [Hd Hp]. unfold def_.
  assert (Hi : inv_state P (mk_state (disk s) None (calls s) (shown s))).
  { split; simpl; [exact Hd | intros p; discriminate]. }
  specialize (Hb _ Hi).
  destruct (body _) as [a s' | e s']; destruct Hb as [Hd' _];
    (split; simpl; [exact Hd' | exact Hp]).
Qed.

(** What a preserved property says of a whole run. *)
Lemma preserves_run {A} (m : M A) d : preserves P m → P d → P (db_after (run m d)).
Proof.
  intros Hm Hd. unfold run.
  assert (Hi : inv_state P (start d)).
  { split; simpl; [assumption | intros p; discriminate]. }
  specialize (Hm _ Hi). destruct (m (start d)); destruct Hm as [Hm _]; exact Hm.
Qed.
End Preserves.

Create HintDb preserves.
#[global] Hint Resolve preserves_ret preserves_raise preserves_tick
  preserves_execute_query preserves_commit preserves_close preserves_st_error
  preserves_hash_password preserves_uuid4 preserves_now_timestamp : preserves.
#[global] Hint Extern 2 (preserves _ (mbind _ _)) =>
  apply preserves_bind; [|intros] : preserves.
#[global] Hint Extern 2 (preserves _ (def_ _)) => apply preserves_def : preserves.
#[global] Hint Extern 2 (preserves _ (try_except_sqlite _ _)) =>
  apply preserves_try_except_sqlite; [|intros] : preserves.
#[global] Hint Extern 2 (preserves _ (try_except_any _ _)) =>
  apply preserves_try_except_any; [|intros] : preserves.
#[global] Hint Extern 2 (preserves _ (execute_dml _ _)) =>
  apply preserves_execute_dml : preserves.
#[global] Hint Extern 2 (preserves _ (execute_ddl _ _)) =>
  apply preserves_execute_ddl : preserves.
#[global] Hint Extern 3 (preserves _ (if ?b then _ else _)) => destruct b : preserves.
#[global] Hint Extern 3 (preserves _ (match ?x with _ => _ end)) =>
  destruct x : preserves.


(** *** save_user *)

(** C9. With the password left out ([None], or the empty string of a blank
    input box), and no storage error, [save_user] reports success and
    changes at most the name and the role of the row of [email]: the
    password hash of that row, every other row and every other table stay as
    they were; when no row has this email, nothing changes and the call
    still reports success. *)
Theorem save_user_without_password E d email name role password :
  env_fault E = None → truthy password = false →
  let r := run (save_user E email name password role) d in
  result r = Returns (true, "User saved successfully.")
  ∧ (∀ u, users d !! email = Some u →
          users (db_after r) !! email = Some (mk_user name role (u_password_hash u)))
  ∧ (∀ other, other ≠ email → users (db_after r) !! other = users d !! other)
  ∧ (users d !! email = None → db_after r = d)
  ∧ db_schema (db_after r) = db_schema d
  ∧ projects (db_after r) = projects d
  ∧ queries (db_after r) = queries d
  ∧ student_project_mapping (db_after r) = student_project_mapping d
  ∧ student_project_map (db_after r) = student_project_map d.
Proof.
  intros Hf Hp r. subst r. rewrite (save_user_update_only E Hf d _ _ _ _ Hp).
  cbn [result db_after].
  split; [reflexivity|].
  destruct (users d !! email) as [u|] eqn:Hu.
  - repeat split; try reflexivity; try discriminate.
    + intros u' [= <-]. cbn. apply lookup_insert_eq.
    + intros other Hne. cbn. now apply lookup_insert_ne.
  - repeat split; try reflexivity. intros u'; discriminate.
Qed.

Lemma save_user_without_password_witness :
  env_fault (sample_env "b") = None ∧ truthy None = false
  ∧ result (run (save_user (sample_env "b") "admin@college.edu" "Jane A." None "admin")
              fresh_db)
    = Returns (true, "User saved successfully.").
Proof.
  split; [reflexivity|]. split; [reflexivity|].
  apply (save_user_without_password (sample_env "b") fresh_db "admin@college.edu"
           "Jane A." "admin" None); reflexivity.
Defined.

(** *** delete_user *)

(** The rows left when the user and everything keyed by the email are
    deleted. *)
Lemma delete_user_run E d email :
  env_fault E = None →
  run (delete_user E email) d
  = match users d !! email with
    | Some _ =>
        mk_run (Returns (true, "User deleted successfully."))
          (mk_db (db_schema d) (delete email (users d))
                 (filter (λ p, p_email p ≠ email) (projects d))
                 (filter (λ q, q_email q ≠ email) (queries d))
                 (delete email (student_project_mapping d))
                 (student_project_map d)) []
    | None => mk_run (Returns (false, "User not found.")) d []
    end.
Proof.
  intros Hf. unfold delete_user. unfold_program.
  cbn -[tick]. tick_through Hf. unfold sql_delete_user.
  destruct (users d !! email) as [u|] eqn:Hu; cbn -[tick]; [|destruct d; reflexivity].
  tick_through Hf. unfold sql_delete_mapping. cbn.
  destruct (student_project_mapping d !! email) eqn:Hm; cbn -[tick];
    tick_through Hf; [reflexivity|].
  rewrite (delete_id _ _ Hm). reflexivity.
Qed.

(** C2. Without a storage error: for an email present in [users] the call
    succeeds and no row of users, queries, student_project_mapping or
    projects is keyed by the email afterwards; for an email that is absent
    the call fails with "User not found." and the file is unchanged; a
    second call with the same email is always of the second kind. *)
Theorem delete_user_cascade E E' d email :
  env_fault E = None → env_fault E' = None →
  let r := run (delete_user E email) d in
  let r' := run (delete_user E' email) (db_after r) in
  (is_Some (users d !! email) →
     result r = Returns (true, "User deleted successfully.")
     ∧ users (db_after r) !! email = None
     ∧ student_project_mapping (db_after r) !! email = None
     ∧ Forall (λ q, q_email q ≠ email) (queries (db_after r))
     ∧ Forall (λ p, p_email p ≠ email) (projects (db_after r)))
  ∧ (users d !! email = None →
     result r = Returns (false, "User not found.") ∧ db_after r = d)
  ∧ result r' = Returns (false, "User not found.")
  ∧ db_after r' = db_after r.
Proof.
  intros Hf Hf' r r'.
  assert (Hgone : users (db_after r) !! email = None).
  { subst r. rewrite (delete_user_run E d email Hf).
    destruct (users d !! email) eqn:Hu; cbn; [apply lookup_delete_eq | exact Hu]. }
  split; [|split].
  - intros [u Hu]. subst r r'. rewrite (delete_user_run E d email Hf), Hu. cbn.
    repeat split.
    + apply lookup_delete_eq.
    + apply lookup_delete_eq.
    + apply Forall_forall. intros q Hq. now apply list_elem_of_filter in Hq.
    + apply Forall_forall. intros p Hp. now apply list_elem_of_filter in Hp.
  - intros Hu. subst r r'. rewrite (delete_user_run E d email Hf), Hu. now cbn.
  - subst r'. rewrite (delete_user_run E' _ email Hf'), Hgone. now cbn.
Qed.

Lemma delete_user_cascade_witness :
  let r := run (delete_user (sample_env "e") "s@c.edu") sample_db in
  env_fault (sample_env "e") = None ∧ env_fault (sample_env "f") = None
  ∧ is_Some (users sample_db !! "s@c.edu")
  ∧ queries (db_after r) = [] ∧ projects (db_after r) = []
  ∧ result (run (delete_user (sample_env "f") "s@c.edu") (db_after r))
    = Returns (false, "User not found.")
  ∧ db_after (run (delete_user (sample_env "f") "s@c.edu") (db_after r)) = db_after r.
Proof.
  intros r.
  split; [reflexivity|]. split; [reflexivity|].
  split; [eexists; vm_compute; reflexivity|].
  split; [vm_compute; reflexivity|]. split; [vm_compute; reflexivity|].
  apply (delete_user_cascade (sample_env "e") (sample_env "f") sample_db "s@c.edu");
    reflexivity.
Defined.

(** *** save_query *)

(** Names the property of the run in the goal, so that symbolic execution
    does not unfold it. *)
Ltac name_post t Post :=
  pattern t; match goal with |- ?F _ => set (Post := F) end.

(** The statements of [save_query] from the SELECT on, whatever fails. *)
Ltac save_query_stop Hstop :=
  try match goal with x : exn |- _ => destruct x end;
  cbn -[tick]; try (apply Hstop; cbn; done).

Ltac save_query_tail E Hstop Hins Hsel :=
  tick_split E; [|save_query_stop Hstop];
  match goal with
  | |- context [sql_select_query ?e ?q ?t ?d] =>
      destruct (sql_select_query e q t d) eqn:Hsel; cbn -[tick];
      [apply Hstop; cbn; done|]
  end;
  tick_split E; [|save_query_stop Hstop];
  match goal with
  | |- context [storable ?x] =>
      destruct (storable x) eqn:?; cbn -[tick]; [|apply Hstop; cbn; done]
  end;
  case_bool_decide; cbn -[tick]; [apply Hstop; cbn; done|];
  tick_split E; [|save_query_stop Hstop];
  apply Hins; done.

(** What a call of [save_query] does to the file, whatever the environment:
    it leaves it as it is, or it appends one row that no row matched and
    whose id is new. *)
Lemma save_query_effect E d e n pt q r t fr :
  let res := run (save_query E e n pt q r t fr) d in
  (db_after res = d
   ∧ (result res = Returns tt → errors_shown res = [] →
      is_Some (sql_select_query e q t d)))
  ∨ (∃ id title, sql_select_query e q t d = None
        ∧ (id ∉ q_query_id <$> queries d)
        ∧ db_after res = set_queries (λ l, l ++ [mk_query id e n title q r t fr]) d
        ∧ errors_shown res = [] ∧ result res = Returns tt).
Proof.
  intros res. subst res.
  name_post (run (save_query E e n pt q r t fr) d) Post.
  assert (Hstop : ∀ res : run_result unit, db_after res = d →
            (result res = Returns tt → errors_shown res = [] →
             is_Some (sql_select_query e q t d)) → Post res)
    by (intros; left; auto).
  assert (Hins : ∀ id title, sql_select_query e q t d = None →
             (id ∉ q_query_id <$> queries d) →
             Post (mk_run (Returns tt)
                    (set_queries (λ l, l ++ [mk_query id e n title q r t fr]) d) [])).
  { intros id title Hs Hid. right. exists id, title. done. }
  clearbody Post.
  unfold save_query, get_project_title_for_student, sql_insert_query. unfold_program.
  cbn -[tick].
  tick_split E; [|save_query_stop Hstop].
  destruct (truthy pt); cbn -[tick].
  - save_query_tail E Hstop Hins Hsel.
  - tick_split E.
    + tick_split E.
      * save_query_tail E Hstop Hins Hsel.
      * save_query_stop Hstop. save_query_tail E Hstop Hins Hsel.
    + save_query_stop Hstop. save_query_tail E Hstop Hins Hsel.
Qed.

(** *** The table [queries] along a history *)

(** A statement that gives back the rows of [queries] it found keeps every
    property of these rows. *)
Ltac frame :=
  let d := fresh "d" in let d' := fresh "d'" in
  let HP := fresh "HP" in let Hf := fresh "Hf" in
  intros d d' ? HP Hf;
  unfold sql_create_table_if_not_exists, create_table_if_not_exists,
    sql_alter_table_add_column, sql_insert_or_ignore_user, insert_or_ignore_user, sql_insert_or_replace_user,
    sql_update_user_name_role, sql_update_user_password, sql_delete_user,
    sql_delete_mapping, sql_delete_projects, sql_insert_project,
    sql_insert_or_ignore_project, sql_insert_project_map,
    sql_insert_or_replace_mapping in Hf;
  repeat case_match; simplify_eq; exact HP.

Ltac frame_ddl :=
  let d := fresh "d" in let d' := fresh "d'" in
  let HP := fresh "HP" in let Hf := fresh "Hf" in
  intros d d' HP Hf;
  unfold sql_create_table_if_not_exists, create_table_if_not_exists,
    sql_alter_table_add_column in Hf;
  repeat case_match; simplify_eq; exact HP.

Section QueriesFrame.
Variable E : Env.
Variable Q : list query → Prop.
Let P (d : Db) : Prop := Q (queries d).

Local Hint Extern 1 (closed _ _) => solve [frame] : preserves.
Local Hint Extern 1 (closed_ddl _ _) => solve [frame_ddl] : preserves.

Lemma init_db_queries : preserves P (init_db E).
Proof. unfold init_db. auto 30 with preserves. Qed.

Lemma reset_user_password_queries email pw :
  preserves P (reset_user_password E email pw).
Proof. unfold reset_user_password. auto 30 with preserves. Qed.

Lemma save_user_queries email name password role :
  preserves P (save_user E email name password role).
Proof. unfold save_user. auto 30 with preserves. Qed.

Lemma save_project_queries email title : preserves P (save_project E email title).
Proof. unfold save_project. auto 30 with preserves. Qed.

Lemma bulk_register_rows_queries rows k : preserves P (bulk_register_rows E rows k).
Proof.
  revert k. induction rows as [|row rest IH]; intros k; cbn [bulk_register_rows].
  - auto with preserves.
  - unfold strip_field. auto 30 with preserves.
Qed.

Lemma bulk_register_users_queries csv_file :
  preserves P (bulk_register_users E csv_file).
Proof.
  pose proof bulk_register_rows_queries.
  unfold bulk_register_users. auto 30 with preserves.
Qed.

Lemma save_mapping_rows_queries rows ts k :
  preserves P (save_mapping_rows E rows ts k).
Proof.
  revert k. induction rows as [|[sid title] rest IH]; intros k;
    cbn [save_mapping_rows].
  - auto with preserves.
  - auto 30 with preserves.
Qed.

Lemma save_student_project_mapping_queries csv_file :
  preserves P (save_student_project_mapping E csv_file).
Proof.
  pose proof save_mapping_rows_queries.
  unfold save_student_project_mapping. auto 30 with preserves.
Qed.

Lemma delete_user_queries email :
  (∀ l, Q l → Q (filter (λ q, q_email q ≠ email) l)) →
  preserves P (delete_user E email).
Proof.
  intros HQ.
  assert (closed P (sql_delete_queries email)).
  { intros d d' n HP [= <- _]. now apply HQ. }
  unfold delete_user. auto 30 with preserves.
Qed.

Lemma submit_rating_queries r email timestamp :
  (∀ l, Q l → Q (rate r email timestamp <$> l)) →
  preserves P (submit_rating E r email timestamp).
Proof.
  intros HQ.
  assert (closed P (sql_update_feedback_rating r email timestamp)).
  { intros d d' n HP [= <- _]. now apply HQ. }
  unfold submit_rating. auto 30 with preserves.
Qed.

(** Every call keeps a property of the rows of [queries] that the three
    writers of the table keep. *)
Lemma exec_queries o d : op_closed Q o → Q (queries d) → Q (queries (exec E o d)).
Proof.
  intros Hc Hd.
  destruct o as [ | e p | e n p r | e n pt qn rs t fr | e t | e | r e t | f | f ];
    cbn [exec op_closed] in *.
  - apply (preserves_run P); [apply init_db_queries | exact Hd].
  - apply (preserves_run P); [apply reset_user_password_queries | exact Hd].
  - apply (preserves_run P); [apply save_user_queries | exact Hd].
  - destruct (save_query_effect E d e n pt qn rs t fr)
      as [[-> _] | (id & title & Hs & Hid & -> & _)].
    + exact Hd.
    + cbn. now apply Hc.
  - apply (preserves_run P); [apply save_project_queries | exact Hd].
  - apply (preserves_run P); [now apply delete_user_queries | exact Hd].
  - apply (preserves_run P); [now apply submit_rating_queries | exact Hd].
  - apply (preserves_run P); [apply bulk_register_users_queries | exact Hd].
  - apply (preserves_run P); [apply save_student_project_mapping_queries | exact Hd].
Qed.
End QueriesFrame.

(** *** De-duplication of queries *)

Lemma rate_query_key r email timestamp q : query_key (rate r email timestamp q) = query_key q.
Proof. unfold rate. now case_bool_decide. Qed.

Lemma same_query_key e qn t q : same_query e qn t q ↔ query_key q = (e, qn, t).
Proof. unfold same_query, query_key. split; [intros (-> & -> & ->) | intros [= -> -> ->]]; done. Qed.

Lemma no_match_key e qn t l :
  head (filter (same_query e qn t) l) = None → (e, qn, t) ∉ query_key <$> l.
Proof.
  intros H%head_None Hin. apply list_elem_of_fmap in Hin as (q & Hk & Hq).
  assert (Hf : q ∈ filter (same_query e qn t) l).
  { apply list_elem_of_filter. split; [apply same_query_key; now symmetry | exact Hq]. }
  rewrite H in Hf. now apply not_elem_of_nil in Hf.
Qed.

Lemma deduplicated_closed o : op_closed (λ l, NoDup (query_key <$> l)) o.
Proof.
  destruct o as [ | e p | e n p r | e n pt qn rs t fr | e t | e | r e t | f | f ];
    cbn [op_closed]; try exact I.
  - intros l id title Hl Hnone Hid. rewrite fmap_app. apply NoDup_app.
    split; [exact Hl|]. split; [|apply NoDup_singleton].
    intros k Hk Hk'. apply list_elem_of_singleton in Hk'. subst k.
    now apply (no_match_key e qn t l).
  - intros l Hl. eapply sublist_NoDup; [exact Hl|].
    apply fmap_sublist, sublist_filter.
  - intros l Hl. rewrite <- list_fmap_compose.
    erewrite list_fmap_ext; [exact Hl|].
    intros i q _. apply rate_query_key.
Qed.

(** No history stores the same (email, question, timestamp) twice. *)
Lemma reachable_deduplicated d : reachable d → deduplicated d.
Proof.
  induction 1 as [|E o d Hr IH]; [apply NoDup_nil_2|].
  unfold deduplicated. apply (exec_queries E (λ l, NoDup (query_key <$> l)));
    [apply deduplicated_closed | exact IH].
Qed.

Lemma deduplicated_at_most_one e qn t l :
  NoDup (query_key <$> l) → (length (filter (same_query e qn t) l) ≤ 1)%nat.
Proof.
  induction l as [|q l IH]; intros Hl; [cbn; lia|].
  rewrite fmap_cons in Hl. apply NoDup_cons in Hl as [Hq Hl].
  rewrite filter_cons. destruct (decide (same_query e qn t q)) as [Hs|Hs]; [|auto].
  assert (Hnil : filter (same_query e qn t) l = []).
  { destruct (filter (same_query e qn t) l) as [|q' f] eqn:Hf; [reflexivity|].
    exfalso. apply Hq.
    assert (Hin : q' ∈ filter (same_query e qn t) l) by (rewrite Hf; left).
    apply list_elem_of_filter in Hin as [Hs' Hin].
    apply same_query_key in Hs, Hs'. rewrite Hs, <- Hs'.
    now apply list_elem_of_fmap_2. }
  rewrite Hnil. cbn. lia.
Qed.

(** A call for a triple that has a row, without storage error: nothing is
    written, nothing is shown, and the call returns as after an insert. *)
Lemma save_query_skips E d e n pt q r t fr :
  env_fault E = None → is_Some (sql_select_query e q t d) →
  run (save_query E e n pt q r t fr) d = mk_run (Returns tt) d [].
Proof.
  intros Hf [row Hrow]. unfold save_query, get_project_title_for_student.
  unfold_program. cbn -[tick]. tick_through Hf.
  destruct (truthy pt); cbn -[tick]; tick_through Hf; rewrite Hrow; reflexivity.
Qed.

(** C1. On every file the program can produce: after two calls of
    [save_query] with the same email, question and timestamp (the other
    arguments and the environments are free) at most one row has this
    triple; when the first call returns without reporting a failure,
    exactly one row has it, and the second call leaves the whole file, hence
    that row with its response and feedback_rating, unchanged.  The second
    call is skipped silently: unless one of its own storage calls fails, it
    returns as the first did and shows no message, whatever its other
    arguments are. *)
Theorem save_query_twice E1 E2 d email question timestamp
    name1 name2 title1 title2 response1 response2 rating1 rating2 :
  reachable d →
  let r1 := run (save_query E1 email name1 title1 question response1 timestamp rating1) d in
  let r2 := run (save_query E2 email name2 title2 question response2 timestamp rating2)
              (db_after r1) in
  (length (rows_with email question timestamp (db_after r2)) ≤ 1)%nat
  ∧ (result r1 = Returns tt → errors_shown r1 = [] →
     length (rows_with email question timestamp (db_after r2)) = 1
     ∧ db_after r2 = db_after r1
     ∧ (env_fault E2 = None → result r2 = Returns tt ∧ errors_shown r2 = [])).
Proof.
  intros Hd r1 r2.
  assert (Hd1 : reachable (db_after r1))
    by apply (reachable_step E1 (SaveQuery email name1 title1 question response1
                                   timestamp rating1) d Hd).
  assert (Hd2 : reachable (db_after r2))
    by apply (reachable_step E2 (SaveQuery email name2 title2 question response2
                                   timestamp rating2) _ Hd1).
  pose proof (deduplicated_at_most_one email question timestamp _
                (reachable_deduplicated _ Hd2)) as Hle.
  split; [exact Hle|]. intros Hres Hshown.
  assert (Hsome : is_Some (sql_select_query email question timestamp (db_after r1))).
  { destruct (save_query_effect E1 d email name1 title1 question response1 timestamp
                rating1) as [[Heq Hs] | (id & title & Hs & Hid & Heq & _)];
      fold r1 in Heq |- *; rewrite Heq.
    - now apply Hs.
    - unfold sql_select_query. cbn. rewrite filter_app.
      apply head_is_Some. intros Hnil. apply app_eq_nil in Hnil as [_ Hnil].
      rewrite filter_cons in Hnil. now destruct (decide _) as [|[]]. }
  assert (Heq2 : db_after r2 = db_after r1).
  { destruct (save_query_effect E2 (db_after r1) email name2 title2 question response2
                timestamp rating2) as [[Heq _] | (id & title & Hs & _)].
    - exact Heq.
    - rewrite Hs in Hsome. now destruct Hsome. }
  assert (Hsilent : env_fault E2 = None → result r2 = Returns tt ∧ errors_shown r2 = []).
  { intros Hf2. unfold r2.
    rewrite (save_query_skips E2 (db_after r1) email name2 title2 question response2
               timestamp rating2 Hf2 Hsome).
    now split. }
  split; [|split; [exact Heq2 | exact Hsilent]].
  unfold rows_with in *. rewrite Heq2 in *.
  apply head_is_Some in Hsome. unfold sql_select_query in Hsome.
  destruct (filter _ (queries (db_after r1))); cbn in *; [done | lia].
Qed.

Lemma sample_db_reachable : reachable sample_db.
Proof. unfold sample_db, fresh_db. repeat apply reachable_step. apply reachable_empty. Qed.

Lemma save_query_twice_witness :
  let r1 := run (save_query (sample_env "e") "s@c.edu" "Sam" None "And then?" "Then this."
                   "2024-05-01 09:40:00" None) sample_db in
  let r2 := run (save_query (sample_env "f") "s@c.edu" "Sam" None "And then?"
                   "Something else." "2024-05-01 09:40:00" (Some 4%Z)) (db_after r1) in
  reachable sample_db ∧ result r1 = Returns tt ∧ errors_shown r1 = []
  ∧ length (rows_with "s@c.edu" "And then?" "2024-05-01 09:40:00" (db_after r2)) = 1
  ∧ db_after r2 = db_after r1
  ∧ (env_fault (sample_env "f") = None → result r2 = Returns tt ∧ errors_shown r2 = []).
Proof.
  intros r1 r2.
  split; [exact sample_db_reachable|]. split; [reflexivity|]. split; [reflexivity|].
  apply (save_query_twice (sample_env "e") (sample_env "f") sample_db "s@c.edu"
           "And then?" "2024-05-01 09:40:00" "Sam" "Sam" None None "Then this."
           "Something else." None (Some 4%Z) sample_db_reachable); reflexivity.
Defined.

(** *** feedback_rating *)

Lemma ratings_closed o :
  op_rating_in_range o →
  op_closed (Forall (λ q, rating_in_range (q_feedback_rating q))) o.
Proof.
  destruct o as [ | e p | e n p r | e n pt qn rs t fr | e t | e | r e t | f | f ];
    cbn [op_closed op_rating_in_range]; try (intros; exact I).
  - intros Hr l id title Hl _ _. apply Forall_app. split; [exact Hl|].
    apply Forall_singleton. exact Hr.
  - intros _ l Hl. apply Forall_forall. intros q Hq.
    apply list_elem_of_filter in Hq as [_ Hq].
    now apply (proj1 (Forall_forall _ _) Hl).
  - intros Hr l Hl. apply Forall_fmap. eapply Forall_impl; [exact Hl|].
    intros q Hq. unfold rate. cbn. case_bool_decide; [exact Hr | exact Hq].
Qed.

(** C7, as the code has it.  Ratings in 1..5 are kept along every history,
    in every environment, provided a rating handed to [save_query] is absent
    or in 1..5 and the rating statement is run with a value in 1..5, as the
    slider of the page gives it. *)
Theorem ratings_in_range_kept history d :
  ratings_in_range d → Forall (λ call, op_rating_in_range call.2) history →
  ratings_in_range (replay history d).
Proof.
  intros Hd Hh. revert d Hd.
  induction Hh as [|[E o] rest Ho Hrest IH]; intros d Hd; [exact Hd|].
  cbn [replay foldl]. apply IH. unfold ratings_in_range.
  apply (exec_queries E (Forall (λ q, rating_in_range (q_feedback_rating q))));
    [now apply ratings_closed | exact Hd].
Qed.

Lemma ratings_in_range_kept_witness :
  let history :=
    [(sample_env "e", SubmitRating 4 "s@c.edu" "2024-05-01 09:31:00");
     (sample_env "f", SaveQuery "s@c.edu" "Sam" None "And then?" "Then this."
                        "2024-05-01 09:40:00" None)] in
  ratings_in_range sample_db
  ∧ Forall (λ call, op_rating_in_range call.2) history
  ∧ ratings_in_range (replay history sample_db).
Proof.
  intros history.
  assert (H0 : ratings_in_range sample_db).
  { apply Forall_forall. intros q Hq. vm_compute in Hq.
    apply list_elem_of_singleton in Hq. now subst q. }
  assert (H1 : Forall (λ call, op_rating_in_range call.2) history).
  { repeat constructor; cbn; lia. }
  split; [exact H0|]. split; [exact H1|].
  exact (ratings_in_range_kept history sample_db H0 H1).
Defined.

(** C7 as stated fails: [save_query] stores the rating it is given. *)
Lemma save_query_stores_any_rating :
  let d := exec (sample_env "e")
             (SaveQuery "s@c.edu" "Sam" None "And then?" "Then this."
                "2024-05-01 09:40:00" (Some 7%Z)) sample_db in
  reachable d ∧ ¬ ratings_in_range d.
Proof.
  intros d. split.
  - apply reachable_step, sample_db_reachable.
  - intros H. assert (Hq : Forall (λ q, rating_in_range (q_feedback_rating q))
                               (queries d)) by exact H.
    vm_compute in Hq. apply Forall_cons in Hq as [_ Hq].
    apply Forall_cons in Hq as [[_ Hq] _]. now apply Hq.
Qed.

(** *** get_available_projects *)

#[global] Instance string_le_total : Total string_le.
Proof. intros a b. apply String.leb_total. Qed.

Lemma get_available_projects_run E d :
  env_fault E = None →
  run (get_available_projects E) d = mk_run (Returns (sql_select_distinct_titles d)) d [].
Proof.
  intros Hf. unfold get_available_projects. unfold_program.
  cbn -[tick sql_select_distinct_titles]. tick_through Hf. reflexivity.
Qed.

(** C8, as the code has it.  Without a storage error the list returned is
    sorted, has no repetition, and holds exactly the titles that some row of
    student_project_mapping has now. *)
Theorem get_available_projects_current E d :
  env_fault E = None →
  ∃ titles,
    result (run (get_available_projects E) d) = Returns titles
    ∧ Sorted string_le titles
    ∧ NoDup titles
    ∧ ∀ t, t ∈ titles ↔
           ∃ email m, student_project_mapping d !! email = Some m
                      ∧ m_project_title m = t.
Proof.
  intros Hf. exists (sql_select_distinct_titles d).
  rewrite (get_available_projects_run E d Hf). cbn [result].
  unfold sql_select_distinct_titles.
  split; [reflexivity|]. split; [apply Sorted_merge_sort, _|]. split.
  - rewrite merge_sort_Permutation. apply NoDup_remove_dups.
  - intros t. rewrite merge_sort_Permutation, elem_of_remove_dups, list_elem_of_fmap.
    split.
    + intros ([email m] & -> & Hin). apply elem_of_map_to_list in Hin. now exists email, m.
    + intros (email & m & Hm & <-). exists (email, m). split; [reflexivity|].
      now apply elem_of_map_to_list.
Qed.

Lemma get_available_projects_current_witness :
  env_fault (sample_env "e") = None
  ∧ ∃ titles, result (run (get_available_projects (sample_env "e")) sample_db)
              = Returns titles
     ∧ Sorted string_le titles
     ∧ NoDup titles
     ∧ ∀ t, t ∈ titles ↔
            ∃ email m, student_project_mapping sample_db !! email = Some m
                       ∧ m_project_title m = t.
Proof.
  split; [reflexivity|].
  apply (get_available_projects_current (sample_env "e") sample_db). reflexivity.
Defined.

(** C8 as stated fails: a title that was mapped and has been replaced for its
    only student is not in the list. *)
Lemma replaced_title_not_listed :
  let d := exec (sample_env "e") (SaveProject "s@c.edu" "Robotics") sample_db in
  result (run (get_available_projects (sample_env "f")) sample_db) = Returns ["AI Tutor"]
  ∧ result (run (get_available_projects (sample_env "f")) d) = Returns ["Robotics"]
  ∧ "AI Tutor" ∉ ["Robotics"].
Proof.
  intros d. split; [reflexivity|]. split; [reflexivity|].
  intros H. apply list_elem_of_singleton in H. discriminate H.
Qed.

(** *** get_dashboard_stats *)

(** Ratings that are all at least 1 add up to at least their number. *)
Lemma ratings_positive d :
  ratings_in_range d → (Z.of_nat (length (ratings d)) ≤ foldr Z.add 0 (ratings d))%Z.
Proof.
  unfold ratings_in_range, ratings. induction (queries d) as [|q l IH]; intros H.
  - cbn. lia.
  - apply Forall_cons in H as [Hq Hl]. specialize (IH Hl). cbn [omap list_omap].
    destruct (q_feedback_rating q) as [z|]; [|exact IH].
    cbn [rating_in_range] in Hq. cbn [length foldr]. lia.
Qed.

Lemma get_dashboard_stats_run E d :
  result (run (get_dashboard_stats E) d)
  = match env_fault E with
    | None => Returns (stats_of d)
    | Some (k, e) =>
        if Nat.ltb k 5
        then match e with
             | SqliteError _ => Returns stats_on_error
             | OtherError _ => Raises e
             end
        else Returns (stats_of d)
    end.
Proof.
  unfold get_dashboard_stats, stats_of, stats_on_error. unfold_program. unfold tick.
  destruct (env_fault E) as [[k e]|]; [|reflexivity].
  do 5 (destruct k as [|k]; [destruct e; reflexivity|]). reflexivity.
Qed.


(** *** init_db *)

Lemma create_table_schema_kept t cols d t' cols' :
  db_schema d !! t' = Some cols' →
  db_schema (create_table_if_not_exists t cols d) !! t' = Some cols'.
Proof.
  intros H. unfold create_table_if_not_exists.
  destruct (db_schema d !! t) eqn:Ht; [exact H|]. cbn.
  rewrite lookup_insert_ne; [exact H|]. intros ->. congruence.
Qed.

Lemma create_table_exists t cols d :
  is_Some (db_schema (create_table_if_not_exists t cols d) !! t).
Proof.
  unfold create_table_if_not_exists.
  destruct (db_schema d !! t) eqn:Ht; [now rewrite Ht|]. cbn.
  rewrite lookup_insert_eq. now eexists.
Qed.

Lemma create_table_still_exists t cols d t' :
  is_Some (db_schema d !! t') →
  is_Some (db_schema (create_table_if_not_exists t cols d) !! t').
Proof. intros [c Hc]. exists c. now apply create_table_schema_kept. Qed.

Lemma create_table_rows t cols d :
  let d' := create_table_if_not_exists t cols d in
  users d' = users d ∧ projects d' = projects d ∧ queries d' = queries d
  ∧ student_project_mapping d' = student_project_mapping d
  ∧ student_project_map d' = student_project_map d.
Proof. cbn. unfold create_table_if_not_exists. now destruct (db_schema d !! t). Qed.

Lemma create_table_noop t cols d :
  is_Some (db_schema d !! t) → create_table_if_not_exists t cols d = d.
Proof. intros [c Hc]. unfold create_table_if_not_exists. now rewrite Hc. Qed.

Lemma insert_or_ignore_user_schema email name role h d :
  db_schema (insert_or_ignore_user email name role h d).1 = db_schema d.
Proof. unfold insert_or_ignore_user. now destruct (users d !! email). Qed.

Lemma insert_or_ignore_user_present email name role h d :
  is_Some (users (insert_or_ignore_user email name role h d).1 !! email).
Proof.
  unfold insert_or_ignore_user. destruct (users d !! email) eqn:Hu; cbn.
  - now rewrite Hu.
  - rewrite lookup_insert_eq. now eexists.
Qed.

Lemma admin_rows_one d : is_Some (users d !! admin_email) → admin_rows d = 1.
Proof.
  intros [u Hu]. unfold admin_rows.
  assert (Heq : filter (λ kv : string * user, kv.1 = admin_email) (users d)
                = {[admin_email := u]}).
  { apply map_eq. intros i. apply option_eq. intros x.
    rewrite map_lookup_filter_Some, lookup_singleton_Some. cbn.
    split; [intros [Hi ->] | intros [<- <-]]; [split; congruence | done]. }
  rewrite Heq. apply map_size_singleton.
Qed.

(** A storage call of [init_db] has raised: the run shows a message, or
    lets the exception through. *)
Ltac init_db_stop Hstop :=
  try match goal with x : exn |- _ => destruct x end;
  apply Hstop; cbn; (right + left); done.

(** The statements of [init_db] after the columns of [users] are settled. *)
Ltac init_db_tail E Hstop Hfin :=
  do 5 (tick_split E; [|init_db_stop Hstop]);
  match goal with
  | |- context [insert_or_ignore_user ?e ?n ?r ?h ?x] =>
      let Hs := fresh "Hs" in
      let Hp := fresh "Hp" in
      pose proof (insert_or_ignore_user_schema e n r h x) as Hs;
      pose proof (insert_or_ignore_user_present e n r h x) as Hp;
      destruct (insert_or_ignore_user e n r h x);
      cbn -[tick create_table_if_not_exists] in *;
      (tick_split E; [|init_db_stop Hstop]);
      apply Hfin; unfold initialized; rewrite Hs;
      (split; [|
        split; [do 3 apply create_table_still_exists; apply create_table_exists|];
        split; [do 2 apply create_table_still_exists; apply create_table_exists|];
        split; [apply create_table_still_exists; apply create_table_exists|];
        split; [apply create_table_exists | exact Hp]])
  end.

Section InitDb.
Variable E : Env.
Variable d : Db.

(** Whatever fails, [init_db] loses nothing of the file it finds. *)
Lemma init_db_keeps :
  preserves (λ d', rows_kept d d' ∧ columns_kept d d') (init_db E).
Proof.
  assert (Hcreate : ∀ t cols,
            closed_ddl (λ d', rows_kept d d' ∧ columns_kept d d')
              (sql_create_table_if_not_exists t cols)).
  { intros t cols d1 d2 [Hr Hc] [= <-].
    destruct (create_table_rows t cols d1) as (Hu & Hp & Hq & Hm & Hpm).
    split.
    - unfold rows_kept in *. rewrite Hu, Hp, Hq, Hm, Hpm. exact Hr.
    - intros t' cols' Ht'. destruct (Hc t' cols' Ht') as [added Ha].
      exists added. now apply create_table_schema_kept. }
  assert (Halter : closed_ddl (λ d', rows_kept d d' ∧ columns_kept d d')
                     (sql_alter_table_add_column "users" "password_hash")).
  { intros d1 d2 [Hr Hc] Hf. unfold sql_alter_table_add_column in Hf.
    destruct (db_schema d1 !! "users") as [cols1|] eqn:Hu; [|discriminate].
    case_bool_decide; [discriminate|]. injection Hf as <-.
    split; [exact Hr|].
    intros t' cols' Ht'. destruct (Hc t' cols' Ht') as [added Ha]. cbn.
    destruct (decide (t' = "users")) as [->|Hne].
    - rewrite lookup_insert_eq. rewrite Hu in Ha. injection Ha as ->.
      exists (added ++ ["password_hash"]). now rewrite app_assoc.
    - rewrite lookup_insert_ne by congruence. now exists added. }
  assert (Hinsert : ∀ h,
            closed (λ d', rows_kept d d' ∧ columns_kept d d')
              (sql_insert_or_ignore_user "admin@college.edu" "Jane Admin" "admin" h)).
  { intros h d1 d2 n [Hr Hc] [= Hf]. unfold insert_or_ignore_user in Hf.
    destruct (users d1 !! "admin@college.edu") eqn:Hu; injection Hf as <- <-;
      [now split|].
    split; [|exact Hc].
    destruct Hr as (Hp & Hq & Hm & Hpm & Hus & Hother).
    repeat split; try assumption; cbn.
    - intros email u Hlook. specialize (Hus email u Hlook).
      rewrite lookup_insert_ne; [exact Hus|]. intros <-. congruence.
    - intros email Hne. rewrite lookup_insert_ne; [now apply Hother|].
      intros <-. now apply Hne. }
  unfold init_db. auto 30 with preserves.
Qed.

(** A run that returns without a message leaves an initialized file. *)
Lemma init_db_completed :
  let r := run (init_db E) d in
  result r = Returns tt → errors_shown r = [] → initialized (db_after r).
Proof.
  intros r. subst r. name_post (run (init_db E) d) Post.
  assert (Hstop : ∀ r : run_result unit,
            result r ≠ Returns tt ∨ errors_shown r ≠ [] → Post r).
  { intros r [H|H] H1 H2; contradiction. }
  assert (Hfin : ∀ d', initialized d' → Post (mk_run (Returns tt) d' [])).
  { intros d' H _ _. exact H. }
  clearbody Post.
  unfold init_db. unfold_program.
  cbn -[tick create_table_if_not_exists insert_or_ignore_user
        sql_alter_table_add_column sql_table_info].
  do 3 (tick_split E; [|init_db_stop Hstop]).
  case_bool_decide as Hcol; cbn -[tick create_table_if_not_exists insert_or_ignore_user
        sql_alter_table_add_column sql_table_info].
  - init_db_tail E Hstop Hfin.
    unfold sql_table_info in Hcol.
    destruct (db_schema (create_table_if_not_exists "users" users_columns d) !! "users")
      as [cols|] eqn:Hu; [|now apply not_elem_of_nil in Hcol].
    exists cols. split; [|exact Hcol]. now do 4 apply create_table_schema_kept.
  - tick_split E; [|init_db_stop Hstop].
    destruct (sql_alter_table_add_column "users" "password_hash" _) as [e|d1] eqn:Halter;
      cbn -[tick create_table_if_not_exists insert_or_ignore_user];
      [init_db_stop Hstop|].
    init_db_tail E Hstop Hfin.
    unfold sql_alter_table_add_column in Halter.
    destruct (db_schema _ !! "users") as [cols|]; [|discriminate].
    case_bool_decide; [discriminate|]. injection Halter as <-.
    exists (cols ++ ["password_hash"]). split.
    + do 4 apply create_table_schema_kept. cbn. apply lookup_insert_eq.
    + set_solver.
Qed.
End InitDb.

(** On an initialized file every statement of [init_db] is without effect,
    so no failure can leave a difference behind. *)
Lemma init_db_initialized_noop E d :
  initialized d → preserves (λ d', d' = d) (init_db E).
Proof.
  intros ((cols & Hcols & Hin) & Hp & Hq & Hm & Hpm & Hadmin).
  assert (Hcreate : ∀ t c, is_Some (db_schema d !! t) →
            closed_ddl (λ d', d' = d) (sql_create_table_if_not_exists t c)).
  { intros t c Ht d1 d2 -> [= <-]. now apply create_table_noop. }
  pose proof (Hcreate "users" users_columns (ex_intro _ cols Hcols)).
  pose proof (Hcreate "projects" projects_columns Hp).
  pose proof (Hcreate "queries" queries_columns Hq).
  pose proof (Hcreate "student_project_mapping" student_project_mapping_columns Hm).
  pose proof (Hcreate "student_project_map" student_project_map_columns Hpm).
  assert (Halter : closed_ddl (λ d', d' = d)
                     (sql_alter_table_add_column "users" "password_hash")).
  { intros d1 d2 -> Hf. unfold sql_alter_table_add_column in Hf. rewrite Hcols in Hf.
    rewrite bool_decide_eq_true_2 in Hf; [discriminate|].
    change (lower "password_hash") with "password_hash".
    change "password_hash" with (lower "password_hash") at 1.
    now apply list_elem_of_fmap_2. }
  assert (Hinsert : ∀ h, closed (λ d', d' = d)
            (sql_insert_or_ignore_user "admin@college.edu" "Jane Admin" "admin" h)).
  { intros h d1 d2 n -> [= Hf]. unfold insert_or_ignore_user in Hf.
    destruct Hadmin as [u Hu]. unfold admin_email in Hu. rewrite Hu in Hf.
    now injection Hf as <- <-. }
  unfold init_db. auto 30 with preserves.
Qed.

(** C4. Whatever happens during a run of [init_db], on whatever file: the
    rows of projects, queries and the two mapping tables are the same ones,
    every row of users is unchanged (a changed administrator row included),
    the only row that can be new is the administrator's, and every table
    keeps its columns in place.  A run that returns without a message leaves
    the five tables, the password_hash column and exactly one administrator
    row.  On such a file a further run, and any number of further runs,
    change nothing at all. *)
Theorem init_db_rerun E d :
  let r := run (init_db E) d in
  rows_kept d (db_after r)
  ∧ columns_kept d (db_after r)
  ∧ (result r = Returns tt → errors_shown r = [] →
     initialized (db_after r) ∧ admin_rows (db_after r) = 1)
  ∧ (initialized d →
     db_after r = d ∧ admin_rows d = 1 ∧ ∀ Es, init_db_runs Es d = d).
Proof.
  intros r.
  assert (Hrefl : rows_kept d d ∧ columns_kept d d).
  { split; [now repeat split|]. intros t cols Ht. exists []. now rewrite app_nil_r. }
  destruct (preserves_run _ _ d (init_db_keeps E d) Hrefl) as [Hrows Hcols].
  split; [exact Hrows|]. split; [exact Hcols|]. split.
  - intros Hres Hshown. pose proof (init_db_completed E d Hres Hshown) as Hi.
    split; [exact Hi|]. apply admin_rows_one, Hi.
  - intros Hi. split; [|split].
    + exact (preserves_run _ _ d (init_db_initialized_noop E d Hi) eq_refl).
    + apply admin_rows_one, Hi.
    + induction Es as [|E' Es IH]; [reflexivity|]. cbn [init_db_runs foldr].
      fold (init_db_runs Es d). rewrite IH. cbn [exec].
      exact (preserves_run _ _ d (init_db_initialized_noop E' d Hi) eq_refl).
Qed.

Lemma sample_db_admin_changed_initialized : initialized sample_db_admin_changed.
Proof.
  split; [eexists; split; [vm_compute; reflexivity | set_solver]|].
  repeat split; eexists; vm_compute; reflexivity.
Qed.

Lemma init_db_rerun_witness :
  initialized sample_db_admin_changed
  ∧ users sample_db_admin_changed !! admin_email
    = Some (mk_user "Dr. Jane" "admin" (Some "$pbkdf2-sha256$g1$s3cret"))
  ∧ db_after (run (init_db (sample_env "h")) sample_db_admin_changed)
    = sample_db_admin_changed
  ∧ admin_rows sample_db_admin_changed = 1.
Proof.
  split; [exact sample_db_admin_changed_initialized|]. split; [reflexivity|].
  pose proof (init_db_rerun (sample_env "h") sample_db_admin_changed) as (_ & _ & _ & H).
  destruct (H sample_db_admin_changed_initialized) as (H1 & H2 & _). now split.
Defined.

(** *** Failures and the caller *)

Lemma tick_cases_sqlite E s :
  sqlite_faults E →
  tick E s = Val tt (bump s) ∨ ∃ msg, tick E s = Exc (SqliteError msg) (bump s).
Proof.
  intros HE. unfold tick. destruct (env_fault E) as [[k e]|] eqn:Hf; [|now left].
  destruct (Nat.eqb k (calls s)); [|now left].
  destruct (HE k e Hf) as [msg ->]. right. now exists msg.
Qed.

(** One storage call that can only fail with [sqlite3.Error]. *)
Ltac tick_split_sqlite E HE :=
  match goal with
  | |- context [tick E ?s] =>
      let msg := fresh "msg" in
      destruct (tick_cases_sqlite E s HE) as [-> | [msg ->]];
      cbn -[tick sql_select_distinct_titles sql_select_logs]
  end.

Section Keeps.
Variable E : Env.

Lemma keeps_ret {A} (a : A) : keeps_disk (mret a).
Proof. intros s. now split. Qed.

Lemma keeps_raise {A} e : keeps_disk (@raise A e).
Proof. intros s. now split. Qed.

Lemma keeps_bind {A B} (m : M A) (k : A → M B) :
  keeps_disk m → (∀ a, keeps_disk (k a)) → keeps_disk (m ≫= k).
Proof.
  intros Hm Hk s. specialize (Hm s). unfold mbind, M_bind, bind.
  destruct (m s) as [a s'|e s']; [|exact Hm].
  specialize (Hk a s'). destruct Hm as [Hd Hs].
  destruct (k a s'); destruct Hk as [Hd' Hs']; split; congruence.
Qed.

Lemma keeps_tick : keeps_disk (tick E).
Proof. intros s. destruct (tick_cases E s) as [-> | [e ->]]; now split. Qed.

Lemma keeps_execute_query {A} (f : Db → A) : keeps_disk (execute_query E f).
Proof.
  unfold execute_query. apply keeps_bind; [apply keeps_tick|].
  intros _ s. now split.
Qed.

Lemma keeps_execute_dml f : keeps_disk (execute_dml E f).
Proof.
  unfold execute_dml. apply keeps_bind; [apply keeps_tick|].
  intros _ s. unfold with_state. destruct (f (view s)) as [e|[d n]]; now split.
Qed.

Lemma keeps_hash_password p : keeps_disk (hash_password E p).
Proof. intros s. now split. Qed.

Lemma keeps_uuid4 : keeps_disk (uuid4 E).
Proof. intros s. now split. Qed.

Lemma keeps_strip_field v : keeps_disk (strip_field v).
Proof. destruct v; [apply keeps_ret | apply keeps_raise]. Qed.

Lemma keeps_bulk_register_rows rows k : keeps_disk (bulk_register_rows E rows k).
Proof.
  revert k. induction rows as [|row rest IH]; intros k; cbn [bulk_register_rows].
  - apply keeps_ret.
  - repeat (apply keeps_bind; [apply keeps_strip_field | intros ?]).
    repeat (case_match; [apply keeps_ret|]).
    apply keeps_bind; [apply keeps_hash_password | intros ?].
    apply keeps_bind; [apply keeps_execute_dml | intros ?]. apply IH.
Qed.

Lemma keeps_save_mapping_rows rows ts k : keeps_disk (save_mapping_rows E rows ts k).
Proof.
  revert k. induction rows as [|[sid title] rest IH]; intros k;
    cbn [save_mapping_rows].
  - apply keeps_ret.
  - case_match; [apply keeps_ret|].
    apply keeps_bind; [apply keeps_execute_dml | intros ?].
    apply keeps_bind; [apply keeps_uuid4 | intros ?].
    apply keeps_bind; [apply keeps_execute_dml | intros ?]. apply IH.
Qed.
End Keeps.

Ltac reports_leaf :=
  cbn; eexists _, _; split; [reflexivity | intros ?; first [reflexivity | discriminate]].

Ltac reports_ticks E HE :=
  repeat (tick_split_sqlite E HE; [|solve [reports_leaf]]); try solve [reports_leaf].

Lemma save_user_reports E d email name password role :
  sqlite_faults E → reports (run (save_user E email name password role) d) d.
Proof.
  intros HE. unfold save_user. unfold_program. cbn -[tick].
  unfold sql_update_user_name_role, sql_insert_or_replace_user.
  reports_ticks E HE.
  destruct (truthy password); cbn -[tick]; [reports_ticks E HE|].
  reports_ticks E HE.
  destruct (users d !! email); cbn -[tick]; reports_ticks E HE.
Qed.

Lemma reset_user_password_reports E d email pw :
  sqlite_faults E → reports (run (reset_user_password E email pw) d) d.
Proof.
  intros HE. unfold reset_user_password. unfold_program. cbn -[tick].
  unfold sql_update_user_password.
  reports_ticks E HE.
  destruct (users d !! email); cbn -[tick]; reports_ticks E HE.
Qed.

Lemma save_project_reports E d email title :
  sqlite_faults E → reports (run (save_project E email title) d) d.
Proof.
  intros HE. unfold save_project. unfold_program. cbn -[tick].
  unfold sql_insert_project, sql_insert_project_map, sql_insert_or_replace_mapping.
  reports_ticks E HE.
  case_bool_decide; cbn -[tick]; reports_ticks E HE.
  case_bool_decide; cbn -[tick]; reports_ticks E HE.
Qed.

Lemma delete_user_reports E d email :
  sqlite_faults E → reports (run (delete_user E email) d) d.
Proof.
  intros HE. unfold delete_user. unfold_program. cbn -[tick].
  unfold sql_delete_user, sql_delete_mapping, sql_delete_queries, sql_delete_projects.
  reports_ticks E HE.
  destruct (users d !! email); cbn -[tick]; reports_ticks E HE.
  destruct (student_project_mapping d !! email); cbn -[tick]; reports_ticks E HE.
Qed.

(** A leaf of [save_query]: it has returned [None]; it has shown nothing,
    or it has shown its message and written nothing. *)
Ltac silent_leaf :=
  cbn; split; [reflexivity | (left; reflexivity) + (right; split; reflexivity)].

Ltac silent_tail E HE :=
  repeat first
    [ tick_split_sqlite E HE; [|silent_leaf]
    | match goal with
      | |- context [sql_select_query ?e ?q ?t ?d] =>
          destruct (sql_select_query e q t d); cbn -[tick]
      end
    | case_bool_decide; cbn -[tick] ];
  try silent_leaf.

Lemma save_query_returns E d e n pt q r t fr :
  sqlite_faults E → storable fr = true →
  let res := run (save_query E e n pt q r t fr) d in
  result res = Returns tt
  ∧ (errors_shown res = []
     ∨ (errors_shown res = ["Failed to save query. Please try again."]
        ∧ db_after res = d)).
Proof.
  intros HE Hfit. unfold save_query, get_project_title_for_student, sql_insert_query.
  unfold_program. cbn -[tick]. rewrite Hfit. cbn -[tick].
  tick_split_sqlite E HE; [|silent_leaf].
  destruct (truthy pt); cbn -[tick]; [silent_tail E HE|].
  tick_split_sqlite E HE; [tick_split_sqlite E HE|]; silent_tail E HE.
Qed.

Lemma init_db_returns E d :
  sqlite_faults E → result (run (init_db E) d) = Returns tt.
Proof.
  intros HE. unfold init_db, sql_alter_table_add_column. unfold_program.
  cbn -[tick create_table_if_not_exists insert_or_ignore_user sql_table_info].
  repeat first
    [ tick_split_sqlite E HE; [|reflexivity]
    | case_bool_decide; cbn -[tick create_table_if_not_exists insert_or_ignore_user sql_table_info]
    | match goal with
      | |- context [match db_schema ?x !! ?t with _ => _ end] =>
          destruct (db_schema x !! t);
          cbn -[tick create_table_if_not_exists insert_or_ignore_user sql_table_info]
      | |- context [insert_or_ignore_user ?a ?b ?c ?h ?x] =>
          destruct (insert_or_ignore_user a b c h x);
          cbn -[tick create_table_if_not_exists insert_or_ignore_user sql_table_info]
      end ];
  reflexivity.
Qed.

Lemma get_project_title_for_student_returns E d email :
  sqlite_faults E →
  ∃ v, result (run (get_project_title_for_student E email) d) = Returns v.
Proof.
  intros HE. unfold get_project_title_for_student. unfold_program. cbn -[tick].
  repeat (tick_split_sqlite E HE; [|now eexists]). now eexists.
Qed.

Lemma get_available_projects_returns E d :
  sqlite_faults E → ∃ v, result (run (get_available_projects E) d) = Returns v.
Proof.
  intros HE. unfold get_available_projects. unfold_program.
  cbn -[tick sql_select_distinct_titles].
  repeat (tick_split_sqlite E HE; [|now eexists]). now eexists.
Qed.

(** The [cursor.execute] of pandas is storage call 1 of the functions that
    read through it. *)
Ltac pandas_execute_ok H1 :=
  match goal with
  | |- context [tick ?E ?s] => rewrite (tick_not_at E s H1)
  end;
  cbn -[tick sql_select_logs to_csv].

Lemma export_query_logs_to_csv_returns E d se pf df dt :
  sqlite_faults E → (∀ e, env_fault E ≠ Some (1, e)) →
  ∃ v, result (run (export_query_logs_to_csv E se pf df dt) d) = Returns v.
Proof.
  intros HE H1. unfold export_query_logs_to_csv, read_sql_query, pandas_read_sql_query.
  unfold_program. cbn -[tick sql_select_logs to_csv].
  tick_split_sqlite E HE; [|now eexists].
  pandas_execute_ok H1.
  tick_split_sqlite E HE; [|now eexists].
  destruct (sql_select_logs _ _ _); now eexists.
Qed.

(** The escape: an exception of the execute inside pandas leaves the export
    as [pandas.errors.DatabaseError]. *)
Lemma export_query_logs_to_csv_escapes E d se pf df dt e :
  env_fault E = Some (1, e) →
  run (export_query_logs_to_csv E se pf df dt) d
  = mk_run (Raises (pandas_database_error
                      (export_sql (export_conditions se pf df dt)) e)) d [].
Proof.
  intros Hf. unfold export_query_logs_to_csv, read_sql_query, pandas_read_sql_query.
  unfold_program. unfold tick. rewrite Hf. reflexivity.
Qed.

Lemma get_dashboard_stats_returns E d :
  sqlite_faults E → ∃ v, result (run (get_dashboard_stats E) d) = Returns v.
Proof.
  intros HE. rewrite get_dashboard_stats_run.
  destruct (env_fault E) as [[k e]|] eqn:Hf; [|now eexists].
  destruct (HE k e Hf) as [msg ->]. destruct (Nat.ltb k 5); now eexists.
Qed.

Lemma bulk_register_users_reports E d csv_file :
  reports (run (bulk_register_users E csv_file) d) d.
Proof.
  unfold bulk_register_users. unfold_program. cbn -[tick].
  tick_split E; [|reports_leaf].
  destruct csv_file as [msg|[fieldnames|] rows]; cbn -[tick]; try reports_leaf.
  match goal with |- context [if negb ?b then _ else _] => destruct b end;
    cbn -[tick]; [|reports_leaf].
  pose proof (keeps_bulk_register_rows E rows 0
                (bump (mk_state d None 0 []))) as Hk.
  destruct (bulk_register_rows E rows 0 _) as [[early|n] s|e s]; cbn -[tick] in *.
  - destruct Hk as [Hd _]. destruct early as [flag msg].
    exists flag, msg. split; [reflexivity|]. intros _. exact Hd.
  - destruct Hk as [Hd _].
    tick_split E.
    + eexists _, _. split; [reflexivity|]. discriminate.
    + eexists _, _. split; [reflexivity|]. intros _. exact Hd.
  - destruct Hk as [Hd _]. eexists _, _. split; [reflexivity|]. intros _. exact Hd.
Qed.

Lemma save_student_project_mapping_reports E d csv_file :
  reports (run (save_student_project_mapping E csv_file) d) d.
Proof.
  unfold save_student_project_mapping. unfold_program. cbn -[tick].
  tick_split E; [|reports_leaf].
  destruct csv_file as [msg|columns rows]; cbn -[tick]; try reports_leaf.
  match goal with |- context [if negb ?b then _ else _] => destruct b end;
    cbn -[tick]; [|reports_leaf].
  destruct rows as [|row rows]; [reports_leaf|].
  match goal with |- context [existsb ?f ?l] => destruct (existsb f l) end;
    cbn -[tick save_mapping_rows]; [reports_leaf|].
  match goal with
  | |- context [save_mapping_rows E ?l ?t ?k ?s] =>
      pose proof (keeps_save_mapping_rows E l t k s) as Hk;
      destruct (save_mapping_rows E l t k s) as [[early|n] s'|e s']
  end; cbn -[tick] in *.
  - destruct Hk as [Hd _]. destruct early as [flag msg].
    exists flag, msg. split; [reflexivity|]. intros _. exact Hd.
  - destruct Hk as [Hd _].
    tick_split E.
    + eexists _, _. split; [reflexivity|]. discriminate.
    + eexists _, _. split; [reflexivity|]. intros _. exact Hd.
  - destruct Hk as [Hd _]. eexists _, _. split; [reflexivity|]. intros _. exact Hd.
Qed.

Lemma failing_env_sqlite tag k : sqlite_faults (failing_env tag k).
Proof. intros k' e [= <- <-]. now eexists. Qed.

(** *** export_query_logs_to_csv *)

Lemma string_compare_trans_le a b c :
  String.compare a b ≠ Gt → String.compare b c ≠ Gt → String.compare a c ≠ Gt.
Proof.
  revert b c. induction a as [|x a IH]; intros [|y b] [|z c]; cbn; try congruence.
  unfold Ascii.compare.
  destruct (N.compare_spec (N_of_ascii x) (N_of_ascii y)) as [Hxy|Hxy|Hxy];
    destruct (N.compare_spec (N_of_ascii y) (N_of_ascii z)) as [Hyz|Hyz|Hyz];
    destruct (N.compare_spec (N_of_ascii x) (N_of_ascii z)) as [Hxz|Hxz|Hxz];
    try congruence; try lia.
  apply IH.
Qed.

#[global] Instance string_le_trans : Transitive string_le.
Proof.
  intros a b c. unfold string_le, String.leb. intros Hab Hbc.
  pose proof (string_compare_trans_le a b c) as H.
  destruct (String.compare a b); destruct (String.compare b c);
    destruct (String.compare a c); try reflexivity; try discriminate;
    exfalso; apply H; congruence.
Qed.

#[global] Instance later_first_total : Total later_first.
Proof. intros x y. unfold later_first. apply string_le_total. Qed.

#[global] Instance later_first_trans : Transitive later_first.
Proof. intros x y z Hxy Hyz. unfold later_first in *. now transitivity (q_timestamp y). Qed.

Lemma export_query_logs_to_csv_run E d student_email project_filter date_from date_to :
  env_fault E = None →
  run (export_query_logs_to_csv E student_email project_filter date_from date_to) d
  = mk_run
      (Returns
         match sql_select_logs E
                 (export_conditions student_email project_filter date_from date_to) d
         with
         | [] => None
         | rows => Some (to_csv E rows)
         end) d [].
Proof.
  intros Hf. unfold export_query_logs_to_csv, read_sql_query, pandas_read_sql_query.
  unfold_program. cbn -[tick sql_select_logs to_csv]. tick_through Hf.
  now destruct (sql_select_logs _ _ _).
Qed.

Lemma first_line_to_csv E rows :
  first_line (to_csv E rows)
  = "email,name,project_title,question,response,timestamp,feedback_rating".
Proof. reflexivity. Qed.

(** **** The text of a date *)

Lemma date_bounds d :
  (1 ≤ year d)%nat ∧ (Z.of_nat (year d) ≤ 9999)%Z ∧ (1 ≤ month d ≤ 12)%nat
  ∧ (1 ≤ day d ≤ 31)%nat.
Proof.
  pose proof (date_valid d) as H. unfold valid_ymd in H.
  repeat (apply andb_true_iff in H as [H ?]).
  repeat match goal with
         | H : (_ <=? _)%nat = true |- _ => apply Nat.leb_le in H
         | H : (_ <=? _)%Z = true |- _ => apply Z.leb_le in H
         end.
  assert (days_in_month (year d) (month d) ≤ 31)%nat.
  { unfold days_in_month. repeat case_match; lia. }
  lia.
Qed.

Lemma two_digits_text n : (n < 100)%nat → pad 2 (pretty n) = two_digits n "".
Proof.
  intros Hn.
  assert (Hall : forallb (λ n, String.eqb (pad 2 (pretty n)) (two_digits n ""))
                   (seq 0 100) = true) by (vm_compute; reflexivity).
  apply String.eqb_eq. apply (proj1 (forallb_forall _ _) Hall). apply in_seq. lia.
Qed.

Lemma year_text y :
  (1000 ≤ y)%nat → (Z.of_nat y ≤ 9999)%Z →
  pretty y = two_digits (y / 100) (two_digits (y mod 100) "").
Proof.
  intros Hlo Hhi.
  assert (Hall : forallb (λ y, String.eqb (pretty y)
                                 (two_digits (y / 100) (two_digits (y mod 100) "")))
                   (seq 1000 (90 * 100)) = true) by (vm_compute; reflexivity).
  apply String.eqb_eq. apply (proj1 (forallb_forall _ _) Hall). apply in_seq. lia.
Qed.

(** For a year of four digits the text Python writes is the ISO text. *)
Lemma strftime_iso d : (1000 ≤ year d)%nat → strftime_ymd d = iso_date d.
Proof.
  intros Hy. destruct (date_bounds d) as (_ & Hhi & Hm & Hd).
  unfold strftime_ymd, iso_date.
  rewrite (year_text (year d) Hy Hhi).
  rewrite (two_digits_text (month d)), (two_digits_text (day d)) by lia.
  reflexivity.
Qed.

Lemma matches_snoc E conds c q :
  matches E (conds ++ [c]) q = matches E conds q && holds E c q.
Proof. unfold matches. rewrite forallb_app. cbn. now rewrite andb_true_r. Qed.

#[local] Set Warnings "-clear-no-such-hyp".

(** The conditions the export appends select the rows that pass the
    filters, when the bounds have years of four digits. *)
Lemma matches_passes E student_email project_filter date_from date_to q :
  four_digit_years date_from date_to →
  matches E (export_conditions student_email project_filter date_from date_to) q = true
  ↔ passes E student_email project_filter date_from date_to q.
Proof.
  intros [Hfrom Hto].
  assert (Hf : ∀ df, date_from = Some df → strftime_ymd df = iso_date df)
    by (intros df Hdf; apply strftime_iso; now apply Hfrom).
  assert (Ht : ∀ dt, date_to = Some dt → strftime_ymd dt = iso_date dt)
    by (intros dt Hdt; apply strftime_iso; now apply Hto).
  clear Hfrom Hto.
  unfold export_conditions, passes, on_or_after, on_or_before, string_le.
  destruct date_from as [df|]; [rewrite (Hf df eq_refl)|]; clear Hf;
    (destruct date_to as [dt|]; [rewrite (Ht dt eq_refl)|]; clear Ht).
  all: destruct (truthy student_email) eqn:Hs;
    destruct (truthy project_filter) eqn:Hp;
    destruct (String.eqb_spec (default "" project_filter) "All Projects") as [Ha|Ha];
    cbn [andb negb]; rewrite ?matches_snoc, ?andb_true_iff;
    cbn [matches forallb holds]; rewrite ?bool_decide_eq_true;
    destruct (env_date E (q_timestamp q)) as [day|].
  all: intuition (try congruence).
Qed.

(** *** bulk_register_users *)

Lemma row_ok_inv row :
  row_ok row = true →
  ∃ email name role, stripped row = Some (email, name, role)
                     ∧ row_problem email name role = None.
Proof.
  unfold row_ok. destruct (stripped row) as [[[e n] r]|]; [|discriminate].
  destruct (row_problem e n r) eqn:Hp; [discriminate|]. intros _. now exists e, n, r.
Qed.

Lemma stripped_fields row email name role :
  stripped row = Some (email, name, role) →
  ∃ e n r, row_email row = Some e ∧ row_name row = Some n ∧ row_role row = Some r
           ∧ email = strip e ∧ name = strip n ∧ role = strip r.
Proof.
  unfold stripped. destruct (row_email row), (row_name row), (row_role row);
    try discriminate. intros [= <- <- <-]. now eexists _, _, _.
Qed.

(** One turn of the loop on a row that passes the checks. *)
Lemma bulk_register_rows_step E row rest k s email name role :
  stripped row = Some (email, name, role) → row_problem email name role = None →
  bulk_register_rows E (row :: rest) k s
  = (rowcount ← execute_dml E (sql_insert_or_ignore_user email name role
                                  (Some (env_hash E (calls s) "default123")));
     bulk_register_rows E rest (if Nat.ltb 0 rowcount then S k else k)) s.
Proof.
  intros Hs Hp. destruct (stripped_fields _ _ _ _ Hs) as (e & n & r & He & Hn & Hr & -> & -> & ->).
  cbn [bulk_register_rows]. rewrite He, Hn, Hr.
  unfold row_problem in Hp.
  unfold strip_field, hash_password, mbind, M_bind, bind, mret, M_ret, ret.
  destruct (negb (nonempty (strip e)) || negb (nonempty (strip n))
            || negb (nonempty (strip r))); [discriminate|].
  destruct (negb (is_valid_email (strip e))); [discriminate|].
  destruct (negb (bool_decide (strip r ∈ ["student"; "admin"]))); [discriminate|].
  reflexivity.
Qed.

(** One turn of the loop on a row that fails a check. *)
Lemma bulk_register_rows_stop E row rest k s email name role msg :
  stripped row = Some (email, name, role) → row_problem email name role = Some msg →
  bulk_register_rows E (row :: rest) k s = Val (inl (false, msg)) s.
Proof.
  intros Hs Hp. destruct (stripped_fields _ _ _ _ Hs) as (e & n & r & He & Hn & Hr & -> & -> & ->).
  cbn [bulk_register_rows]. rewrite He, Hn, Hr.
  unfold row_problem in Hp.
  unfold strip_field, hash_password, mbind, M_bind, bind, mret, M_ret, ret.
  destruct (negb (nonempty (strip e)) || negb (nonempty (strip n))
            || negb (nonempty (strip r))); [now injection Hp as <-|].
  destruct (negb (is_valid_email (strip e))); [now injection Hp as <-|].
  destruct (negb (bool_decide (strip r ∈ ["student"; "admin"]))); [now injection Hp as <-|].
  discriminate.
Qed.

Lemma execute_dml_insert_ok E s email name role h :
  env_fault E = None →
  execute_dml E (sql_insert_or_ignore_user email name role h) s
  = Val (insert_or_ignore_user email name role h (view s)).2
        (mk_state (disk s) (Some (insert_or_ignore_user email name role h (view s)).1)
                  (S (calls s)) (shown s)).
Proof.
  intros Hf. unfold execute_dml, with_state, mbind, M_bind, bind.
  rewrite (tick_ok E s Hf). cbn.
  unfold view.
  now destruct (insert_or_ignore_user email name role h (default (disk s) (pending s))).
Qed.

(** The loop on rows that all pass the checks, without a storage error. *)
Lemma bulk_register_rows_ok E rows :
  env_fault E = None → Forall (λ row, row_ok row = true) rows →
  ∀ k s, ∃ s',
    bulk_register_rows E rows k s
    = Val (inr (k + (register_rows E (calls s) rows (users (view s))).2)) s'
    ∧ view s' = set_users (λ _, (register_rows E (calls s) rows (users (view s))).1) (view s)
    ∧ disk s' = disk s ∧ shown s' = shown s.
Proof.
  intros Hf Hrows. induction Hrows as [|row rest Hrow Hrest IH]; intros k s.
  - exists s. cbn. rewrite Nat.add_0_r. repeat split. now destruct (view s).
  - destruct (row_ok_inv row Hrow) as (email & name & role & Hs & Hp).
    rewrite (bulk_register_rows_step E row rest k s email name role Hs Hp).
    unfold mbind, M_bind, bind. rewrite (execute_dml_insert_ok E s _ _ _ _ Hf).
    cbn [register_rows]. rewrite Hs. unfold insert_or_ignore_user.
    destruct (users (view s) !! email) as [u|] eqn:Hu; cbn [fst snd].
    + destruct (IH k (mk_state (disk s) (Some (view s)) (S (calls s)) (shown s)))
        as (s' & Hrun & Hview & Hdisk & Hshown). cbn in *.
      exists s'. split; [exact Hrun|]. now repeat split.
    + destruct (IH (S k) (mk_state (disk s)
                 (Some (set_users (insert email (mk_user name role
                          (Some (env_hash E (calls s) "default123")))) (view s)))
                 (S (calls s)) (shown s)))
        as (s' & Hrun & Hview & Hdisk & Hshown). cbn in *.
      destruct (register_rows E (S (calls s)) rest _) as [us' n] eqn:Hreg.
      cbn in *. exists s'. rewrite Hrun. replace (S (k + n)) with (k + S n) by lia.
      now repeat split.
Qed.

(** The loop up to the first row that fails a check. *)
Lemma bulk_register_rows_bad E pre row post email name role msg :
  env_fault E = None → Forall (λ row, row_ok row = true) pre →
  stripped row = Some (email, name, role) → row_problem email name role = Some msg →
  ∀ k s, ∃ s', bulk_register_rows E (pre ++ row :: post) k s = Val (inl (false, msg)) s'.
Proof.
  intros Hf Hpre Hs Hp. induction Hpre as [|r rest Hr Hrest IH]; intros k s.
  - exists s. now apply bulk_register_rows_stop with email name role.
  - destruct (row_ok_inv r Hr) as (e & n & ro & Hs' & Hp').
    rewrite <- app_comm_cons.
    rewrite (bulk_register_rows_step E r _ k s e n ro Hs' Hp').
    unfold mbind, M_bind, bind. rewrite (execute_dml_insert_ok E s _ _ _ _ Hf).
    apply IH.
Qed.

(** With a row that fails a check, or lacks a field, the loop never runs to
    its end, whatever else fails. *)
Lemma bulk_register_rows_never_done E rows :
  Exists (λ row, row_ok row = false) rows →
  ∀ k s, match bulk_register_rows E rows k s with
         | Val (inr _) _ => False
         | Val (inl (flag, _)) _ => flag = false
         | Exc _ _ => True
         end.
Proof.
  induction rows as [|row rest IH]; intros Hex k s; [now apply Exists_nil in Hex|].
  destruct (row_ok row) eqn:Hrow.
  - apply Exists_cons in Hex as [Hex|Hex]; [congruence|].
    destruct (row_ok_inv row Hrow) as (e & n & ro & Hs & Hp).
    rewrite (bulk_register_rows_step E row rest k s e n ro Hs Hp).
    unfold mbind, M_bind, bind.
    destruct (execute_dml E _ s) as [rowcount s'|e' s']; [|exact I].
    now apply IH.
  - unfold row_ok in Hrow.
    destruct (stripped row) as [[[e n] ro]|] eqn:Hs.
    + destruct (row_problem e n ro) as [msg|] eqn:Hp; [|discriminate].
      now rewrite (bulk_register_rows_stop E row rest k s e n ro msg Hs Hp).
    + cbn [bulk_register_rows]. unfold stripped in Hs.
      unfold strip_field, mbind, M_bind, bind, mret, M_ret, ret, raise.
      destruct (row_email row); [|exact I].
      destruct (row_name row); [|exact I].
      destruct (row_role row); [discriminate|exact I].
Qed.

(** What the INSERT OR IGNOREs make of the rows of users. *)
Lemma register_rows_spec E rows :
  ∀ c us,
    let us' := (register_rows E c rows us).1 in
    let n := (register_rows E c rows us).2 in
    (∀ email u, us !! email = Some u → us' !! email = Some u)
    ∧ size us' = size us + n
    ∧ (∀ email u, us' !! email = Some u →
         us !! email = Some u
         ∨ ∃ row c', row ∈ rows ∧ stripped row = Some (email, u_name u, u_role u)
                     ∧ u_password_hash u = Some (env_hash E c' "default123"))
    ∧ (Forall (λ row, row_ok row = true) rows →
       ∀ email, email ∈ row_emails rows → is_Some (us' !! email)).
Proof.
  induction rows as [|row rest IH]; intros c us; cbn [register_rows].
  - cbn. repeat split; auto.
    intros _ email H. now apply not_elem_of_nil in H.
  - destruct (stripped row) as [[[e n] r]|] eqn:Hs.
    2:{ cbn. repeat split; auto.
        intros Hall. apply Forall_cons in Hall as [Hrow _].
        unfold row_ok in Hrow. now rewrite Hs in Hrow. }
    assert (Hemails : row_emails (row :: rest) = e :: row_emails rest).
    { unfold row_emails. cbn. now rewrite Hs. }
    destruct (us !! e) as [u0|] eqn:Hu.
    + destruct (IH (S c) us) as (Hkeep & Hsize & Hnew & Hall). cbn zeta in *.
      split; [exact Hkeep|]. split; [exact Hsize|]. split.
      * intros email u Hl. destruct (Hnew email u Hl) as [H|(row' & c' & Hin & H)];
          [now left|]. right. exists row', c'. split; [now right | exact H].
      * intros Hok email Hin. apply Forall_cons in Hok as [_ Hok].
        rewrite Hemails in Hin. apply elem_of_cons in Hin as [->|Hin].
        -- exists u0. now apply Hkeep.
        -- now apply Hall.
    + set (u1 := mk_user n r (Some (env_hash E c "default123"))).
      destruct (IH (S c) (<[e:=u1]> us)) as (Hkeep & Hsize & Hnew & Hall).
      cbn zeta in *.
      destruct (register_rows E (S c) rest (<[e:=u1]> us)) as [us' k] eqn:Hreg.
      cbn [fst snd] in *.
      split; [|split; [|split]].
      * intros email u Hl. apply Hkeep. rewrite lookup_insert_ne; [exact Hl|].
        intros <-. congruence.
      * rewrite Hsize, map_size_insert_None by exact Hu. lia.
      * intros email u Hl. destruct (Hnew email u Hl) as [H|(row' & c' & Hin & H)].
        -- destruct (decide (e = email)) as [<-|Hne].
           ++ rewrite lookup_insert_eq in H. injection H as <-. right.
              exists row, c. split; [now left|]. now split.
           ++ rewrite lookup_insert_ne in H by exact Hne. now left.
        -- right. exists row', c'. split; [now right | exact H].
      * intros Hok email Hin. apply Forall_cons in Hok as [_ Hok].
        rewrite Hemails in Hin. apply elem_of_cons in Hin as [->|Hin].
        -- exists u1. apply Hkeep, lookup_insert_eq.
        -- now apply Hall.
Qed.

Lemma bulk_register_users_ok E d fieldnames rows :
  env_fault E = None → header_ok fieldnames = true →
  Forall (λ row, row_ok row = true) rows →
  run (bulk_register_users E (Decoded (Some fieldnames) rows)) d
  = mk_run (Returns (true, pretty (register_rows E 1 rows (users d)).2
                           +:+ " users registered successfully!"))
      (set_users (λ _, (register_rows E 1 rows (users d)).1) d) [].
Proof.
  intros Hf Hh Hrows. unfold bulk_register_users. unfold_program.
  cbn -[tick bulk_register_rows forallb].
  rewrite (tick_ok _ _ Hf). cbn -[tick bulk_register_rows forallb].
  unfold header_ok in Hh. rewrite Hh. cbn -[tick bulk_register_rows].
  destruct (bulk_register_rows_ok E rows Hf Hrows 0
              (bump (mk_state d None 0 []))) as (s' & Hrun & Hview & Hdisk & Hshown).
  rewrite Hrun. cbn -[tick]. rewrite (tick_ok E s' Hf). cbn.
  unfold view in Hview. rewrite Hview, Hshown. reflexivity.
Qed.

Lemma bulk_register_users_bad E d fieldnames pre row post email name role msg :
  env_fault E = None → header_ok fieldnames = true →
  Forall (λ row, row_ok row = true) pre →
  stripped row = Some (email, name, role) → row_problem email name role = Some msg →
  result (run (bulk_register_users E (Decoded (Some fieldnames) (pre ++ row :: post))) d)
  = Returns (false, msg).
Proof.
  intros Hf Hh Hpre Hs Hp. unfold bulk_register_users. unfold_program.
  cbn -[tick bulk_register_rows forallb].
  rewrite (tick_ok _ _ Hf). cbn -[tick bulk_register_rows forallb].
  unfold header_ok in Hh. rewrite Hh. cbn -[tick bulk_register_rows].
  destruct (bulk_register_rows_bad E pre row post email name role msg Hf Hpre Hs Hp 0
              (bump (mk_state d None 0 []))) as (s' & ->).
  reflexivity.
Qed.

Lemma bulk_register_users_rejects E d fieldnames rows :
  header_ok fieldnames = true → Exists (λ row, row_ok row = false) rows →
  ∃ msg, result (run (bulk_register_users E (Decoded (Some fieldnames) rows)) d)
         = Returns (false, msg)
         ∧ db_after (run (bulk_register_users E (Decoded (Some fieldnames) rows)) d) = d.
Proof.
  intros Hh Hex. unfold bulk_register_users. unfold_program.
  cbn -[tick bulk_register_rows forallb].
  destruct (tick_cases E (mk_state d None 0 [])) as [-> | [e ->]];
    cbn -[tick bulk_register_rows forallb]; [|eexists; split; reflexivity].
  unfold header_ok in Hh. rewrite Hh. cbn -[tick bulk_register_rows].
  pose proof (bulk_register_rows_never_done E rows Hex 0 (bump (mk_state d None 0 [])))
    as Hnever.
  pose proof (keeps_bulk_register_rows E rows 0 (bump (mk_state d None 0 []))) as Hk.
  destruct (bulk_register_rows E rows 0 _) as [[[flag msg]|n] s|e s];
    cbn -[tick] in *; [|contradiction|].
  - subst flag. destruct Hk as [Hd _]. exists msg. now split.
  - destruct Hk as [Hd _]. eexists. now split.
Qed.

Lemma nonempty_false s : nonempty s = false ↔ s = "".
Proof. destruct s; cbn; split; congruence. Qed.

Lemma row_problem_cases email name role msg :
  row_problem email name role = Some msg →
  (msg = "Missing data in row: " +:+ email ∧ (email = "" ∨ name = "" ∨ role = ""))
  ∨ (msg = "Invalid email format: " +:+ email ∧ is_valid_email email = false)
  ∨ (msg = "Invalid role for " +:+ email +:+ ": " +:+ role
     ∧ role ≠ "student" ∧ role ≠ "admin").
Proof.
  unfold row_problem.
  destruct (nonempty email) eqn:He; destruct (nonempty name) eqn:Hn;
    destruct (nonempty role) eqn:Hr; cbn [negb orb];
    try (intros [= <-]; left; split; [reflexivity|];
         rewrite <- !nonempty_false; auto; fail).
  destruct (is_valid_email email) eqn:Hv; cbn [negb];
    [|intros [= <-]; right; left; now split].
  case_bool_decide as Hrole; cbn [negb]; [discriminate|].
  intros [= <-]. right. right. split; [reflexivity|].
  split; intros ->; apply Hrole; set_solver.
Qed.

Lemma row_problem_none email name role :
  row_problem email name role = None
  ↔ email ≠ "" ∧ name ≠ "" ∧ role ≠ "" ∧ is_valid_email email = true
    ∧ (role = "student" ∨ role = "admin").
Proof.
  unfold row_problem.
  destruct (nonempty email) eqn:He; destruct (nonempty name) eqn:Hn;
    destruct (nonempty role) eqn:Hr; cbn [negb orb];
    try apply nonempty_false in He; try apply nonempty_false in Hn;
    try apply nonempty_false in Hr;
    try (split; [discriminate | intros (? & ? & ? & _); congruence]).
  assert (email ≠ "" ∧ name ≠ "" ∧ role ≠ "") as (He' & Hn' & Hr').
  { repeat split; intros ->; discriminate. }
  destruct (is_valid_email email) eqn:Hv; cbn [negb];
    [|split; [discriminate | intros (_ & _ & _ & ? & _); congruence]].
  case_bool_decide as Hrole; cbn [negb].
  - split; [|reflexivity]. intros _. repeat split; try assumption. set_solver.
  - split; [discriminate|]. intros (_ & _ & _ & _ & H). exfalso. apply Hrole.
    set_solver.
Qed.

(** C3. For an upload whose header has the columns email, name and role:
    if some row lacks a field or fails a check, the call returns failure and
    the file is as before, valid rows before the bad one included, whatever
    else fails; without a storage error, the message is the one of the first
    row that fails a check (an empty field, an invalid email, a role other
    than student or admin), named by its email; and when every row passes,
    the call returns success with the number of rows inserted, which is the
    growth of [users]: rows that existed are unchanged and not counted,
    every email of the upload has a row, a new row has the name and role of
    a row of the upload and a hash of the default password, and no other
    table changes. *)
Theorem bulk_register_users_all_or_nothing E d fieldnames rows :
  header_ok fieldnames = true →
  let r := run (bulk_register_users E (Decoded (Some fieldnames) rows)) d in
  (Exists (λ row, row_ok row = false) rows →
     ∃ msg, result r = Returns (false, msg) ∧ db_after r = d)
  ∧ (env_fault E = None →
     ∀ pre row post email name role msg,
       rows = pre ++ row :: post → Forall (λ row, row_ok row = true) pre →
       stripped row = Some (email, name, role) →
       row_problem email name role = Some msg →
       result r = Returns (false, msg)
       ∧ db_after r = d
       ∧ ((msg = "Missing data in row: " +:+ email
           ∧ (email = "" ∨ name = "" ∨ role = ""))
          ∨ (msg = "Invalid email format: " +:+ email ∧ is_valid_email email = false)
          ∨ (msg = "Invalid role for " +:+ email +:+ ": " +:+ role
             ∧ role ≠ "student" ∧ role ≠ "admin")))
  ∧ (env_fault E = None → Forall (λ row, row_ok row = true) rows →
     ∃ n, result r = Returns (true, pretty n +:+ " users registered successfully!")
       ∧ size (users (db_after r)) = size (users d) + n
       ∧ (∀ email u, users d !! email = Some u → users (db_after r) !! email = Some u)
       ∧ (∀ email, email ∈ row_emails rows → is_Some (users (db_after r) !! email))
       ∧ (∀ email u, users (db_after r) !! email = Some u →
            users d !! email = Some u
            ∨ ∃ row c, row ∈ rows ∧ stripped row = Some (email, u_name u, u_role u)
                       ∧ u_password_hash u = Some (env_hash E c "default123"))
       ∧ db_after r = set_users (λ _, users (db_after r)) d)
  ∧ (∀ row, row_ok row = true
            ↔ ∃ email name role,
                stripped row = Some (email, name, role)
                ∧ email ≠ "" ∧ name ≠ "" ∧ role ≠ ""
                ∧ is_valid_email email = true
                ∧ (role = "student" ∨ role = "admin")).
Proof.
  intros Hh r.
  assert (Hreject : Exists (λ row, row_ok row = false) rows →
            ∃ msg, result r = Returns (false, msg) ∧ db_after r = d)
    by (intros Hex; now apply bulk_register_users_rejects).
  split; [exact Hreject|]. split; [|split].
  - intros Hf pre row post email name role msg -> Hpre Hs Hp.
    split; [now apply (bulk_register_users_bad E d fieldnames pre row post
                         email name role msg)|].
    split; [|now apply row_problem_cases].
    destruct Hreject as (msg' & _ & Hd); [|exact Hd].
    apply Exists_app. right. apply Exists_cons_hd. unfold row_ok.
    now rewrite Hs, Hp.
  - intros Hf Hrows. subst r.
    rewrite (bulk_register_users_ok E d fieldnames rows Hf Hh Hrows).
    cbn [result db_after].
    destruct (register_rows_spec E rows 1 (users d)) as (Hkeep & Hsize & Hnew & Hall).
    cbn zeta in *.
    exists (register_rows E 1 rows (users d)).2.
    split; [reflexivity|]. split; [exact Hsize|]. split; [exact Hkeep|].
    split; [now apply Hall|]. split; [exact Hnew|reflexivity].
  - intros row. split.
    + intros Hok. destruct (row_ok_inv row Hok) as (e & n & ro & Hs & Hp).
      exists e, n, ro. split; [exact Hs|]. now apply row_problem_none.
    + intros (e & n & ro & Hs & Hrest). unfold row_ok. rewrite Hs.
      now rewrite (proj2 (row_problem_none e n ro) Hrest).
Qed.

Lemma bulk_register_users_all_or_nothing_witness :
  let r := run (bulk_register_users (sample_env "e")
                  (Decoded (Some ["email"; "name"; "role"]) upload_bad_second)) sample_db in
  header_ok ["email"; "name"; "role"] = true
  ∧ Exists (λ row, row_ok row = false) upload_bad_second
  ∧ ∃ msg, result r = Returns (false, msg) ∧ db_after r = sample_db.
Proof.
  intros r.
  assert (Hh : header_ok ["email"; "name"; "role"] = true) by reflexivity.
  assert (Hex : Exists (λ row, row_ok row = false) upload_bad_second).
  { apply Exists_cons_tl, Exists_cons_hd. vm_compute. reflexivity. }
  split; [exact Hh|]. split; [exact Hex|].
  exact (proj1 (bulk_register_users_all_or_nothing (sample_env "e") sample_db
                  ["email"; "name"; "role"] upload_bad_second Hh) Hex).
Defined.

(** The scenario of the specification: Alice's row is valid, Bob's email is
    not; the batch is refused at the second row and Alice is not stored. *)
Example bulk_register_users_scenario :
  let r := run (bulk_register_users (sample_env "e")
                  (Decoded (Some ["email"; "name"; "role"]) upload_bad_second)) sample_db in
  result r = Returns (false, "Invalid email format: bad-email")
  ∧ users (db_after r) !! "a@b.com" = None.
Proof. cbv zeta. split; vm_compute; reflexivity. Qed.

(** Two valid rows, one of an email that exists already: one row is
    inserted and counted, the existing row is as it was. *)
Example bulk_register_users_counts_inserted :
  let r := run (bulk_register_users (sample_env "e")
                  (Decoded (Some ["email"; "name"; "role"]) upload_good)) sample_db in
  result r = Returns (true, "1 users registered successfully!")
  ∧ users (db_after r) !! "s@c.edu" = users sample_db !! "s@c.edu"
  ∧ is_Some (users (db_after r) !! "a@b.com").
Proof.
  cbv zeta. split; [vm_compute; reflexivity|]. split; [vm_compute; reflexivity|].
  eexists. vm_compute. reflexivity.
Qed.

(** ** Further properties of the code *)

(** *** Accounts: verify_user, save_user, reset_user_password *)

Lemma verify_user_run V E d email password :
  run (verify_user V E email password) d
  = mk_run
      match env_fault E with
      | Some (0, SqliteError _) | Some (1, SqliteError _) =>
          Returns (None, Some "Database error. Please try again.")
      | Some (0, OtherError msg) | Some (1, OtherError msg) => Raises (OtherError msg)
      | _ =>
          match users d !! email with
          | None => Returns (None, Some "Email not found.")
          | Some row =>
              match V password (u_password_hash row) with
              | inr true => Returns (Some (mk_login (u_name row) (u_role row)), None)
              | inr false => Returns (None, Some "Incorrect password.")
              | inl (SqliteError _) =>
                  Returns (None, Some "Database error. Please try again.")
              | inl (OtherError msg) => Raises (OtherError msg)
              end
          end
      end d [].
Proof.
  unfold verify_user, sql_select_user. unfold_program. unfold tick.
  destruct (env_fault E) as [[[|[|k]] [msg|msg]]|]; cbn; try reflexivity;
    destruct (users d !! email) as [row|]; cbn; try reflexivity;
    destruct (V password (u_password_hash row)) as [[m|m]|[|]]; reflexivity.
Qed.

(** X1. [verify_user] tells four outcomes apart and writes nothing: an email
    without a row gives "Email not found."; a row whose hash passlib accepts
    for the password gives the name and role of the row and no message; a
    row whose hash it rejects gives "Incorrect password."; a failure of one
    of its two storage calls gives "Database error. Please try again.".  An
    exception of passlib itself (it raises for a NULL hash) is not caught
    and leaves the function. *)
Theorem verify_user_outcomes V E d email password :
  let r := run (verify_user V E email password) d in
  db_after r = d ∧ errors_shown r = []
  ∧ (env_fault E = None →
     (users d !! email = None → result r = Returns (None, Some "Email not found."))
     ∧ (∀ row, users d !! email = Some row →
          (V password (u_password_hash row) = inr true →
           result r = Returns (Some (mk_login (u_name row) (u_role row)), None))
          ∧ (V password (u_password_hash row) = inr false →
             result r = Returns (None, Some "Incorrect password."))
          ∧ (∀ msg, V password (u_password_hash row) = inl (OtherError msg) →
             result r = Raises (OtherError msg))))
  ∧ (∀ k msg, env_fault E = Some (k, SqliteError msg) → k < 2 →
     result r = Returns (None, Some "Database error. Please try again.")).
Proof.
  intros r. subst r. rewrite verify_user_run. cbn [result db_after errors_shown].
  split; [reflexivity|]. split; [reflexivity|]. split.
  - intros ->. split; [now intros ->|]. intros row ->.
    split; [now intros ->|]. split; [now intros ->|]. now intros msg ->.
  - intros k msg -> Hk. destruct k as [|[|k]]; [reflexivity|reflexivity|lia].
Qed.

Lemma verify_user_outcomes_witness :
  let r := run (verify_user sample_verify (sample_env "e") "s@c.edu" "secret")
             sample_db in
  env_fault (sample_env "e") = None
  ∧ result r = Returns (Some (mk_login "Sam" "student"), None)
  ∧ result (run (verify_user sample_verify (sample_env "e") "s@c.edu" "guess")
              sample_db)
    = Returns (None, Some "Incorrect password.").
Proof.
  intros r. split; [reflexivity|].
  destruct (verify_user_outcomes sample_verify (sample_env "e") sample_db
              "s@c.edu" "secret") as (_ & _ & H & _).
  destruct (H eq_refl) as (_ & H').
  assert (Hrow : users sample_db !! "s@c.edu"
                 = Some (mk_user "Sam" "student" (Some "$pbkdf2-sha256$b1$secret")))
    by (vm_compute; reflexivity).
  split.
  - apply (proj1 (H' _ Hrow)). vm_compute. reflexivity.
  - vm_compute. reflexivity.
Defined.

Lemma reset_user_password_run E d email new_password :
  env_fault E = None →
  run (reset_user_password E email new_password) d
  = match users d !! email with
    | Some u =>
        mk_run (Returns (true, "Password reset successfully."))
          (set_users (insert email (mk_user (u_name u) (u_role u)
                                      (Some (env_hash E 1 new_password)))) d) []
    | None => mk_run (Returns (false, "User not found.")) d []
    end.
Proof.
  intros Hf. unfold reset_user_password, sql_update_user_password. unfold_program.
  cbn -[tick]. tick_through Hf.
  destruct (users d !! email) as [u|]; cbn -[tick]; tick_through Hf; reflexivity.
Qed.

Lemma save_user_with_password_run E d email name password role :
  env_fault E = None → truthy password = true →
  run (save_user E email name password role) d
  = mk_run (Returns (true, "User saved successfully."))
      (set_users (insert email (mk_user name role
                                  (Some (env_hash E 1 (default "" password))))) d) [].
Proof.
  intros Hf Hp. unfold save_user, sql_insert_or_replace_user. rewrite Hp.
  unfold_program. cbn -[tick]. tick_through Hf. reflexivity.
Qed.

(** X2. Without a storage error, [reset_user_password] on an email that has
    a row replaces the hash of that row by a hash of the new password and
    leaves its name and role, every other row and every other table as they
    were; on an email without a row it returns (False, "User not found.")
    and changes nothing. *)
Theorem reset_user_password_effect E d email new_password :
  env_fault E = None →
  let r := run (reset_user_password E email new_password) d in
  (∀ u, users d !! email = Some u →
        result r = Returns (true, "Password reset successfully.")
        ∧ ∃ c, users (db_after r) !! email
               = Some (mk_user (u_name u) (u_role u) (Some (env_hash E c new_password))))
  ∧ (users d !! email = None →
     result r = Returns (false, "User not found.") ∧ db_after r = d)
  ∧ (∀ other, other ≠ email → users (db_after r) !! other = users d !! other)
  ∧ db_after r = set_users (λ _, users (db_after r)) d.
Proof.
  intros Hf r. subst r. rewrite (reset_user_password_run E d email new_password Hf).
  destruct (users d !! email) as [u|] eqn:Hu; cbn [result db_after].
  - split; [|split; [discriminate|split]].
    + intros u' [= <-]. split; [reflexivity|]. exists 1. cbn. apply lookup_insert_eq.
    + intros other Hne. cbn. now apply lookup_insert_ne.
    + reflexivity.
  - split; [discriminate|]. split; [now split|]. split; [reflexivity|].
    now destruct d.
Qed.

Lemma reset_user_password_effect_witness :
  env_fault (sample_env "e") = None
  ∧ result (run (reset_user_password (sample_env "e") "s@c.edu" "n3w") sample_db)
    = Returns (true, "Password reset successfully.")
  ∧ result (run (reset_user_password (sample_env "e") "nobody@c.edu" "n3w") sample_db)
    = Returns (false, "User not found.").
Proof.
  split; [reflexivity|]. split.
  - destruct (reset_user_password_effect (sample_env "e") sample_db "s@c.edu" "n3w"
                eq_refl) as (H & _).
    refine (proj1 (H (mk_user "Sam" "student" (Some "$pbkdf2-sha256$b1$secret")) _)).
    vm_compute. reflexivity.
  - destruct (reset_user_password_effect (sample_env "e") sample_db "nobody@c.edu" "n3w"
                eq_refl) as (_ & H & _).
    refine (proj1 (H _)). vm_compute. reflexivity.
Defined.

(** X3. Without a storage error, [save_user] with a password (not empty)
    stores the row (name, role, hash of the password) under the email,
    whether the email had a row or not: an existing row is replaced as a
    whole.  Every other row and table is unchanged and the call returns
    success. *)
Theorem save_user_with_password_upserts E d email name password role :
  env_fault E = None → password ≠ "" →
  let r := run (save_user E email name (Some password) role) d in
  result r = Returns (true, "User saved successfully.")
  ∧ (∃ c, users (db_after r) !! email
          = Some (mk_user name role (Some (env_hash E c password))))
  ∧ (∀ other, other ≠ email → users (db_after r) !! other = users d !! other)
  ∧ db_after r = set_users (λ _, users (db_after r)) d.
Proof.
  intros Hf Hp r. subst r.
  assert (Ht : truthy (Some password) = true) by (destruct password; [done|reflexivity]).
  rewrite (save_user_with_password_run E d email name (Some password) role Hf Ht).
  cbn [result db_after default]. split; [reflexivity|]. split; [|split].
  - exists 1. cbn. apply lookup_insert_eq.
  - intros other Hne. cbn. now apply lookup_insert_ne.
  - reflexivity.
Qed.

Lemma save_user_with_password_upserts_witness :
  env_fault (sample_env "e") = None ∧ "pw" ≠ ""
  ∧ result (run (save_user (sample_env "e") "s@c.edu" "Samuel" (Some "pw") "admin")
              sample_db)
    = Returns (true, "User saved successfully.").
Proof.
  split; [reflexivity|]. split; [discriminate|].
  apply (save_user_with_password_upserts (sample_env "e") sample_db "s@c.edu" "Samuel"
           "pw" "admin" eq_refl). discriminate.
Defined.

(** X4. Registering (or re-registering) a user with a password and then
    verifying with the same password logs in with the name and role just
    stored, and resetting a password and then verifying with the new one
    logs in with the name and role the row had; both without storage errors
    and given that passlib accepts a hash it made of the password. *)
Theorem login_after_save_or_reset V E1 E2 d email name password role :
  env_fault E1 = None → env_fault E2 = None → password ≠ "" →
  (∀ c, V password (Some (env_hash E1 c password)) = inr true) →
  result (run (verify_user V E2 email password)
            (db_after (run (save_user E1 email name (Some password) role) d)))
  = Returns (Some (mk_login name role), None)
  ∧ (∀ u, users d !! email = Some u →
       result (run (verify_user V E2 email password)
                 (db_after (run (reset_user_password E1 email password) d)))
       = Returns (Some (mk_login (u_name u) (u_role u)), None)).
Proof.
  intros Hf1 Hf2 Hp HV.
  assert (Ht : truthy (Some password) = true) by (destruct password; [done|reflexivity]).
  split.
  - rewrite (save_user_with_password_run E1 d email name (Some password) role Hf1 Ht).
    rewrite verify_user_run, Hf2. cbn. rewrite lookup_insert_eq. cbn. now rewrite HV.
  - intros u Hu. rewrite (reset_user_password_run E1 d email password Hf1), Hu.
    rewrite verify_user_run, Hf2. cbn. rewrite lookup_insert_eq. cbn. now rewrite HV.
Qed.

Lemma ends_with_app x y s : ends_with x s = true → ends_with x (y +:+ s) = true.
Proof.
  intros H. induction y as [|c y IH]; [exact H|].
  change (String.eqb x (String c (y +:+ s)) || ends_with x (y +:+ s) = true).
  rewrite IH. apply orb_true_r.
Qed.

Lemma ends_with_refl x : ends_with x x = true.
Proof.
  destruct x as [|c r]; [reflexivity|].
  change (String.eqb (String c r) (String c r) || ends_with (String c r) r = true).
  now rewrite String.eqb_refl.
Qed.

Lemma sample_verify_accepts tag c password :
  sample_verify password (Some (env_hash (sample_env tag) c password)) = inr true.
Proof.
  cbn [sample_verify sample_env env_hash]. f_equal.
  do 3 apply ends_with_app. apply ends_with_refl.
Qed.

Lemma login_after_save_or_reset_witness :
  env_fault (sample_env "e") = None ∧ env_fault (sample_env "f") = None ∧ "pw" ≠ ""
  ∧ (∀ c, sample_verify "pw" (Some (env_hash (sample_env "e") c "pw")) = inr true)
  ∧ result (run (verify_user sample_verify (sample_env "f") "new@c.edu" "pw")
              (db_after (run (save_user (sample_env "e") "new@c.edu" "Nia" (Some "pw")
                                "student") sample_db)))
    = Returns (Some (mk_login "Nia" "student"), None).
Proof.
  assert (Hp : "pw" ≠ "") by discriminate.
  split; [reflexivity|]. split; [reflexivity|]. split; [exact Hp|].
  split; [intros c; apply sample_verify_accepts|].
  exact (proj1 (login_after_save_or_reset sample_verify (sample_env "e") (sample_env "f")
                  sample_db "new@c.edu" "Nia" "pw" "student" eq_refl eq_refl Hp
                  (λ c, sample_verify_accepts "e" c "pw"))).
Defined.

(** *** Functions that only read *)

Section KeepsMore.
Variable E : Env.

Lemma keeps_close : keeps_disk close.
Proof. intros s. now split. Qed.

Lemma keeps_def {A} (body : M A) : keeps_disk body → keeps_disk (def_ body).
Proof.
  intros Hb s. unfold def_.
  specialize (Hb (mk_state (disk s) None (calls s) (shown s))).
  destruct (body _) as [a s'|e s']; exact Hb.
Qed.

Lemma keeps_try_except_sqlite {A} (body : M A) handler :
  keeps_disk body → (∀ msg, keeps_disk (handler msg)) →
  keeps_disk (try_except_sqlite body handler).
Proof.
  intros Hb Hh s. unfold try_except_sqlite. specialize (Hb s).
  destruct (body s) as [a s'|[msg|msg] s']; try exact Hb.
  specialize (Hh msg s'). destruct Hb as [Hd Hs].
  destruct (handler msg s'); destruct Hh as [Hd' Hs']; split; congruence.
Qed.

Lemma keeps_pandas_read_sql_query {A} sql (f : Db → A) :
  keeps_disk (pandas_read_sql_query E sql f).
Proof.
  unfold pandas_read_sql_query. apply keeps_bind.
  - intros s. unfold with_state. destruct (tick_cases E s) as [-> | [e ->]]; now split.
  - intros _. apply keeps_bind; [apply keeps_tick|]. intros _ s. now split.
Qed.

Lemma keeps_run {A} (m : M A) d :
  keeps_disk m → db_after (run m d) = d ∧ errors_shown (run m d) = [].
Proof.
  intros Hm. unfold run. specialize (Hm (start d)).
  destruct (m (start d)); exact Hm.
Qed.
End KeepsMore.

Create HintDb keeps.
#[global] Hint Resolve keeps_ret keeps_raise keeps_tick keeps_execute_query
  keeps_pandas_read_sql_query keeps_close keeps_hash_password keeps_uuid4 : keeps.
#[global] Hint Extern 2 (keeps_disk (mbind _ _)) =>
  apply keeps_bind; [|intros] : keeps.
#[global] Hint Extern 2 (keeps_disk (def_ _)) => apply keeps_def : keeps.
#[global] Hint Extern 2 (keeps_disk (try_except_sqlite _ _)) =>
  apply keeps_try_except_sqlite; [|intros] : keeps.
#[global] Hint Extern 3 (keeps_disk (if ?b then _ else _)) => destruct b : keeps.
#[global] Hint Extern 3 (keeps_disk (match ?x with _ => _ end)) => destruct x : keeps.

(** X5. The functions that only read never change the file and never show
    a message, whatever fails: [get_project_title_for_student],
    [get_user_projects], [get_dashboard_stats], [get_available_projects] and
    [export_query_logs_to_csv]. *)
Theorem readers_write_nothing E d :
  (∀ email, let r := run (get_project_title_for_student E email) d in
            db_after r = d ∧ errors_shown r = [])
  ∧ (∀ email, let r := run (get_user_projects E email) d in
              db_after r = d ∧ errors_shown r = [])
  ∧ (let r := run (get_dashboard_stats E) d in db_after r = d ∧ errors_shown r = [])
  ∧ (let r := run (get_available_projects E) d in db_after r = d ∧ errors_shown r = [])
  ∧ (∀ student_email project_filter date_from date_to,
       let r := run (export_query_logs_to_csv E student_email project_filter
                       date_from date_to) d in
       db_after r = d ∧ errors_shown r = []).
Proof.
  repeat split; intros; apply keeps_run.
  all: try (unfold get_project_title_for_student; auto 20 with keeps).
  all: try (unfold get_user_projects; auto 20 with keeps).
  all: try (unfold get_dashboard_stats; auto 20 with keeps).
  all: try (unfold get_available_projects; auto 20 with keeps).
  all: unfold export_query_logs_to_csv, read_sql_query; auto 20 with keeps.
Qed.

(** *** delete_user *)

(** Whatever fails, [delete_user] leaves the file as it was or removes
    everything it is meant to remove. *)
Lemma delete_user_cases E d email :
  let r := run (delete_user E email) d in
  db_after r = d
  ∨ (is_Some (users d !! email)
     ∧ result r = Returns (true, "User deleted successfully.")
     ∧ db_after r
       = mk_db (db_schema d) (delete email (users d))
           (filter (λ p, p_email p ≠ email) (projects d))
           (filter (λ q, q_email q ≠ email) (queries d))
           (delete email (student_project_mapping d))
           (student_project_map d)).
Proof.
  unfold delete_user, sql_delete_user, sql_delete_mapping, sql_delete_queries,
    sql_delete_projects. unfold_program. cbn -[tick].
  tick_split E; [|destruct e; now left].
  tick_split E; [|destruct e; now left].
  destruct (users d !! email) as [u|] eqn:Hu; cbn -[tick]; [|now left].
  tick_split E; [|destruct e; now left].
  destruct (student_project_mapping d !! email) as [m|] eqn:Hm; cbn -[tick].
  - do 3 (tick_split E; [|destruct e; now left]).
    right. split; [now eexists|]. now split.
  - do 3 (tick_split E; [|destruct e; now left]).
    right. split; [now eexists|]. split; [reflexivity|].
    now rewrite (delete_id _ _ Hm).
Qed.

Lemma filter_none {A} (P : A → Prop) `{!∀ x, Decision (P x)} (l : list A) :
  (∀ x, x ∈ l → ¬ P x) → filter P l = [].
Proof.
  induction l as [|x l IH]; intros Hall; [reflexivity|].
  rewrite filter_cons. destruct (decide (P x)) as [HP|_].
  - exfalso. apply (Hall x); [left | exact HP].
  - apply IH. intros y Hy. apply Hall. now right.
Qed.

Lemma filter_other_email {A} (key : A → string) (email other : string) (l : list A) :
  other ≠ email →
  filter (λ x, key x = other) (filter (λ x, key x ≠ email) l)
  = filter (λ x, key x = other) l.
Proof.
  intros Hne. rewrite list_filter_filter. apply list_filter_iff.
  intros x. split; [now intros [H _] | intros H; split; [exact H | congruence]].
Qed.

(** X6. Whatever fails, [delete_user] touches nothing that belongs to
    another email: the users row, the mapping row, the queries and the
    projects of every other email are as before, in the same order.  It never
    touches [student_project_map], so the rows of the deleted user stay
    there.  And it is all or nothing: either the file is unchanged, or the
    user had a row, the call reports success and the rows of the email are
    gone from the four tables. *)
Theorem delete_user_frame E d email :
  let r := run (delete_user E email) d in
  student_project_map (db_after r) = student_project_map d
  ∧ db_schema (db_after r) = db_schema d
  ∧ (∀ other, other ≠ email →
       users (db_after r) !! other = users d !! other
       ∧ student_project_mapping (db_after r) !! other
         = student_project_mapping d !! other
       ∧ filter (λ q, q_email q = other) (queries (db_after r))
         = filter (λ q, q_email q = other) (queries d)
       ∧ filter (λ p, p_email p = other) (projects (db_after r))
         = filter (λ p, p_email p = other) (projects d))
  ∧ (db_after r = d
     ∨ (is_Some (users d !! email)
        ∧ result r = Returns (true, "User deleted successfully.")
        ∧ users (db_after r) !! email = None
        ∧ student_project_mapping (db_after r) !! email = None
        ∧ filter (λ q, q_email q = email) (queries (db_after r)) = []
        ∧ filter (λ p, p_email p = email) (projects (db_after r)) = [])).
Proof.
  intros r. destruct (delete_user_cases E d email) as [Heq|(Hu & Hres & Heq)];
    fold r in Heq; rewrite Heq.
  - repeat split; auto.
  - cbn. split; [reflexivity|]. split; [reflexivity|]. split.
    + intros other Hne. rewrite !lookup_delete_ne by congruence.
      split; [reflexivity|]. split; [reflexivity|].
      split; now apply filter_other_email.
    + right. split; [exact Hu|]. split; [exact Hres|].
      rewrite !lookup_delete_eq. split; [reflexivity|]. split; [reflexivity|].
      split; apply filter_none; intros x Hx%list_elem_of_filter Hx'; now destruct Hx.
Qed.

Lemma get_project_title_for_student_run E d email :
  env_fault E = None →
  run (get_project_title_for_student E email) d
  = mk_run (Returns (sql_select_project_title email d)) d [].
Proof.
  intros Hf. unfold get_project_title_for_student. unfold_program.
  cbn -[tick]. tick_through Hf. reflexivity.
Qed.

Lemma get_user_projects_run E d email :
  env_fault E = None →
  run (get_user_projects E email) d
  = mk_run (Returns (["project_title"; "timestamp"], sql_select_user_projects email d))
      d [].
Proof.
  intros Hf. unfold get_user_projects. unfold_program.
  cbn -[tick sql_select_user_projects]. tick_through Hf. reflexivity.
Qed.

(** An export with an email asks every row it selects to have that email. *)
Lemma matches_email E student_email project_filter date_from date_to q :
  matches E (export_conditions student_email project_filter date_from date_to) q = true →
  truthy student_email = true → q_email q = default "" student_email.
Proof.
  intros Hm Hs.
  assert (Hin : EmailIs (default "" student_email)
                  ∈ export_conditions student_email project_filter date_from date_to).
  { unfold export_conditions. rewrite Hs. repeat case_match; set_solver. }
  unfold matches in Hm. rewrite forallb_forall in Hm.
  apply list_elem_of_In in Hin. specialize (Hm _ Hin). cbn in Hm.
  now apply bool_decide_eq_true in Hm.
Qed.

(** X7. After [delete_user] has reported success for an email, and absent
    storage errors, nothing of the user is left to read: [verify_user] says
    "Email not found.", [get_project_title_for_student] gives [None],
    [get_user_projects] gives a frame without rows, and the export of the
    student's queries gives [None], whatever the other filters are. *)
Theorem nothing_left_after_delete V E E' d email :
  env_fault E' = None → email ≠ "" →
  result (run (delete_user E email) d) = Returns (true, "User deleted successfully.") →
  let d' := db_after (run (delete_user E email) d) in
  (∀ password, result (run (verify_user V E' email password) d')
               = Returns (None, Some "Email not found."))
  ∧ result (run (get_project_title_for_student E' email) d') = Returns None
  ∧ result (run (get_user_projects E' email) d')
    = Returns (["project_title"; "timestamp"], [])
  ∧ (∀ project_filter date_from date_to,
       result (run (export_query_logs_to_csv E' (Some email) project_filter
                      date_from date_to) d') = Returns None).
Proof.
  intros Hf He Hres d'.
  destruct (delete_user_cases E d email) as [Heq|(Hu & _ & Heq)].
  { exfalso. revert Hres Heq. unfold delete_user, sql_delete_user, sql_delete_mapping,
      sql_delete_queries, sql_delete_projects. unfold_program. cbn -[tick].
    tick_split E; [|destruct e; discriminate].
    tick_split E; [|destruct e; discriminate].
    destruct (users d !! email) as [u|] eqn:Hu'; cbn -[tick]; [|discriminate].
    tick_split E; [|destruct e; discriminate].
    destruct (student_project_mapping d !! email) as [m|] eqn:Hm; cbn -[tick];
      (do 3 (tick_split E; [|destruct e; discriminate])); intros _ Heq;
      apply (f_equal (λ x, users x !! email)) in Heq; cbn in Heq;
      rewrite lookup_delete_eq in Heq; congruence. }
  subst d'. rewrite Heq. clear Heq. split; [|split; [|split]].
  - intros password. rewrite verify_user_run, Hf. cbn. now rewrite lookup_delete_eq.
  - rewrite (get_project_title_for_student_run _ _ _ Hf). cbn.
    unfold sql_select_project_title. cbn. now rewrite lookup_delete_eq.
  - rewrite (get_user_projects_run _ _ _ Hf). cbn. unfold sql_select_user_projects. cbn.
    rewrite filter_none; [reflexivity|].
    intros p Hp%list_elem_of_filter Hp'. now destruct Hp.
  - intros project_filter date_from date_to.
    rewrite (export_query_logs_to_csv_run _ _ _ _ _ _ Hf). cbn [result].
    unfold sql_select_logs. cbn [queries].
    rewrite filter_none; [reflexivity|].
    intros q Hq%list_elem_of_filter Hm. destruct Hq as [Hq _].
    apply Hq. apply (matches_email E' (Some email) project_filter date_from date_to q Hm).
    destruct email; [done|reflexivity].
Qed.

Lemma nothing_left_after_delete_witness :
  env_fault (sample_env "f") = None ∧ "s@c.edu" ≠ ""
  ∧ result (run (delete_user (sample_env "e") "s@c.edu") sample_db)
    = Returns (true, "User deleted successfully.")
  ∧ result (run (get_project_title_for_student (sample_env "f") "s@c.edu")
              (db_after (run (delete_user (sample_env "e") "s@c.edu") sample_db)))
    = Returns None.
Proof.
  assert (He : "s@c.edu" ≠ "") by discriminate.
  assert (Hres : result (run (delete_user (sample_env "e") "s@c.edu") sample_db)
                 = Returns (true, "User deleted successfully."))
    by (vm_compute; reflexivity).
  split; [reflexivity|]. split; [exact He|]. split; [exact Hres|].
  exact (proj1 (proj2 (nothing_left_after_delete sample_verify (sample_env "e")
                         (sample_env "f") sample_db "s@c.edu" eq_refl He Hres))).
Defined.

(** *** save_project *)

(** Whatever fails, [save_project] writes its three rows or none. *)
Lemma save_project_cases E d email project_title :
  let r := run (save_project E email project_title) d in
  (db_after r = d ∧ result r ≠ Returns (true, "Project saved successfully."))
  ∨ (result r = Returns (true, "Project saved successfully.")
     ∧ ∃ project_id timestamp,
         (project_id ∉ p_project_id <$> projects d)
         ∧ db_after r
           = mk_db (db_schema d) (users d)
               (projects d ++ [mk_project project_id email project_title timestamp])
               (queries d)
               (<[email := mk_mapping project_title timestamp]>
                  (student_project_mapping d))
               (student_project_map d ++ [mk_project_map email project_id timestamp])).
Proof.
  unfold save_project, sql_insert_project, sql_insert_project_map,
    sql_insert_or_replace_mapping. unfold_program. cbn -[tick].
  tick_split E; [|destruct e; now left].
  tick_split E; [|destruct e; now left].
  case_bool_decide as Hid; cbn -[tick]; [now left|].
  tick_split E; [|destruct e; now left].
  case_bool_decide as Hpair; cbn -[tick]; [now left|].
  tick_split E; [|destruct e; now left].
  tick_split E; [|destruct e; now left].
  right. split; [reflexivity|]. eexists _, _. split; [exact Hid|reflexivity].
Qed.

(** X8. The three writes of [save_project] are all or nothing, whatever
    fails: either the call does not report success and the file is
    unchanged, or it reports success and the file has exactly one more
    project row (with a new id), one more row of the history table for the
    same id, and the mapping row of the email holds the new title; users and
    queries are never touched. *)
Theorem save_project_all_or_nothing E d email project_title :
  let r := run (save_project E email project_title) d in
  users (db_after r) = users d ∧ queries (db_after r) = queries d
  ∧ ((db_after r = d ∧ result r ≠ Returns (true, "Project saved successfully."))
     ∨ (result r = Returns (true, "Project saved successfully.")
        ∧ ∃ project_id timestamp,
            (project_id ∉ p_project_id <$> projects d)
            ∧ projects (db_after r)
              = projects d ++ [mk_project project_id email project_title timestamp]
            ∧ student_project_map (db_after r)
              = student_project_map d ++ [mk_project_map email project_id timestamp]
            ∧ student_project_mapping (db_after r)
              = <[email := mk_mapping project_title timestamp]>
                  (student_project_mapping d))).
Proof.
  intros r.
  destruct (save_project_cases E d email project_title)
    as [[Heq Hres]|(Hres & id & ts & Hid & Heq)]; fold r in Heq, Hres; rewrite Heq.
  - split; [reflexivity|]. split; [reflexivity|]. left. now split.
  - cbn. split; [reflexivity|]. split; [reflexivity|]. right.
    split; [exact Hres|]. exists id, ts. now repeat split.
Qed.

Lemma get_available_projects_elem E d t :
  env_fault E = None →
  (∃ email m, student_project_mapping d !! email = Some m ∧ m_project_title m = t) →
  ∃ titles, result (run (get_available_projects E) d) = Returns titles ∧ t ∈ titles.
Proof.
  intros Hf (email & m & Hm & <-). exists (sql_select_distinct_titles d).
  rewrite (get_available_projects_run E d Hf). split; [reflexivity|].
  unfold sql_select_distinct_titles.
  rewrite merge_sort_Permutation, elem_of_remove_dups, list_elem_of_fmap.
  exists (email, m). split; [reflexivity|]. now apply elem_of_map_to_list.
Qed.

(** X9. Once [save_project] has reported success for an email and a title,
    and absent storage errors in the readers: the current title of the
    student is that title, the title is among the available projects, and
    the student's projects include it. *)
Theorem title_after_save_project E E' d email project_title :
  env_fault E' = None →
  result (run (save_project E email project_title) d)
  = Returns (true, "Project saved successfully.") →
  let d' := db_after (run (save_project E email project_title) d) in
  result (run (get_project_title_for_student E' email) d') = Returns (Some project_title)
  ∧ (∃ titles, result (run (get_available_projects E') d') = Returns titles
               ∧ project_title ∈ titles)
  ∧ (∃ rows timestamp,
       result (run (get_user_projects E' email) d')
       = Returns (["project_title"; "timestamp"], rows)
       ∧ (project_title, timestamp) ∈ rows).
Proof.
  intros Hf Hres d'.
  destruct (save_project_cases E d email project_title)
    as [[_ Hno]|(_ & id & ts & Hid & Heq)]; [contradiction|].
  subst d'. rewrite Heq. clear Heq. split; [|split].
  - rewrite (get_project_title_for_student_run _ _ _ Hf). cbn.
    unfold sql_select_project_title. cbn. now rewrite lookup_insert_eq.
  - apply get_available_projects_elem; [exact Hf|].
    exists email, (mk_mapping project_title ts). cbn. split; [|reflexivity].
    apply lookup_insert_eq.
  - eexists _, ts. rewrite (get_user_projects_run _ _ _ Hf). cbn [result].
    split; [reflexivity|]. unfold sql_select_user_projects. cbn [projects].
    apply list_elem_of_fmap. exists (mk_project id email project_title ts).
    split; [reflexivity|]. rewrite merge_sort_Permutation.
    apply list_elem_of_filter. split; [reflexivity|]. set_solver.
Qed.

Lemma title_after_save_project_witness :
  env_fault (sample_env "f") = None
  ∧ result (run (save_project (sample_env "e") "s@c.edu" "Robotics") sample_db)
    = Returns (true, "Project saved successfully.")
  ∧ result (run (get_project_title_for_student (sample_env "f") "s@c.edu")
              (db_after (run (save_project (sample_env "e") "s@c.edu" "Robotics")
                           sample_db)))
    = Returns (Some "Robotics").
Proof.
  assert (Hres : result (run (save_project (sample_env "e") "s@c.edu" "Robotics")
                           sample_db)
                 = Returns (true, "Project saved successfully."))
    by (vm_compute; reflexivity).
  split; [reflexivity|]. split; [exact Hres|].
  exact (proj1 (title_after_save_project (sample_env "e") (sample_env "f") sample_db
                  "s@c.edu" "Robotics" eq_refl Hres)).
Defined.

(** *** save_query and the title of a query *)

Lemma nonempty_neq s : nonempty s = true ↔ s ≠ "".
Proof. destruct s; cbn; split; congruence. Qed.

Lemma resolve_title_nonempty project_title mapped :
  resolve_title project_title mapped ≠ "".
Proof.
  unfold resolve_title, or_else, truthy.
  destruct project_title as [s|]; cbn.
  - destruct (nonempty s) eqn:Hs; [now apply nonempty_neq|].
    destruct mapped as [m|]; [|discriminate].
    destruct (nonempty m) eqn:Hm; [now apply nonempty_neq | discriminate].
  - destruct mapped as [m|]; [|discriminate].
    destruct (nonempty m) eqn:Hm; [now apply nonempty_neq | discriminate].
Qed.

Lemma save_query_run E d e n pt q r t fr :
  env_fault E = None →
  run (save_query E e n pt q r t fr) d
  = match sql_select_query e q t d with
    | Some _ => mk_run (Returns tt) d []
    | None =>
        if negb (storable fr)
        then mk_run (Raises (OtherError
                       "Python int too large to convert to SQLite INTEGER")) d []
        else if bool_decide (env_uuid E 1 ∈ q_query_id <$> queries d)
        then mk_run (Returns tt) d ["Failed to save query. Please try again."]
        else mk_run (Returns tt)
               (set_queries
                  (λ l, l ++ [mk_query (env_uuid E 1) e n
                                (resolve_title pt (sql_select_project_title e d))
                                q r t fr]) d) []
    end.
Proof.
  intros Hf. unfold save_query, get_project_title_for_student, sql_insert_query,
    resolve_title. unfold_program. cbn -[tick]. tick_through Hf.
  destruct (truthy pt); cbn -[tick]; tick_through Hf;
    destruct (sql_select_query e q t d); cbn -[tick]; try reflexivity;
    tick_through Hf; destruct (storable fr); cbn -[tick]; try reflexivity;
    case_bool_decide; cbn -[tick]; try reflexivity;
    tick_through Hf; reflexivity.
Qed.

(** X10. Without a storage error, when no row has the (email, question,
    timestamp) of the call and the id drawn is new: with a rating that is
    absent or fits 64 bits, [save_query] appends exactly one row that holds
    its arguments and a title that is never empty: the title given when it
    is not empty, else the current title of the student when there is one
    that is not empty, else "No Project Assigned".  With a rating beyond 64
    bits the binding of the INSERT raises [OverflowError], which leaves
    [save_query] uncaught, and nothing is stored or shown. *)
Theorem save_query_resolves_title E d email name project_title question response
    timestamp feedback_rating :
  env_fault E = None → fresh_query_ids E d →
  sql_select_query email question timestamp d = None →
  let r := run (save_query E email name project_title question response timestamp
                  feedback_rating) d in
  (storable feedback_rating = true →
   ∃ query_id title,
     db_after r
     = set_queries (λ l, l ++ [mk_query query_id email name title question response
                                 timestamp feedback_rating]) d
     ∧ result r = Returns tt
     ∧ errors_shown r = []
     ∧ title ≠ ""
     ∧ (∀ s, project_title = Some s → s ≠ "" → title = s)
     ∧ (truthy project_title = false →
        ∀ m, student_project_mapping d !! email = Some m →
             m_project_title m ≠ "" → title = m_project_title m)
     ∧ (truthy project_title = false →
        student_project_mapping d !! email = None → title = "No Project Assigned"))
  ∧ (storable feedback_rating = false →
     result r = Raises (OtherError "Python int too large to convert to SQLite INTEGER")
     ∧ db_after r = d ∧ errors_shown r = []).
Proof.
  intros Hf Hfresh Hsel r. subst r.
  rewrite (save_query_run E d _ _ _ _ _ _ _ Hf), Hsel.
  split; intros Hfit; rewrite Hfit; cbn [negb]; [|now repeat split].
  rewrite bool_decide_eq_false_2 by apply Hfresh. cbn [db_after errors_shown result].
  eexists _, _. split; [reflexivity|]. split; [reflexivity|]. split; [reflexivity|].
  split; [apply resolve_title_nonempty|]. unfold resolve_title. split; [|split].
  - intros s -> Hs. cbn. apply nonempty_neq in Hs. now rewrite Hs.
  - intros -> m Hm Hne. unfold sql_select_project_title. rewrite Hm. cbn.
    apply nonempty_neq in Hne. now rewrite Hne.
  - intros -> Hm. unfold sql_select_project_title. now rewrite Hm.
Qed.

Lemma fixed_uuid_env_fresh : fresh_query_ids (fixed_uuid_env "x") sample_db.
Proof.
  intros c Hin.
  assert (Hq : q_query_id <$> queries sample_db = ["uuid-d-1"])
    by (vm_compute; reflexivity).
  rewrite Hq in Hin. apply list_elem_of_singleton in Hin. discriminate Hin.
Qed.

Lemma save_query_resolves_title_witness :
  env_fault (fixed_uuid_env "x") = None
  ∧ fresh_query_ids (fixed_uuid_env "x") sample_db
  ∧ sql_select_query "s@c.edu" "And then?" "2024-05-01 09:40:00" sample_db = None
  ∧ ∃ query_id title,
      db_after (run (save_query (fixed_uuid_env "x") "s@c.edu" "Sam" (Some "")
                       "And then?" "Then this." "2024-05-01 09:40:00" None) sample_db)
      = set_queries (λ l, l ++ [mk_query query_id "s@c.edu" "Sam" title "And then?"
                                  "Then this." "2024-05-01 09:40:00" None]) sample_db
      ∧ title ≠ "".
Proof.
  assert (Hsel : sql_select_query "s@c.edu" "And then?" "2024-05-01 09:40:00" sample_db
                 = None) by (vm_compute; reflexivity).
  split; [reflexivity|]. split; [exact fixed_uuid_env_fresh|]. split; [exact Hsel|].
  destruct (proj1 (save_query_resolves_title (fixed_uuid_env "x") sample_db "s@c.edu"
                     "Sam" (Some "") "And then?" "Then this." "2024-05-01 09:40:00" None
                     eq_refl fixed_uuid_env_fresh Hsel) eq_refl)
    as (id & title & Hdb & _ & _ & Hne & _).
  exists id, title. now split.
Defined.

(** X11. A storage failure inside the title lookup is swallowed: when no
    title is given and the one failing storage call of the run is one of the
    two calls of the nested [get_project_title_for_student], [save_query]
    reports nothing and, for a rating that is absent or fits 64 bits, stores
    the query under "No Project Assigned", whether or not the student has a
    project. *)
Theorem save_query_survives_failed_lookup E d email name project_title question
    response timestamp feedback_rating k msg :
  env_fault E = Some (k, SqliteError msg) → k = 1 ∨ k = 2 →
  truthy project_title = false → fresh_query_ids E d →
  sql_select_query email question timestamp d = None →
  storable feedback_rating = true →
  let r := run (save_query E email name project_title question response timestamp
                  feedback_rating) d in
  result r = Returns tt ∧ errors_shown r = []
  ∧ ∃ query_id,
      db_after r
      = set_queries (λ l, l ++ [mk_query query_id email name "No Project Assigned"
                                  question response timestamp feedback_rating]) d.
Proof.
  intros Hf Hk Hp Hfresh Hsel Hfit r. subst r.
  unfold save_query, get_project_title_for_student, sql_insert_query.
  rewrite Hp. unfold_program. unfold tick. rewrite Hf.
  destruct Hk as [-> | ->]; cbn; rewrite Hsel; cbn; rewrite Hfit; cbn;
    rewrite bool_decide_eq_false_2 by apply Hfresh; cbn;
    (split; [reflexivity|]); (split; [reflexivity|]); now eexists.
Qed.

Lemma failing_env_fresh k : fresh_query_ids (failing_env "e" k) sample_db.
Proof.
  intros c Hin.
  assert (Hq : q_query_id <$> queries sample_db = ["uuid-d-1"])
    by (vm_compute; reflexivity).
  rewrite Hq in Hin. apply list_elem_of_singleton in Hin.
  cbn in Hin. discriminate Hin.
Qed.

Lemma save_query_survives_failed_lookup_witness :
  let r := run (save_query (failing_env "e" 2) "s@c.edu" "Sam" None "And then?"
                  "Then this." "2024-05-01 09:40:00" None) sample_db in
  env_fault (failing_env "e" 2) = Some (2, SqliteError "disk I/O error")
  ∧ truthy None = false
  ∧ fresh_query_ids (failing_env "e" 2) sample_db
  ∧ sql_select_query "s@c.edu" "And then?" "2024-05-01 09:40:00" sample_db = None
  ∧ storable None = true
  ∧ student_project_mapping sample_db !! "s@c.edu"
    = Some (mk_mapping "AI Tutor" "2024-05-01 09:30:00")
  ∧ result r = Returns tt ∧ errors_shown r = []
  ∧ ∃ query_id,
      db_after r
      = set_queries (λ l, l ++ [mk_query query_id "s@c.edu" "Sam" "No Project Assigned"
                                  "And then?" "Then this." "2024-05-01 09:40:00" None])
          sample_db.
Proof.
  intros r.
  assert (Hsel : sql_select_query "s@c.edu" "And then?" "2024-05-01 09:40:00" sample_db
                 = None) by (vm_compute; reflexivity).
  split; [reflexivity|]. split; [reflexivity|]. split; [apply failing_env_fresh|].
  split; [exact Hsel|]. split; [reflexivity|]. split; [vm_compute; reflexivity|].
  exact (save_query_survives_failed_lookup (failing_env "e" 2) sample_db "s@c.edu" "Sam"
           None "And then?" "Then this." "2024-05-01 09:40:00" None 2 "disk I/O error"
           eq_refl (or_intror eq_refl) eq_refl (failing_env_fresh 2) Hsel eq_refl).
Defined.

(** The statements of [save_query] from the SELECT on, whatever fails, with
    the title that is stored. *)
Ltac save_query_titled_tail E Hstop Hins :=
  tick_split E; [|save_query_stop Hstop];
  match goal with
  | |- context [sql_select_query ?e ?q ?t ?d] =>
      destruct (sql_select_query e q t d); cbn -[tick];
      [apply Hstop; cbn; done|]
  end;
  tick_split E; [|save_query_stop Hstop];
  match goal with
  | |- context [storable ?x] =>
      destruct (storable x) eqn:?; cbn -[tick]; [|apply Hstop; cbn; done]
  end;
  case_bool_decide; cbn -[tick]; [apply Hstop; cbn; done|];
  tick_split E; [|save_query_stop Hstop];
  apply Hins.

Lemma or_else_nonempty o : or_else o "No Project Assigned" ≠ "".
Proof.
  unfold or_else. destruct o as [s|]; [|discriminate].
  destruct (nonempty s) eqn:Hs; [now apply nonempty_neq | discriminate].
Qed.

(** Whatever fails, [save_query] leaves the file as it is or appends one
    row whose title is not empty. *)
Lemma save_query_effect_titled E d e n pt q r t fr :
  let res := run (save_query E e n pt q r t fr) d in
  db_after res = d
  ∨ ∃ id title, title ≠ ""
      ∧ db_after res = set_queries (λ l, l ++ [mk_query id e n title q r t fr]) d.
Proof.
  intros res. subst res.
  name_post (run (save_query E e n pt q r t fr) d) Post.
  assert (Hstop : ∀ res : run_result unit, db_after res = d → Post res)
    by (intros; now left).
  assert (Hins : ∀ id title a shown, title ≠ "" →
             Post (mk_run a
                    (set_queries (λ l, l ++ [mk_query id e n title q r t fr]) d) shown)).
  { intros id title a shown Hne. right. exists id, title. now split. }
  clearbody Post.
  unfold save_query, get_project_title_for_student, sql_insert_query. unfold_program.
  cbn -[tick].
  tick_split E; [|save_query_stop Hstop].
  destruct (truthy pt) eqn:Hpt; cbn -[tick].
  - save_query_titled_tail E Hstop Hins.
    destruct pt as [s|]; [|discriminate]. now apply nonempty_neq.
  - tick_split E.
    + tick_split E.
      * save_query_titled_tail E Hstop Hins. apply or_else_nonempty.
      * save_query_stop Hstop. save_query_titled_tail E Hstop Hins. discriminate.
    + save_query_stop Hstop. save_query_titled_tail E Hstop Hins. discriminate.
Qed.

(** X12. On every file the program can produce, every row of [queries] has
    a project title that is not empty. *)
Theorem reachable_titles_present d : reachable d → titles_present d.
Proof.
  induction 1 as [|E o d Hr IH]; [apply Forall_nil_2|].
  unfold titles_present in *.
  destruct o as [ | e p | e n p r | e n pt qn rs t fr | e t | e | r e t | f | f ].
  4: { cbn [exec].
       destruct (save_query_effect_titled E d e n pt qn rs t fr)
         as [-> | (id & title & Hne & ->)]; [exact IH|].
       cbn. apply Forall_app. split; [exact IH|]. now apply Forall_singleton. }
  all: apply (exec_queries E (Forall (λ q, q_project_title q ≠ ""))); [|exact IH];
    cbn [op_closed]; try exact I.
  - intros l Hl. apply Forall_forall. intros q Hq%list_elem_of_filter.
    destruct Hq as [_ Hq]. now apply (proj1 (Forall_forall _ _) Hl).
  - intros l Hl. apply Forall_fmap. eapply Forall_impl; [exact Hl|].
    intros q Hq. unfold rate. cbn. now case_bool_decide.
Qed.

Lemma reachable_titles_present_witness : reachable sample_db ∧ titles_present sample_db.
Proof.
  split; [exact sample_db_reachable|].
  exact (reachable_titles_present sample_db sample_db_reachable).
Defined.

(** *** Uploads that [bulk_register_users] cannot read *)

(** The loop up to the first row that lacks a field. *)
Lemma bulk_register_rows_short E pre row post :
  env_fault E = None → Forall (λ row, row_ok row = true) pre → stripped row = None →
  ∀ k s, ∃ s',
    bulk_register_rows E (pre ++ row :: post) k s
    = Exc (OtherError "'NoneType' object has no attribute 'strip'") s'
    ∧ disk s' = disk s ∧ shown s' = shown s.
Proof.
  intros Hf Hpre Hs. induction Hpre as [|r rest Hr Hrest IH]; intros k s.
  - exists s. split; [|now split]. cbn [app bulk_register_rows].
    unfold stripped in Hs.
    unfold strip_field, mbind, M_bind, bind, mret, M_ret, ret, raise.
    destruct (row_email row); [|reflexivity].
    destruct (row_name row); [|reflexivity].
    destruct (row_role row); [discriminate|reflexivity].
  - destruct (row_ok_inv r Hr) as (e & n & ro & Hs' & Hp').
    rewrite <- app_comm_cons.
    rewrite (bulk_register_rows_step E r _ k s e n ro Hs' Hp').
    unfold mbind, M_bind, bind. rewrite (execute_dml_insert_ok E s _ _ _ _ Hf).
    destruct (IH (if Nat.ltb 0 (insert_or_ignore_user e n ro
                                  (Some (env_hash E (calls s) "default123")) (view s)).2
                  then S k else k)
                 (mk_state (disk s)
                    (Some (insert_or_ignore_user e n ro
                             (Some (env_hash E (calls s) "default123")) (view s)).1)
                    (S (calls s)) (shown s)))
      as (s' & Hrun & Hd & Hsh).
    exists s'. split; [exact Hrun|]. now split.
Qed.

(** X13. What [bulk_register_users] makes of an upload it cannot use, when
    no storage call fails: bytes that are not UTF-8, an upload without a
    first line, a header without one of the three columns and a line that is
    shorter than the header each give a false flag with a message of their
    own and leave the file as it was, also when rows before the short line
    were inserted.  A header without lines is a success that registers
    nobody. *)
Theorem bulk_register_users_unusable_upload E d :
  env_fault E = None →
  (∀ msg,
     run (bulk_register_users E (Undecodable msg)) d
     = mk_run (Returns (false, "Error processing CSV: " +:+ msg)) d [])
  ∧ (∀ rows,
       run (bulk_register_users E (Decoded None rows)) d
       = mk_run (Returns (false,
           "Error processing CSV: argument of type 'NoneType' is not iterable")) d [])
  ∧ (∀ fieldnames rows, header_ok fieldnames = false →
       run (bulk_register_users E (Decoded (Some fieldnames) rows)) d
       = mk_run (Returns (false,
           "CSV must contain 'email', 'name', and 'role' columns.")) d [])
  ∧ (∀ fieldnames pre row post, header_ok fieldnames = true →
       Forall (λ row, row_ok row = true) pre → stripped row = None →
       run (bulk_register_users E (Decoded (Some fieldnames) (pre ++ row :: post))) d
       = mk_run (Returns (false,
           "Error processing CSV: 'NoneType' object has no attribute 'strip'")) d [])
  ∧ (∀ fieldnames, header_ok fieldnames = true →
       run (bulk_register_users E (Decoded (Some fieldnames) [])) d
       = mk_run (Returns (true, "0 users registered successfully!")) d []).
Proof.
  intros Hf. repeat apply conj.
  - intros msg. unfold bulk_register_users. unfold_program.
    cbn -[tick]. rewrite (tick_ok _ _ Hf). reflexivity.
  - intros rows. unfold bulk_register_users. unfold_program.
    cbn -[tick]. rewrite (tick_ok _ _ Hf). reflexivity.
  - intros fieldnames rows Hh. unfold bulk_register_users. unfold_program.
    cbn -[tick bulk_register_rows forallb]. rewrite (tick_ok _ _ Hf).
    cbn -[tick bulk_register_rows forallb].
    unfold header_ok in Hh. rewrite Hh. reflexivity.
  - intros fieldnames pre row post Hh Hpre Hs.
    unfold bulk_register_users. unfold_program.
    cbn -[tick bulk_register_rows forallb]. rewrite (tick_ok _ _ Hf).
    cbn -[tick bulk_register_rows forallb].
    unfold header_ok in Hh. rewrite Hh. cbn -[tick bulk_register_rows].
    destruct (bulk_register_rows_short E pre row post Hf Hpre Hs 0
                (bump (mk_state d None 0 []))) as (s' & -> & Hd & Hsh).
    cbn in *. now rewrite Hd, Hsh.
  - intros fieldnames Hh. unfold bulk_register_users. unfold_program.
    cbn -[tick forallb]. rewrite (tick_ok _ _ Hf). cbn -[tick forallb].
    unfold header_ok in Hh. rewrite Hh. cbn -[tick].
    rewrite (tick_ok _ _ Hf). reflexivity.
Qed.

Lemma bulk_register_users_unusable_upload_witness :
  env_fault (sample_env "e") = None
  ∧ header_ok ["email"; "name"; "role"] = true
  ∧ Forall (λ row, row_ok row = true)
      [mk_csv_row (Some "a@b.com") (Some "Alice") (Some "student")]
  ∧ stripped (mk_csv_row (Some "c@d.org") (Some "Carol") None) = None
  ∧ run (bulk_register_users (sample_env "e")
           (Decoded (Some ["email"; "name"; "role"])
              ([mk_csv_row (Some "a@b.com") (Some "Alice") (Some "student")]
               ++ mk_csv_row (Some "c@d.org") (Some "Carol") None :: []))) sample_db
    = mk_run (Returns (false,
        "Error processing CSV: 'NoneType' object has no attribute 'strip'")) sample_db [].
Proof.
  assert (Hpre : Forall (λ row, row_ok row = true)
                   [mk_csv_row (Some "a@b.com") (Some "Alice") (Some "student")]).
  { apply Forall_singleton. vm_compute. reflexivity. }
  split; [reflexivity|]. split; [reflexivity|]. split; [exact Hpre|].
  split; [reflexivity|].
  exact (proj1 (proj2 (proj2 (proj2
           (bulk_register_users_unusable_upload (sample_env "e") sample_db eq_refl))))
           ["email"; "name"; "role"]
           [mk_csv_row (Some "a@b.com") (Some "Alice") (Some "student")]
           (mk_csv_row (Some "c@d.org") (Some "Carol") None) [] eq_refl Hpre eq_refl).
Defined.

(** *** The import of student-project mappings *)

(** The loop on lines that all pass the check, without a storage error. *)
Lemma save_mapping_rows_ok E rows ts :
  env_fault E = None → Forall (λ row, mapping_row_ok row = true) rows →
  ∀ k s, ∃ s',
    save_mapping_rows E rows ts k s = Val (inr (k + length rows)) s'
    ∧ disk s' = disk s ∧ shown s' = shown s
    ∧ student_project_mapping (view s')
      = replace_mappings ts rows (student_project_mapping (view s))
    ∧ users (view s') = users (view s) ∧ queries (view s') = queries (view s)
    ∧ db_schema (view s') = db_schema (view s)
    ∧ student_project_map (view s') = student_project_map (view s)
    ∧ projects (view s) `prefix_of` projects (view s')
    ∧ (length (projects (view s')) ≤ length (projects (view s)) + length rows)%nat.
Proof.
  intros Hf Hrows. induction Hrows as [|[sid title] rest Hrow Hrest IH]; intros k s.
  - exists s. cbn. rewrite !Nat.add_0_r. now repeat split.
  - destruct sid as [sid|]; [|discriminate]. destruct title as [title|]; [|discriminate].
    cbn in Hrow. cbn [save_mapping_rows default from_option id]. rewrite Hrow.
    cbn [negb].
    unfold execute_dml at 1 2. unfold uuid4, with_state, mbind, M_bind, bind.
    rewrite (tick_ok E s Hf). cbn -[tick save_mapping_rows].
    rewrite (tick_ok E _ Hf). cbn -[tick save_mapping_rows].
    unfold sql_insert_or_ignore_project. cbn -[tick save_mapping_rows].
    case_bool_decide; cbn -[tick save_mapping_rows].
    + match goal with |- context [save_mapping_rows E rest ts (S k) ?s0] =>
        destruct (IH (S k) s0) as (s' & Hrun & Hd & Hsh & Hm & Hu & Hq & Hsc & Hpm & Hpre & Hlen)
      end.
      exists s'. rewrite Hrun. cbn in *.
      split; [f_equal; f_equal; lia|]. repeat (split; [assumption|]).
      unfold view in *. lia.
    + match goal with |- context [save_mapping_rows E rest ts (S k) ?s0] =>
        destruct (IH (S k) s0) as (s' & Hrun & Hd & Hsh & Hm & Hu & Hq & Hsc & Hpm & Hpre & Hlen)
      end.
      exists s'. rewrite Hrun. cbn in *.
      split; [f_equal; f_equal; lia|]. repeat (split; [assumption|]).
      split.
      * etrans; [|exact Hpre]. now apply prefix_app_r.
      * unfold view in *. rewrite length_app in Hlen. cbn in Hlen. lia.
Qed.

Lemma replace_mappings_other ts rows m email :
  (email ∉ mapping_email <$> rows) → replace_mappings ts rows m !! email = m !! email.
Proof.
  revert m. induction rows as [|row rest IH]; intros m Hnot; [reflexivity|].
  cbn in *. apply not_elem_of_cons in Hnot as [Hne Hnot].
  unfold replace_mappings in *. rewrite (IH _ Hnot). now apply lookup_insert_ne.
Qed.

Lemma replace_mappings_last ts pre row post m :
  (mapping_email row ∉ mapping_email <$> post) →
  replace_mappings ts (pre ++ row :: post) m !! mapping_email row
  = Some (mk_mapping (mapping_title row) ts).
Proof.
  intros Hnot. unfold replace_mappings. rewrite foldl_app. cbn [foldl].
  fold (replace_mappings ts post
          (<[mapping_email row := mk_mapping (mapping_title row) ts]>
             (foldl (λ m row, <[mapping_email row := mk_mapping (mapping_title row) ts]> m)
                    m pre))).
  rewrite (replace_mappings_other ts post _ _ Hnot). apply lookup_insert_eq.
Qed.

Lemma mapping_rows_complete rows :
  Forall (λ row, mapping_row_ok row = true) rows →
  existsb (λ r : option string * option string,
             bool_decide (r.1 = None) || bool_decide (r.2 = None)) rows = false.
Proof.
  induction 1 as [|[[sid|] [title|]] rest Hrow Hrest IH]; try discriminate;
    [reflexivity|]. cbn. exact IH.
Qed.

Lemma save_student_project_mapping_ok E d columns rows :
  env_fault E = None → mapping_header_ok columns = true → rows ≠ [] →
  Forall (λ row, mapping_row_ok row = true) rows →
  ∃ d',
    run (save_student_project_mapping E (Frame columns rows)) d
    = mk_run (Returns (true, pretty (length rows)
                             +:+ " student-project mappings saved successfully!")) d' []
    ∧ student_project_mapping d'
      = replace_mappings (env_now E 1) rows (student_project_mapping d)
    ∧ users d' = users d ∧ queries d' = queries d ∧ db_schema d' = db_schema d
    ∧ student_project_map d' = student_project_map d
    ∧ projects d `prefix_of` projects d'
    ∧ (length (projects d') ≤ length (projects d) + length rows)%nat.
Proof.
  intros Hf Hh Hne Hrows. unfold save_student_project_mapping.
  unfold def_, try_except_any, connect, commit, close, now_timestamp, run, start,
    with_state, mbind, M_bind, bind, mret, M_ret, ret.
  cbn -[tick save_mapping_rows forallb existsb].
  rewrite (tick_ok _ _ Hf). cbn -[tick save_mapping_rows forallb existsb].
  unfold mapping_header_ok in Hh. rewrite Hh. cbn -[tick save_mapping_rows existsb].
  destruct rows as [|row rest]; [contradiction|].
  rewrite (mapping_rows_complete _ Hrows). cbn -[tick save_mapping_rows].
  match goal with
  | |- context [save_mapping_rows E ?l ?t ?k ?s] =>
      destruct (save_mapping_rows_ok E l t Hf Hrows k s)
        as (s' & Hrun & Hd & Hsh & Hm & Hu & Hq & Hsc & Hpm & Hpre & Hlen)
  end.
  rewrite Hrun. cbn -[tick length]. rewrite (tick_ok E s' Hf). cbn -[length].
  exists (view s'). rewrite Hsh. cbn in *. now repeat split.
Qed.

(** X14. An import of student-project mappings whose lines all have both
    values and a well-formed email, without storage errors: the count in the
    message is the number of lines (two lines of one student count twice);
    each student of the file is mapped to the title of their last line, with
    the time of the import; the other students keep their mapping; users and
    queries are as before, and the table of projects only grows at its end,
    by at most one row per line. *)
Theorem save_student_project_mapping_imports E d columns rows :
  env_fault E = None → mapping_header_ok columns = true → rows ≠ [] →
  Forall (λ row, mapping_row_ok row = true) rows →
  let r := run (save_student_project_mapping E (Frame columns rows)) d in
  result r = Returns (true, pretty (length rows)
                            +:+ " student-project mappings saved successfully!")
  ∧ errors_shown r = []
  ∧ (∀ pre row post, rows = pre ++ row :: post →
       (mapping_email row ∉ mapping_email <$> post) →
       student_project_mapping (db_after r) !! mapping_email row
       = Some (mk_mapping (mapping_title row) (env_now E 1)))
  ∧ (∀ email, (email ∉ mapping_email <$> rows) →
       student_project_mapping (db_after r) !! email
       = student_project_mapping d !! email)
  ∧ users (db_after r) = users d ∧ queries (db_after r) = queries d
  ∧ projects d `prefix_of` projects (db_after r)
  ∧ (length (projects (db_after r)) ≤ length (projects d) + length rows)%nat.
Proof.
  intros Hf Hh Hne Hrows r. subst r.
  destruct (save_student_project_mapping_ok E d columns rows Hf Hh Hne Hrows)
    as (d' & -> & Hm & Hu & Hq & _ & _ & Hpre & Hlen).
  cbn [result errors_shown db_after].
  split; [reflexivity|]. split; [reflexivity|]. split; [|split].
  - intros pre row post -> Hnot. rewrite Hm. now apply replace_mappings_last.
  - intros email Hnot. rewrite Hm. now apply replace_mappings_other.
  - now repeat split.
Qed.

Lemma mapping_upload_ok : Forall (λ row, mapping_row_ok row = true) mapping_upload.
Proof. repeat constructor. Qed.

Lemma save_student_project_mapping_imports_witness :
  let r := run (save_student_project_mapping (sample_env "e")
                  (Frame ["student_id"; "project_title"] mapping_upload)) sample_db in
  env_fault (sample_env "e") = None
  ∧ mapping_header_ok ["student_id"; "project_title"] = true
  ∧ mapping_upload ≠ []
  ∧ Forall (λ row, mapping_row_ok row = true) mapping_upload
  ∧ result r = Returns (true, "3 student-project mappings saved successfully!")
  ∧ student_project_mapping (db_after r) !! "s@c.edu"
    = Some (mk_mapping "Wind Farm" (env_now (sample_env "e") 1)).
Proof.
  intros r.
  assert (Hne : mapping_upload ≠ []) by discriminate.
  pose proof (save_student_project_mapping_imports (sample_env "e") sample_db
                ["student_id"; "project_title"] mapping_upload eq_refl eq_refl Hne
                mapping_upload_ok) as (Hres & _ & Hlast & _).
  split; [reflexivity|]. split; [reflexivity|]. split; [exact Hne|].
  split; [exact mapping_upload_ok|]. split; [exact Hres|].
  apply (Hlast [(Some "s@c.edu", Some "Robot Arm"); (Some "t@c.edu", Some "Solar Car")]
               (Some " s@c.edu ", Some " Wind Farm ") []); [reflexivity|].
  apply not_elem_of_nil.
Defined.

(** One turn of the loop on a line that passes the check. *)
Lemma save_mapping_rows_step E row rest ts k s :
  env_fault E = None → mapping_row_ok row = true →
  ∃ s0, save_mapping_rows E (row :: rest) ts k s = save_mapping_rows E rest ts (S k) s0.
Proof.
  intros Hf Hrow. destruct row as [[sid|] [title|]]; try discriminate.
  cbn in Hrow. cbn [save_mapping_rows default from_option id]. rewrite Hrow.
  cbn [negb].
  unfold execute_dml at 1 2. unfold uuid4, with_state, mbind, M_bind, bind.
  rewrite (tick_ok E s Hf). cbn -[tick save_mapping_rows].
  rewrite (tick_ok E _ Hf). cbn -[tick save_mapping_rows].
  unfold sql_insert_or_ignore_project. cbn -[tick save_mapping_rows].
  case_bool_decide; cbn -[tick save_mapping_rows]; now eexists.
Qed.

(** The loop up to the first line whose email fails the check. *)
Lemma save_mapping_rows_bad E pre row post ts :
  env_fault E = None → Forall (λ row, mapping_row_ok row = true) pre →
  is_valid_email (mapping_email row) = false →
  ∀ k s, ∃ s',
    save_mapping_rows E (pre ++ row :: post) ts k s
    = Val (inl (false, "Invalid email format: " +:+ mapping_email row)) s'.
Proof.
  intros Hf Hpre Hbad. induction Hpre as [|r rest Hr Hrest IH]; intros k s.
  - exists s. destruct row as [sid title]. unfold mapping_email in *.
    cbn [app save_mapping_rows fst] in *. now rewrite Hbad.
  - rewrite <- app_comm_cons.
    destruct (save_mapping_rows_step E r (rest ++ row :: post) ts k s Hf Hr) as [s0 ->].
    apply IH.
Qed.

Lemma mapping_rows_incomplete rows :
  Exists (λ row : option string * option string, row.1 = None ∨ row.2 = None) rows →
  existsb (λ r : option string * option string,
             bool_decide (r.1 = None) || bool_decide (r.2 = None)) rows = true.
Proof.
  induction 1 as [row rest Hrow|row rest Hrest IH]; cbn.
  - destruct row as [a b]. cbn in Hrow. destruct Hrow as [-> | ->]; cbn; [reflexivity|].
    now rewrite orb_true_r.
  - rewrite IH. apply orb_true_r.
Qed.

(** X15. What [save_student_project_mapping] refuses, when no storage call
    fails: a file pandas cannot read, a file without one of the two columns,
    a file without lines, a file with a missing value anywhere (found before
    any line is stored), and a file whose lines are complete but where some
    line has a malformed email.  Each case has its own message, and the
    file is as it was, also when lines before the malformed one had been
    stored in the transaction. *)
Theorem save_student_project_mapping_refuses E d :
  env_fault E = None →
  (∀ msg,
     run (save_student_project_mapping E (Unreadable msg)) d
     = mk_run (Returns (false, "Error processing mapping file: " +:+ msg)) d [])
  ∧ (∀ columns rows, mapping_header_ok columns = false →
       run (save_student_project_mapping E (Frame columns rows)) d
       = mk_run (Returns (false,
           "CSV must contain 'student_id' and 'project_title' columns.")) d [])
  ∧ (∀ columns, mapping_header_ok columns = true →
       run (save_student_project_mapping E (Frame columns [])) d
       = mk_run (Returns (false, "CSV file is empty.")) d [])
  ∧ (∀ columns rows, mapping_header_ok columns = true →
       Exists (λ row, row.1 = None ∨ row.2 = None) rows →
       run (save_student_project_mapping E (Frame columns rows)) d
       = mk_run (Returns (false,
           "CSV contains missing values in required columns.")) d [])
  ∧ (∀ columns pre row post, mapping_header_ok columns = true →
       Forall (λ row, mapping_row_ok row = true) pre →
       Forall (λ row, is_Some row.1 ∧ is_Some row.2) (row :: post) →
       is_valid_email (mapping_email row) = false →
       run (save_student_project_mapping E (Frame columns (pre ++ row :: post))) d
       = mk_run (Returns (false, "Invalid email format: " +:+ mapping_email row)) d []).
Proof.
  intros Hf.
  repeat apply conj.
  - intros msg. unfold save_student_project_mapping. unfold_program.
    cbn -[tick]. rewrite (tick_ok _ _ Hf). reflexivity.
  - intros columns rows Hh. unfold save_student_project_mapping. unfold_program.
    cbn -[tick save_mapping_rows forallb existsb]. rewrite (tick_ok _ _ Hf).
    cbn -[tick save_mapping_rows forallb existsb].
    unfold mapping_header_ok in Hh. rewrite Hh. reflexivity.
  - intros columns Hh. unfold save_student_project_mapping. unfold_program.
    cbn -[tick save_mapping_rows forallb existsb]. rewrite (tick_ok _ _ Hf).
    cbn -[tick save_mapping_rows forallb existsb].
    unfold mapping_header_ok in Hh. rewrite Hh. reflexivity.
  - intros columns rows Hh Hex. unfold save_student_project_mapping. unfold_program.
    cbn -[tick save_mapping_rows forallb existsb]. rewrite (tick_ok _ _ Hf).
    cbn -[tick save_mapping_rows forallb existsb].
    unfold mapping_header_ok in Hh. rewrite Hh.
    cbn -[tick save_mapping_rows existsb].
    destruct rows as [|row rest]; [now apply Exists_nil in Hex|].
    rewrite (mapping_rows_incomplete _ Hex). reflexivity.
  - intros columns pre row post Hh Hpre Hpost Hbad.
    assert (Hall : existsb (λ r : option string * option string,
                      bool_decide (r.1 = None) || bool_decide (r.2 = None))
                     (pre ++ row :: post) = false).
    { rewrite existsb_app, (mapping_rows_complete _ Hpre). cbn [orb].
      clear -Hpost. induction Hpost as [|[a b] l [Ha Hb] _ IH]; [reflexivity|].
      cbn in Ha, Hb. destruct Ha as [? ->], Hb as [? ->]. cbn. exact IH. }
    unfold save_student_project_mapping.
    unfold def_, try_except_any, connect, commit, close, now_timestamp, run, start,
      with_state, mbind, M_bind, bind, mret, M_ret, ret.
    cbn -[tick save_mapping_rows forallb existsb]. rewrite (tick_ok _ _ Hf).
    cbn -[tick save_mapping_rows forallb existsb].
    unfold mapping_header_ok in Hh. rewrite Hh.
    cbn -[tick save_mapping_rows existsb]. rewrite Hall.
    destruct (pre ++ row :: post) as [|r0 l0] eqn:Hrows;
      [now destruct pre|]. rewrite <- Hrows. clear Hrows.
    cbn -[tick save_mapping_rows].
    match goal with
    | |- context [save_mapping_rows E ?l ?t ?k ?s] =>
        pose proof (keeps_save_mapping_rows E l t k s) as Hk;
        destruct (save_mapping_rows_bad E pre row post t Hf Hpre Hbad k s) as (s' & Hrun)
    end.
    rewrite Hrun in Hk |- *. destruct Hk as [Hd Hsh]. cbn in *.
    now rewrite Hd, Hsh.
Qed.

Lemma save_student_project_mapping_refuses_witness :
  env_fault (sample_env "e") = None
  ∧ mapping_header_ok ["student_id"; "project_title"] = true
  ∧ Forall (λ row, mapping_row_ok row = true) [(Some "s@c.edu", Some "Robot Arm")]
  ∧ Forall (λ row : option string * option string, is_Some row.1 ∧ is_Some row.2)
      [(Some "not an email", Some "Solar Car")]
  ∧ is_valid_email (mapping_email (Some "not an email", Some "Solar Car")) = false
  ∧ run (save_student_project_mapping (sample_env "e")
           (Frame ["student_id"; "project_title"]
              ([(Some "s@c.edu", Some "Robot Arm")]
               ++ (Some "not an email", Some "Solar Car") :: []))) sample_db
    = mk_run (Returns (false, "Invalid email format: "
                              +:+ mapping_email (Some "not an email", Some "Solar Car")))
        sample_db [].
Proof.
  assert (Hpre : Forall (λ row, mapping_row_ok row = true)
                   [(Some "s@c.edu", Some "Robot Arm")]) by (repeat constructor).
  assert (Hpost : Forall (λ row : option string * option string,
                            is_Some row.1 ∧ is_Some row.2)
                    [(Some "not an email", Some "Solar Car")]).
  { apply Forall_singleton. split; now eexists. }
  split; [reflexivity|]. split; [reflexivity|]. split; [exact Hpre|].
  split; [exact Hpost|]. split; [reflexivity|].
  exact (proj2 (proj2 (proj2 (proj2
           (save_student_project_mapping_refuses (sample_env "e") sample_db eq_refl))))
           ["student_id"; "project_title"] [(Some "s@c.edu", Some "Robot Arm")]
           (Some "not an email", Some "Solar Car") [] eq_refl Hpre Hpost eq_refl).
Defined.

(** X16. After a successful import of mappings, and absent storage errors
    in the readers, the title [get_project_title_for_student] finds for a
    student of the file is the one of their last line, stripped, and
    [get_available_projects] lists it. *)
Theorem title_after_mapping_import E E' d columns pre row post :
  env_fault E = None → env_fault E' = None → mapping_header_ok columns = true →
  Forall (λ row, mapping_row_ok row = true) (pre ++ row :: post) →
  (mapping_email row ∉ mapping_email <$> post) →
  let d' := db_after (run (save_student_project_mapping E
                             (Frame columns (pre ++ row :: post))) d) in
  result (run (get_project_title_for_student E' (mapping_email row)) d')
  = Returns (Some (mapping_title row))
  ∧ ∃ titles, result (run (get_available_projects E') d') = Returns titles
              ∧ mapping_title row ∈ titles.
Proof.
  intros Hf Hf' Hh Hrows Hnot d'.
  assert (Hne : pre ++ row :: post ≠ []) by (now destruct pre).
  destruct (save_student_project_mapping_ok E d columns _ Hf Hh Hne Hrows)
    as (d0 & Hrun & Hm & _).
  assert (Hlook : student_project_mapping d' !! mapping_email row
                  = Some (mk_mapping (mapping_title row) (env_now E 1))).
  { subst d'. rewrite Hrun. cbn [db_after]. rewrite Hm.
    now apply replace_mappings_last. }
  split.
  - rewrite (get_project_title_for_student_run _ _ _ Hf'). cbn [result].
    unfold sql_select_project_title. now rewrite Hlook.
  - apply get_available_projects_elem; [exact Hf'|].
    exists (mapping_email row), (mk_mapping (mapping_title row) (env_now E 1)).
    now split.
Qed.

Lemma title_after_mapping_import_witness :
  let d' := db_after (run (save_student_project_mapping (sample_env "e")
                             (Frame ["student_id"; "project_title"]
                                ([(Some "s@c.edu", Some "Robot Arm");
                                  (Some "t@c.edu", Some "Solar Car")]
                                 ++ (Some " s@c.edu ", Some " Wind Farm ") :: [])))
                        sample_db) in
  env_fault (sample_env "e") = None
  ∧ mapping_header_ok ["student_id"; "project_title"] = true
  ∧ Forall (λ row, mapping_row_ok row = true) mapping_upload
  ∧ (mapping_email (Some " s@c.edu ", Some " Wind Farm ")
       ∉ mapping_email <$> ([] : list (option string * option string)))
  ∧ result (run (get_project_title_for_student (sample_env "f")
                   (mapping_email (Some " s@c.edu ", Some " Wind Farm "))) d')
    = Returns (Some (mapping_title (Some " s@c.edu ", Some " Wind Farm "))).
Proof.
  intros d'.
  assert (Hnot : mapping_email (Some " s@c.edu ", Some " Wind Farm ")
                   ∉ mapping_email <$> ([] : list (option string * option string)))
    by apply not_elem_of_nil.
  split; [reflexivity|]. split; [reflexivity|]. split; [exact mapping_upload_ok|].
  split; [exact Hnot|].
  exact (proj1 (title_after_mapping_import (sample_env "e") (sample_env "f") sample_db
                  ["student_id"; "project_title"]
                  [(Some "s@c.edu", Some "Robot Arm"); (Some "t@c.edu", Some "Solar Car")]
                  (Some " s@c.edu ", Some " Wind Farm ") [] eq_refl eq_refl eq_refl
                  mapping_upload_ok Hnot)).
Defined.

(** *** [is_valid_email] and its regular expression *)

Lemma span_spec p s :
  s = (span p s).1 +:+ (span p s).2
  ∧ string_forall p (span p s).1 = true
  ∧ ((span p s).2 = "" ∨ ∃ c r, (span p s).2 = String c r ∧ p c = false).
Proof.
  induction s as [|c r IH]; cbn; [auto|].
  destruct (p c) eqn:Hc.
  - destruct (span p r) as [a b]. cbn in *. destruct IH as (Hs & Ha & Hb).
    rewrite Hc, Ha. split; [|auto].
    change (String c a +:+ b) with (String c (a +:+ b)). congruence.
  - cbn. split; [reflexivity|]. split; [reflexivity|]. right. now exists c, r.
Qed.

Lemma span_all p a : string_forall p a = true → span p a = (a, "").
Proof.
  induction a as [|c r IH]; cbn; [reflexivity|].
  intros [Hc Hr]%andb_true_iff. now rewrite Hc, (IH Hr).
Qed.

Lemma span_stop p a c r :
  string_forall p a = true → p c = false → span p (a +:+ String c r) = (a, String c r).
Proof.
  intros Ha Hc. induction a as [|x a IH].
  - change ("" +:+ String c r) with (String c r). cbn [span]. now rewrite Hc.
  - change (String x a +:+ String c r) with (String x (a +:+ String c r)).
    cbn [span string_forall] in *.
    apply andb_true_iff in Ha as [Hx Ha]. now rewrite Hx, (IH Ha).
Qed.

Lemma append_empty s : s +:+ "" = s.
Proof.
  induction s as [|c r IH]; [reflexivity|].
  change (String c r +:+ "") with (String c (r +:+ "")). now rewrite IH.
Qed.

Lemma nonempty_true s : nonempty s = true ↔ s ≠ "".
Proof. destruct s; cbn; split; congruence. Qed.

(** X17. [is_valid_email] accepts exactly the strings the regular
    expression of the source matches: a local part, an at sign, a domain
    without dots, a dot and a tail, each not empty and of its character
    class, and at most one line feed at the very end. *)
Theorem is_valid_email_regex email : is_valid_email email = true ↔ email_shape email.
Proof.
  unfold is_valid_email, email_shape. split.
  - pose proof (span_spec is_local_char email) as (Hs1 & Hl & _).
    destruct (span is_local_char email) as [loc r1]. cbn [fst snd] in *.
    intros [Hloc H]%andb_true_iff.
    destruct r1 as [|c1 r2]; [discriminate|].
    destruct c1 as [[] [] [] [] [] [] [] []]; try discriminate.
    pose proof (span_spec is_domain_char r2) as (Hs2 & Hd & _).
    destruct (span is_domain_char r2) as [dom r3]. cbn [fst snd] in *.
    apply andb_true_iff in H as [Hdom H].
    destruct r3 as [|c3 r4]; [discriminate|].
    destruct c3 as [[] [] [] [] [] [] [] []]; try discriminate.
    pose proof (span_spec is_tail_char r4) as (Hs3 & Ht & _).
    destruct (span is_tail_char r4) as [tl r5]. cbn [fst snd] in *.
    apply andb_true_iff in H as [Htl H].
    exists loc, dom, tl, r5.
    split; [rewrite Hs1; f_equal; f_equal; rewrite Hs2; f_equal; f_equal; exact Hs3|].
    rewrite <- !nonempty_true. repeat (split; [assumption|]).
    destruct r5 as [|c5 r6]; [now left|]. right.
    destruct c5 as [[] [] [] [] [] [] [] []]; try discriminate.
    destruct r6; [reflexivity|discriminate].
  - intros (loc & dom & tl & nl & -> & Hloc & Hl & Hdom & Hd & Htl & Ht & Hnl).
    change ("@" +:+ dom +:+ "." +:+ tl +:+ nl)
      with (String "@" (dom +:+ String "." (tl +:+ nl))).
    rewrite (span_stop is_local_char loc "@" _ Hl eq_refl).
    rewrite (proj2 (nonempty_true loc) Hloc). cbn [andb].
    rewrite (span_stop is_domain_char dom "." _ Hd eq_refl).
    rewrite (proj2 (nonempty_true dom) Hdom). cbn [andb].
    destruct Hnl as [-> | ->].
    + rewrite append_empty, (span_all _ _ Ht).
      now rewrite (proj2 (nonempty_true tl) Htl).
    + rewrite (span_stop is_tail_char tl line_feed "" Ht eq_refl).
      now rewrite (proj2 (nonempty_true tl) Htl).
Qed.

(** *** The projects of a student *)

#[global] Instance project_later_first_total : Total project_later_first.
Proof. intros x y. unfold project_later_first. apply string_le_total. Qed.

#[global] Instance project_later_first_trans : Transitive project_later_first.
Proof.
  intros x y z Hxy Hyz. unfold project_later_first in *.
  now apply (string_le_trans _ (p_timestamp y)).
Qed.

(** X18. Without a storage error [get_user_projects] hands back a frame
    with the columns project_title and timestamp whose rows are exactly the
    projects stored for the email, every one once per stored row, with no
    row before one of a later timestamp; the frame is empty exactly when the
    email has no project.  When the connection or the fetch fails with
    [sqlite3.Error] the result is a frame without columns, which is empty
    too.  When the execute that pandas runs fails, with whatever exception,
    the call does not return: [pandas.errors.DatabaseError], which the
    handler for [sqlite3.Error] does not take, reaches the caller. *)
Theorem get_user_projects_newest_first E d email :
  let r := run (get_user_projects E email) d in
  (env_fault E = None →
     ∃ rows,
       result r = Returns (["project_title"; "timestamp"], rows)
       ∧ rows ≡ₚ (λ p, (p_project_title p, p_timestamp p))
                  <$> filter (λ p, p_email p = email) (projects d)
       ∧ StronglySorted (λ x y : string * string, string_le y.2 x.2) rows
       ∧ (frame_empty (["project_title"; "timestamp"], rows) = true
          ↔ ∀ p, p ∈ projects d → p_email p ≠ email))
  ∧ (∀ k msg, env_fault E = Some (k, SqliteError msg) → k = 0 ∨ k = 2 →
       result r = Returns ([], []))
  ∧ (∀ e, env_fault E = Some (1, e) →
       result r = Raises (pandas_database_error user_projects_sql e)).
Proof.
  intros r. subst r. split; [|split].
  - intros Hf. rewrite (get_user_projects_run E d email Hf). cbn [result].
    exists (sql_select_user_projects email d). split; [reflexivity|].
    unfold sql_select_user_projects. split; [|split].
    + now rewrite merge_sort_Permutation.
    + apply (StronglySorted_fmap _ project_later_first); [now intros x y|].
      apply StronglySorted_merge_sort; apply _.
    + unfold frame_empty. cbn [fst snd].
      split.
      * intros Hemp p Hp He.
        assert (Hin : p ∈ merge_sort project_later_first
                        (filter (λ p, p_email p = email) (projects d))).
        { rewrite merge_sort_Permutation. now apply list_elem_of_filter. }
        destruct (merge_sort project_later_first _) as [|x l]; [|discriminate].
        now apply not_elem_of_nil in Hin.
      * intros Hnone.
        assert (Hnil : filter (λ p, p_email p = email) (projects d) = []).
        { apply filter_none. intros p Hp He. now apply (Hnone p Hp). }
        rewrite Hnil. reflexivity.
  - intros k msg Hf Hk. unfold get_user_projects. unfold_program. unfold tick.
    rewrite Hf. destruct Hk as [-> | ->]; reflexivity.
  - intros e Hf. unfold get_user_projects. unfold_program. unfold tick.
    rewrite Hf. reflexivity.
Qed.

Lemma get_user_projects_newest_first_witness :
  let r := run (get_user_projects (sample_env "e") "s@c.edu") sample_db in
  env_fault (sample_env "e") = None
  ∧ ∃ rows,
      result r = Returns (["project_title"; "timestamp"], rows)
      ∧ rows ≡ₚ (λ p, (p_project_title p, p_timestamp p))
                 <$> filter (λ p, p_email p = "s@c.edu") (projects sample_db)
      ∧ StronglySorted (λ x y : string * string, string_le y.2 x.2) rows
      ∧ (frame_empty (["project_title"; "timestamp"], rows) = true
         ↔ ∀ p, p ∈ projects sample_db → p_email p ≠ "s@c.edu").
Proof.
  intros r. split; [reflexivity|].
  exact (proj1 (get_user_projects_newest_first (sample_env "e") sample_db "s@c.edu")
           eq_refl).
Defined.

(** *** The table of the PDF report *)

Lemma py_len_app a b : py_len (a +:+ b) = (py_len a + py_len b)%nat.
Proof.
  induction a as [|c r IH]; [reflexivity|].
  change (String c r +:+ b) with (String c (r +:+ b)). cbn [py_len].
  destruct (is_continuation c); lia.
Qed.

Lemma py_len_take n s : py_len (py_take n s) = Nat.min n (py_len s).
Proof.
  revert n. induction s as [|c r IH]; intros n; cbn [py_take py_len].
  - now rewrite Nat.min_0_r.
  - destruct (is_continuation c) eqn:Hc.
    + cbn [py_len]. rewrite Hc. apply IH.
    + destruct n as [|n]; [reflexivity|]. cbn [py_len]. rewrite Hc, IH. lia.
Qed.

Lemma py_take_prefix n s : ∃ rest, s = py_take n s +:+ rest.
Proof.
  revert n. induction s as [|c r IH]; intros n; cbn [py_take].
  - now exists "".
  - destruct (is_continuation c).
    + destruct (IH n) as [rest Hrest]. exists rest.
      change (String c (py_take n r) +:+ rest) with (String c (py_take n r +:+ rest)).
      now rewrite <- Hrest.
    + destruct n as [|n]; [now exists (String c r)|].
      destruct (IH n) as [rest Hrest]. exists rest.
      change (String c (py_take n r) +:+ rest) with (String c (py_take n r +:+ rest)).
      now rewrite <- Hrest.
Qed.

(** A cell cut to [n] characters: short text is kept as it is, longer text
    is cut to its first [n] characters followed by three dots. *)
Lemma truncated_spec n s :
  ((py_len s ≤ n)%nat → truncated n s = s)
  ∧ ((n < py_len s)%nat →
     ∃ kept rest, truncated n s = kept +:+ "..." ∧ s = kept +:+ rest ∧ py_len kept = n)
  ∧ (py_len (truncated n s) ≤ n + 3)%nat.
Proof.
  unfold truncated. destruct (Nat.ltb_spec n (py_len s)) as [Hlt|Hle].
  - split; [lia|]. split.
    + intros _. destruct (py_take_prefix n s) as [rest Hrest].
      exists (py_take n s), rest. split; [reflexivity|]. split; [exact Hrest|].
      rewrite py_len_take. lia.
    + rewrite py_len_app, py_len_take. change (py_len "...") with 3%nat. lia.
  - split; [reflexivity|]. split; [lia|]. lia.
Qed.

(** X19. The table handed to the PDF report has the header and one row per
    exported query, every row with seven cells.  The question cell has at
    most 53 characters and the response cell at most 103, counted as Python
    counts them: text of up to 50 (100) characters is kept as it is, longer
    text is cut to its first 50 (100) characters followed by three dots.  A
    query without a rating reads "Not rated". *)
Theorem pdf_table_data_cells E query_logs :
  length (pdf_table_data E query_logs) = S (length query_logs)
  ∧ Forall (λ row, length row = 7%nat) (pdf_table_data E query_logs)
  ∧ ∀ i r, query_logs !! i = Some r →
      ∃ question response rating,
        pdf_table_data E query_logs !! S i
        = Some [l_email r; l_name r; l_project_title r; question; response;
                l_timestamp r; rating]
        ∧ (py_len question ≤ 53)%nat ∧ (py_len response ≤ 103)%nat
        ∧ ((py_len (l_question r) ≤ 50)%nat → question = l_question r)
        ∧ ((50 < py_len (l_question r))%nat →
           ∃ kept rest, question = kept +:+ "..." ∧ l_question r = kept +:+ rest
                        ∧ py_len kept = 50%nat)
        ∧ ((py_len (l_response r) ≤ 100)%nat → response = l_response r)
        ∧ ((100 < py_len (l_response r))%nat →
           ∃ kept rest, response = kept +:+ "..." ∧ l_response r = kept +:+ rest
                        ∧ py_len kept = 100%nat)
        ∧ (l_feedback_rating r = None → rating = "Not rated").
Proof.
  unfold pdf_table_data. split; [|split].
  - cbn. now rewrite length_fmap.
  - apply Forall_cons. split; [reflexivity|].
    apply Forall_fmap, Forall_forall. now intros r _.
  - intros i r Hr.
    destruct (truncated_spec 50 (l_question r)) as (Hq1 & Hq2 & Hq3).
    destruct (truncated_spec 100 (l_response r)) as (Hr1 & Hr2 & Hr3).
    exists (truncated 50 (l_question r)), (truncated 100 (l_response r)),
      (pdf_rating E (rating_dtype query_logs) (l_feedback_rating r)).
    split.
    { change ((pdf_row E (rating_dtype query_logs) <$> query_logs) !! i
              = Some (pdf_row E (rating_dtype query_logs) r)).
      now rewrite list_lookup_fmap, Hr. }
    split; [exact Hq3|]. split; [exact Hr3|]. split; [exact Hq1|].
    split; [exact Hq2|]. split; [exact Hr1|]. split; [exact Hr2|].
    now intros ->.
Qed.

(** *** The default password *)

Section DefaultAdmin.
Variable E : Env.
Variable d : Db.

(** The rows of [users] are those of [d], with or without a row for the
    administrator made by [init_db]. *)
Let admin_added (d' : Db) : Prop :=
  users d' = users d
  ∨ ∃ c, users d'
         = <[admin_email := mk_user "Jane Admin" "admin"
                              (Some (env_hash E c "default123"))]> (users d).

Lemma preserves_hash_bind {B} (P : Db → Prop) p (k : string → M B) :
  (∀ c, preserves P (k (env_hash E c p))) → preserves P (hash_password E p ≫= k).
Proof.
  intros H s Hs. unfold mbind, M_bind, bind, hash_password. exact (H (calls s) s Hs).
Qed.

Lemma init_db_admin_added : preserves admin_added (init_db E).
Proof.
  assert (Hcreate : ∀ t cols,
            closed_ddl admin_added (sql_create_table_if_not_exists t cols)).
  { intros t cols d1 d2 Hd [= <-]. unfold admin_added.
    now rewrite (proj1 (create_table_rows t cols d1)). }
  assert (Halter : closed_ddl admin_added
                     (sql_alter_table_add_column "users" "password_hash")).
  { intros d1 d2 Hd Hf. unfold sql_alter_table_add_column in Hf.
    repeat case_match; simplify_eq. exact Hd. }
  assert (Hinsert : ∀ c, closed admin_added
            (sql_insert_or_ignore_user "admin@college.edu" "Jane Admin" "admin"
               (Some (env_hash E c "default123")))).
  { intros c d1 d2 n Hd [= Hf]. unfold insert_or_ignore_user in Hf.
    destruct (users d1 !! "admin@college.edu") eqn:Hu; simplify_eq; [exact Hd|].
    destruct Hd as [Hd | [c' Hd]].
    - right. exists c. cbn. now rewrite Hd.
    - rewrite Hd in Hu. unfold admin_email in Hu. now rewrite lookup_insert_eq in Hu. }
  unfold init_db. apply preserves_def, preserves_try_except_sqlite;
    [|auto with preserves].
  do 8 (apply preserves_bind; [auto 10 with preserves | intros ?]).
  apply preserves_hash_bind. intros c. auto 10 with preserves.
Qed.

(** A completed [init_db] on a file without administrator leaves the row of
    the default administrator, with a hash of the default password. *)
Lemma init_db_default_admin :
  users d !! admin_email = None →
  let r := run (init_db E) d in
  result r = Returns tt → errors_shown r = [] →
  ∃ c, users (db_after r) !! admin_email
       = Some (mk_user "Jane Admin" "admin" (Some (env_hash E c "default123"))).
Proof.
  intros Hnone r Hres Hshown.
  destruct (init_db_completed E d Hres Hshown) as (_ & _ & _ & _ & _ & [u Hu]).
  subst r.
  destruct (preserves_run admin_added (init_db E) d init_db_admin_added (or_introl eq_refl))
    as [Hsame | [c Hc]].
  - rewrite Hsame in Hu. congruence.
  - exists c. rewrite Hc. apply lookup_insert_eq.
Qed.
End DefaultAdmin.

(** X20. The accounts the program creates itself can log in with the
    password default123, given that passlib accepts a hash it made of that
    password: the administrator that a completed [init_db] adds to a file
    without one, as Jane Admin, and every user of a successful bulk
    registration whose email was new, with the name and role of a line of
    the upload. *)
Theorem default_password_logins V E E' d :
  env_fault E' = None →
  (∀ c, V "default123" (Some (env_hash E c "default123")) = inr true) →
  (users d !! admin_email = None →
   let r := run (init_db E) d in
   result r = Returns tt → errors_shown r = [] →
   result (run (verify_user V E' admin_email "default123") (db_after r))
   = Returns (Some (mk_login "Jane Admin" "admin"), None))
  ∧ (∀ fieldnames rows email,
       env_fault E = None → header_ok fieldnames = true →
       Forall (λ row, row_ok row = true) rows →
       email ∈ row_emails rows → users d !! email = None →
       ∃ name role,
         (∃ row, row ∈ rows ∧ stripped row = Some (email, name, role))
         ∧ result (run (verify_user V E' email "default123")
                     (db_after (run (bulk_register_users E
                                       (Decoded (Some fieldnames) rows)) d)))
           = Returns (Some (mk_login name role), None)).
Proof.
  intros Hf' HV. split.
  - intros Hnone r Hres Hshown.
    destruct (init_db_default_admin E d Hnone Hres Hshown) as [c Hc]. subst r.
    rewrite verify_user_run, Hf'. cbn [result]. rewrite Hc. cbn. now rewrite HV.
  - intros fieldnames rows email Hf Hh Hrows Hin Hnone.
    rewrite (bulk_register_users_ok E d fieldnames rows Hf Hh Hrows). cbn [db_after].
    destruct (register_rows_spec E rows 1 (users d)) as (_ & _ & Hnew & Hall).
    cbn zeta in *.
    destruct (Hall Hrows email Hin) as [u Hu].
    destruct (Hnew email u Hu) as [Hold | (row & c & Hrow & Hs & Hh')]; [congruence|].
    exists (u_name u), (u_role u). split; [now exists row|].
    rewrite verify_user_run, Hf'. cbn. rewrite Hu. cbn. now rewrite Hh', HV.
Qed.

Lemma default_password_logins_witness :
  let r := run (init_db (sample_env "e")) empty_db in
  env_fault (sample_env "f") = None
  ∧ (∀ c, sample_verify "default123" (Some (env_hash (sample_env "e") c "default123"))
          = inr true)
  ∧ users empty_db !! admin_email = None
  ∧ result r = Returns tt ∧ errors_shown r = []
  ∧ result (run (verify_user sample_verify (sample_env "f") admin_email "default123")
              (db_after r))
    = Returns (Some (mk_login "Jane Admin" "admin"), None).
Proof.
  intros r.
  assert (HV : ∀ c, sample_verify "default123"
                      (Some (env_hash (sample_env "e") c "default123")) = inr true)
    by (intros c; apply sample_verify_accepts).
  assert (Hres : result r = Returns tt) by (vm_compute; reflexivity).
  assert (Hshown : errors_shown r = []) by (vm_compute; reflexivity).
  split; [reflexivity|]. split; [exact HV|]. split; [reflexivity|].
  split; [exact Hres|]. split; [exact Hshown|].
  exact (proj1 (default_password_logins sample_verify (sample_env "e") (sample_env "f")
                  empty_db eq_refl HV) eq_refl Hres Hshown).
Defined.

(** *** Every stored user has a password hash *)

(** A statement that writes no row of [users] without a hash. *)
Ltac hash_frame :=
  let d := fresh "d" in let d' := fresh "d'" in
  let HP := fresh "HP" in let Hf := fresh "Hf" in
  intros d d' ? HP Hf;
  unfold sql_insert_or_ignore_user, insert_or_ignore_user, sql_insert_or_replace_user,
    sql_update_user_name_role, sql_update_user_password, sql_delete_user,
    sql_delete_mapping, sql_delete_queries, sql_delete_projects, sql_insert_project,
    sql_insert_or_ignore_project, sql_insert_project_map, sql_insert_or_replace_mapping,
    sql_insert_query, sql_update_feedback_rating in Hf;
  repeat case_match; simplify_eq; unfold users_have_hash in *; cbn;
  first
    [ exact HP
    | apply map_Forall_insert_2; [|exact HP]; cbn;
      first [ now eexists | eapply (map_Forall_lookup_1 _ _ _ _ HP); eassumption ]
    | now apply map_Forall_delete ].

Ltac hash_frame_ddl :=
  let d := fresh "d" in let d' := fresh "d'" in
  let HP := fresh "HP" in let Hf := fresh "Hf" in
  intros d d' HP Hf;
  unfold sql_create_table_if_not_exists, create_table_if_not_exists,
    sql_alter_table_add_column in Hf;
  repeat case_match; simplify_eq; exact HP.

Section UsersHaveHash.
Variable E : Env.

Local Hint Extern 1 (closed _ _) => solve [hash_frame] : preserves.
Local Hint Extern 1 (closed_ddl _ _) => solve [hash_frame_ddl] : preserves.

Lemma init_db_hash : preserves users_have_hash (init_db E).
Proof. unfold init_db. auto 30 with preserves. Qed.

Lemma reset_user_password_hash email pw :
  preserves users_have_hash (reset_user_password E email pw).
Proof. unfold reset_user_password. auto 30 with preserves. Qed.

Lemma save_user_hash email name password role :
  preserves users_have_hash (save_user E email name password role).
Proof.
  unfold save_user. apply preserves_def, preserves_try_except_sqlite;
    [|auto with preserves].
  apply preserves_bind; [auto with preserves | intros _].
  destruct (truthy password).
  - intros s Hs. unfold mbind, M_bind, bind, hash_password, mret, M_ret, ret.
    assert (H : preserves users_have_hash
                  (execute_dml E (sql_insert_or_replace_user email name role
                                    (Some (env_hash E (calls s) (default "" password)))) ;;
                   commit E ;; close ;; mret (true, "User saved successfully.")))
      by auto 30 with preserves.
    exact (H s Hs).
  - intros s Hs. unfold mbind, M_bind, bind, mret, M_ret, ret.
    assert (H : preserves users_have_hash
                  (execute_dml E (sql_update_user_name_role name role email) ;;
                   commit E ;; close ;; mret (true, "User saved successfully.")))
      by auto 30 with preserves.
    exact (H s Hs).
Qed.

Lemma save_query_hash e n pt q r t fr :
  preserves users_have_hash (save_query E e n pt q r t fr).
Proof.
  unfold save_query, get_project_title_for_student. auto 40 with preserves.
Qed.

Lemma save_project_hash email title :
  preserves users_have_hash (save_project E email title).
Proof. unfold save_project. auto 30 with preserves. Qed.

Lemma delete_user_hash email : preserves users_have_hash (delete_user E email).
Proof. unfold delete_user. auto 30 with preserves. Qed.

Lemma submit_rating_hash r email timestamp :
  preserves users_have_hash (submit_rating E r email timestamp).
Proof. unfold submit_rating. auto 30 with preserves. Qed.

Lemma bulk_register_rows_hash rows k :
  preserves users_have_hash (bulk_register_rows E rows k).
Proof.
  revert k. induction rows as [|row rest IH]; intros k; cbn [bulk_register_rows].
  - auto with preserves.
  - unfold strip_field.
    do 3 (apply preserves_bind; [auto 10 with preserves | intros ?]).
    repeat (match goal with |- preserves _ (if ?b then _ else _) => destruct b end;
            [auto with preserves|]).
    intros s Hs. unfold mbind, M_bind, bind, hash_password.
    assert (H : ∀ h, preserves users_have_hash
                  (rowcount ← execute_dml E (sql_insert_or_ignore_user a a0 a1 (Some h));
                   bulk_register_rows E rest
                     (if Nat.ltb 0 rowcount then S k else k))).
    { intros h. apply preserves_bind; [auto 10 with preserves | intros ?]. apply IH. }
    exact (H _ s Hs).
Qed.

Lemma bulk_register_users_hash csv_file :
  preserves users_have_hash (bulk_register_users E csv_file).
Proof.
  pose proof bulk_register_rows_hash.
  unfold bulk_register_users. auto 30 with preserves.
Qed.

Lemma save_mapping_rows_hash rows ts k :
  preserves users_have_hash (save_mapping_rows E rows ts k).
Proof.
  revert k. induction rows as [|[sid title] rest IH]; intros k;
    cbn [save_mapping_rows]; auto 30 with preserves.
Qed.

Lemma save_student_project_mapping_hash csv_file :
  preserves users_have_hash (save_student_project_mapping E csv_file).
Proof.
  pose proof save_mapping_rows_hash.
  unfold save_student_project_mapping. auto 30 with preserves.
Qed.

Lemma exec_hash o d : users_have_hash d → users_have_hash (exec E o d).
Proof.
  intros Hd.
  destruct o; cbn [exec]; apply (preserves_run users_have_hash); try exact Hd.
  - apply init_db_hash.
  - apply reset_user_password_hash.
  - apply save_user_hash.
  - apply save_query_hash.
  - apply save_project_hash.
  - apply delete_user_hash.
  - apply submit_rating_hash.
  - apply bulk_register_users_hash.
  - apply save_student_project_mapping_hash.
Qed.
End UsersHaveHash.

(** X21. On every file the program can produce, every row of [users] has
    a password hash: no writer stores a user without one.  So, given that
    passlib answers true or false for every hash that is present and that
    storage calls fail with [sqlite3.Error] only, [verify_user] on such a
    file returns and never lets an exception through. *)
Theorem reachable_users_have_hash d :
  reachable d →
  users_have_hash d
  ∧ ∀ V E email password,
      (∀ p h, ∃ b, V p (Some h) = inr b) → sqlite_faults E →
      ∃ v, result (run (verify_user V E email password) d) = Returns v.
Proof.
  intros Hr.
  assert (Hd : users_have_hash d).
  { induction Hr as [|E o d Hr IH]; [apply map_Forall_empty | now apply exec_hash]. }
  split; [exact Hd|].
  intros V E email password HV HE. rewrite verify_user_run. cbn [result].
  assert (Hrow : ∃ v,
            match users d !! email with
            | None => Returns (None, Some "Email not found.")
            | Some row =>
                match V password (u_password_hash row) with
                | inr true => Returns (Some (mk_login (u_name row) (u_role row)), None)
                | inr false => Returns (None, Some "Incorrect password.")
                | inl (SqliteError _) =>
                    Returns (None, Some "Database error. Please try again.")
                | inl (OtherError msg) => Raises (OtherError msg)
                end
            end = Returns v).
  { destruct (users d !! email) as [row|] eqn:Hu; [|now eexists].
    destruct (Hd email row Hu) as [h Hh]. rewrite Hh.
    destruct (HV password h) as [b ->]. destruct b; now eexists. }
  destruct (env_fault E) as [[k e]|] eqn:Hf; [|exact Hrow].
  destruct (HE k e Hf) as [msg ->].
  destruct k as [|[|k]]; [now eexists | now eexists | exact Hrow].
Qed.

Lemma reachable_users_have_hash_witness :
  reachable sample_db
  ∧ users_have_hash sample_db
  ∧ ∀ V E email password,
      (∀ p h, ∃ b, V p (Some h) = inr b) → sqlite_faults E →
      ∃ v, result (run (verify_user V E email password) sample_db) = Returns v.
Proof.
  split; [exact sample_db_reachable|].
  exact (reachable_users_have_hash sample_db sample_db_reachable).
Defined.

(** *** Rating a response *)

Lemma submit_rating_run E d r email timestamp :
  env_fault E = None →
  run (submit_rating E r email timestamp) d
  = mk_run (Returns tt) (set_queries (fmap (rate r email timestamp)) d) [].
Proof.
  intros Hf. unfold submit_rating, sql_update_feedback_rating. unfold_program.
  cbn -[tick]. tick_through Hf. reflexivity.
Qed.

Lemma rate_rate r r' email timestamp q :
  rate r' email timestamp (rate r email timestamp q) = rate r' email timestamp q.
Proof.
  unfold rate. destruct (decide (q_email q = email ∧ q_timestamp q = timestamp)) as [Hq|Hq].
  - rewrite (bool_decide_eq_true_2 _ Hq). cbn. now rewrite (bool_decide_eq_true_2 _ Hq).
  - now rewrite !(bool_decide_eq_false_2 _ Hq).
Qed.


(** ** The exported CSV text, read back *)

Lemma append_assoc_s a b c : (a +:+ b) +:+ c = a +:+ (b +:+ c).
Proof.
  induction a as [|x a IH]; [reflexivity|].
  change (String x ((a +:+ b) +:+ c) = String x (a +:+ (b +:+ c))). now rewrite IH.
Qed.

Lemma append_cons_s x a b : String x a +:+ b = String x (a +:+ b).
Proof. reflexivity. Qed.

Lemma is_special_false c :
  is_special c = false →
  Ascii.eqb c "," = false ∧ Ascii.eqb c dquote = false ∧ Ascii.eqb c line_feed = false.
Proof.
  unfold is_special. intros H.
  apply orb_false_iff in H as [H H3]. apply orb_false_iff in H as [H1 H2]. auto.
Qed.

(** A field without special characters is read as it is. *)
Lemma read_plain f : ∀ cell row rest,
  needs_quoting f = false →
  csv_read InPlain cell row (f +:+ rest) = csv_read InPlain (cell +:+ f) row rest.
Proof.
  induction f as [|c f IH]; intros cell row rest Hf.
  - now rewrite append_empty.
  - cbn [needs_quoting] in Hf. apply orb_false_iff in Hf as [Hc Hf].
    destruct (is_special_false c Hc) as (H1 & H2 & H3).
    rewrite append_cons_s. cbn [csv_read]. rewrite H1, H3.
    rewrite (IH _ _ _ Hf). rewrite append_assoc_s. reflexivity.
Qed.

(** A quoted field is read up to its closing quote, doubled quotes as one. *)
Lemma read_quoted f : ∀ cell row rest,
  csv_read InQuoted cell row (double_quotes f +:+ String dquote rest)
  = csv_read AfterQuote (cell +:+ f) row rest.
Proof.
  induction f as [|c f IH]; intros cell row rest.
  - rewrite append_empty. reflexivity.
  - cbn [double_quotes]. destruct (Ascii.eqb c dquote) eqn:Hc.
    + apply Ascii.eqb_eq in Hc. subst c.
      rewrite !append_cons_s. cbn [csv_read]. rewrite Ascii.eqb_refl.
      rewrite IH, append_assoc_s. reflexivity.
    + rewrite append_cons_s. cbn [csv_read]. rewrite Hc.
      rewrite IH, append_assoc_s. reflexivity.
Qed.

Lemma read_field f row c r :
  c = ","%char ∨ c = line_feed →
  csv_read FieldStart "" row (csv_field f +:+ String c r) = field_done f row c r.
Proof.
  intros Hc. unfold csv_field, field_done.
  destruct (needs_quoting f) eqn:Hq.
  - rewrite append_cons_s, append_assoc_s. cbn [csv_read]. rewrite Ascii.eqb_refl.
    rewrite append_cons_s.
    change ("" +:+ String c r) with (String c r).
    rewrite read_quoted.
    change ("" +:+ f) with f.
    destruct Hc as [-> | ->]; reflexivity.
  - destruct f as [|x f].
    + destruct Hc as [-> | ->]; reflexivity.
    + cbn [needs_quoting] in Hq. apply orb_false_iff in Hq as [Hx Hq].
      destruct (is_special_false x Hx) as (H1 & H2 & H3).
      rewrite append_cons_s. cbn [csv_read]. rewrite H1, H2, H3.
      rewrite (read_plain f _ _ _ Hq).
      change (String x "" +:+ f) with (String x f).
      destruct Hc as [-> | ->]; reflexivity.
Qed.

Lemma concat_cons_s sep x y l :
  String.concat sep (x :: y :: l) = x +:+ sep +:+ String.concat sep (y :: l).
Proof. reflexivity. Qed.

(** A line of the writer is read as one record. *)
Lemma read_line fields : ∀ row rest,
  fields ≠ [] →
  csv_read FieldStart "" row (csv_line fields +:+ rest)
  = (row ++ fields) :: csv_read FieldStart "" [] rest.
Proof.
  unfold csv_line.
  induction fields as [|f [|g l] IH]; intros row rest Hne; [done| |].
  - cbn [fmap list_fmap String.concat]. rewrite append_assoc_s, append_cons_s.
    change ("" +:+ rest) with rest.
    rewrite read_field by now right. reflexivity.
  - change (csv_field <$> f :: g :: l) with (csv_field f :: csv_field g :: (csv_field <$> l)).
    rewrite concat_cons_s.
    change (csv_field g :: (csv_field <$> l)) with (csv_field <$> g :: l).
    rewrite !append_assoc_s.
    change ("," +:+ String.concat "," (csv_field <$> g :: l)
            +:+ String line_feed "" +:+ rest)
      with (String "," (String.concat "," (csv_field <$> g :: l)
                        +:+ String line_feed "" +:+ rest)).
    rewrite read_field by now left. unfold field_done. cbn [Ascii.eqb].
    change (Ascii.eqb "," ",") with true. cbn iota.
    rewrite <- append_assoc_s. rewrite IH by done.
    now rewrite <- app_assoc.
Qed.

Lemma concat_lines x l : String.concat "" (x :: l) = x +:+ String.concat "" l.
Proof. destruct l; [now rewrite append_empty | reflexivity]. Qed.

(** The lines of the writer are read back as the records written. *)
Lemma read_lines records :
  Forall (λ fields, fields ≠ []) records →
  csv_records (String.concat "" (csv_line <$> records)) = records.
Proof.
  unfold csv_records. induction 1 as [|fields records Hne Hall IH]; [reflexivity|].
  rewrite fmap_cons, concat_lines, (read_line fields [] _ Hne). now rewrite IH.
Qed.

(** ** The order of ISO dates *)

Lemma digit_compare x y :
  (x < 10)%nat → (y < 10)%nat →
  Ascii.compare (ascii_of_nat (48 + x)) (ascii_of_nat (48 + y)) = (x ?= y)%nat.
Proof.
  intros Hx Hy.
  assert (Hall : forallb (λ x, forallb (λ y,
                    match Ascii.compare (ascii_of_nat (48 + x)) (ascii_of_nat (48 + y)),
                          (x ?= y)%nat with
                    | Eq, Eq | Lt, Lt | Gt, Gt => true
                    | _, _ => false
                    end) (seq 0 10)) (seq 0 10) = true) by (vm_compute; reflexivity).
  rewrite forallb_forall in Hall.
  assert (Hx' : In x (seq 0 10)) by (apply in_seq; lia).
  specialize (Hall x Hx'). rewrite forallb_forall in Hall.
  assert (Hy' : In y (seq 0 10)) by (apply in_seq; lia).
  specialize (Hall y Hy').
  destruct (Ascii.compare _ _), (x ?= y)%nat; (reflexivity || discriminate).
Qed.

Lemma two_digits_compare a b ra rb :
  (a < 100)%nat → (b < 100)%nat →
  String.compare (two_digits a ra) (two_digits b rb)
  = match (a ?= b)%nat with Eq => String.compare ra rb | c => c end.
Proof.
  intros Ha Hb. unfold two_digits. cbn [String.compare].
  assert (a / 10 < 10 ∧ b / 10 < 10 ∧ a mod 10 < 10 ∧ b mod 10 < 10)%nat
    as (H1 & H2 & H3 & H4).
  { repeat split; try (apply Nat.Div0.div_lt_upper_bound; lia);
      apply Nat.mod_upper_bound; lia. }
  rewrite (digit_compare _ _ H1 H2), (digit_compare _ _ H3 H4).
  pose proof (Nat.div_mod_eq a 10) as Ea. pose proof (Nat.div_mod_eq b 10) as Eb.
  destruct (Nat.compare_spec (a / 10) (b / 10)) as [H|H|H];
    destruct (Nat.compare_spec (a mod 10) (b mod 10)) as [H'|H'|H'];
    destruct (Nat.compare_spec a b) as [H''|H''|H'']; try reflexivity; exfalso; lia.
Qed.

Lemma iso_date_compare a b :
  String.compare (iso_date a) (iso_date b)
  = match (year a ?= year b)%nat with
    | Eq => match (month a ?= month b)%nat with
            | Eq => (day a ?= day b)%nat
            | c => c
            end
    | c => c
    end.
Proof.
  destruct (date_bounds a) as (_ & Hya & Hma & Hda).
  destruct (date_bounds b) as (_ & Hyb & Hmb & Hdb).
  unfold iso_date.
  assert (year a / 100 < 100 ∧ year b / 100 < 100
          ∧ year a mod 100 < 100 ∧ year b mod 100 < 100)%nat as (H1 & H2 & H3 & H4).
  { repeat split; try (apply Nat.Div0.div_lt_upper_bound; lia);
      apply Nat.mod_upper_bound; lia. }
  rewrite (two_digits_compare _ _ _ _ H1 H2), (two_digits_compare _ _ _ _ H3 H4).
  cbn [String.compare]. change (Ascii.compare "-" "-") with Eq. cbn iota.
  rewrite two_digits_compare by lia.
  cbn [String.compare]. change (Ascii.compare "-" "-") with Eq. cbn iota.
  rewrite two_digits_compare by lia.
  cbn [String.compare].
  pose proof (Nat.div_mod_eq (year a) 100) as Ea.
  pose proof (Nat.div_mod_eq (year b) 100) as Eb.
  destruct (Nat.compare_spec (year a / 100) (year b / 100)) as [H|H|H];
    destruct (Nat.compare_spec (year a mod 100) (year b mod 100)) as [H'|H'|H'];
    destruct (Nat.compare_spec (year a) (year b)) as [H''|H''|H''];
    try reflexivity; try (exfalso; lia);
    destruct (month a ?= month b)%nat; try reflexivity;
    now destruct (day a ?= day b)%nat.
Qed.

(** The texts of two days compare as the days do. *)
Lemma iso_date_le a b : string_le (iso_date a) (iso_date b) ↔ date_le a b.
Proof.
  unfold string_le, String.leb, date_le. rewrite iso_date_compare.
  destruct (Nat.compare_spec (year a) (year b)) as [Hy|Hy|Hy];
    [destruct (Nat.compare_spec (month a) (month b)) as [Hm|Hm|Hm];
     [destruct (Nat.compare_spec (day a) (day b)) as [Hd|Hd|Hd]| |]| |];
    (split; [intros H; try discriminate H; lia | intros H; (reflexivity || (exfalso; lia))]).
Qed.

(** ** export_query_logs_to_csv *)

Lemma unrated_log_rows l :
  forallb (λ r, bool_decide (l_feedback_rating r = None)) (log_of_query <$> l) = true
  ↔ Forall (λ q, q_feedback_rating q = None) l.
Proof.
  induction l as [|q l IH]; cbn; [split; [constructor | reflexivity]|].
  rewrite andb_true_iff, bool_decide_eq_true, IH, Forall_cons. reflexivity.
Qed.

Lemma some_unrated_log_row l :
  existsb (λ r, bool_decide (l_feedback_rating r = None)) (log_of_query <$> l) = true
  ↔ Exists (λ q, q_feedback_rating q = None) l.
Proof.
  induction l as [|q l IH]; cbn; [split; [discriminate | intros H; inversion H]|].
  rewrite orb_true_iff, bool_decide_eq_true, IH, Exists_cons. reflexivity.
Qed.

(** The text the writer gives to a rating, in the terms of [rating_text]. *)
Lemma render_rating_text E ordered q :
  q ∈ ordered →
  rating_text ordered q
    (render_rating E (rating_dtype (log_of_query <$> ordered)) (q_feedback_rating q)).
Proof.
  intros Hq. unfold rating_text.
  destruct (q_feedback_rating q) as [z|] eqn:Hz; [|reflexivity].
  unfold rating_dtype.
  destruct (forallb _ _) eqn:Hall.
  { apply unrated_log_rows in Hall. rewrite Forall_forall in Hall.
    specialize (Hall q Hq). congruence. }
  destruct (existsb _ _) eqn:Hex.
  - apply some_unrated_log_row in Hex. cbn [render_rating]. split.
    + intros Hrated. exfalso. apply Exists_exists in Hex as (q' & Hq' & Hnone).
      rewrite Forall_forall in Hrated. now apply (Hrated q' Hq').
    + intros _ Hz53. unfold float_repr, to_float64.
      rewrite (proj2 (Z.leb_le _ _) Hz53).
      assert (Hlt : (Z.abs z <? 10 ^ 16)%Z = true).
      { apply Z.ltb_lt. eapply Z.le_lt_trans; [exact Hz53|]. reflexivity. }
      now rewrite Hlt.
  - cbn [render_rating]. split; [reflexivity|].
    intros Hex'. apply some_unrated_log_row in Hex'. congruence.
Qed.

Lemma to_csv_lines E ordered :
  to_csv E (log_of_query <$> ordered)
  = String.concat ""
      (csv_line <$>
         (["email"; "name"; "project_title"; "question"; "response"; "timestamp";
           "feedback_rating"]
          :: ((λ q, exported_fields q
                      (render_rating E (rating_dtype (log_of_query <$> ordered))
                         (q_feedback_rating q))) <$> ordered))).
Proof.
  unfold to_csv. rewrite fmap_cons, concat_lines. f_equal. f_equal.
  rewrite <- !list_fmap_compose. apply list_fmap_ext. now intros i q _.
Qed.




(** ** Failures and the caller, function by function *)

Lemma get_user_projects_returns E d email :
  sqlite_faults E → (∀ e, env_fault E ≠ Some (1, e)) →
  ∃ v, result (run (get_user_projects E email) d) = Returns v.
Proof.
  intros HE H1. unfold get_user_projects. unfold_program.
  cbn -[tick sql_select_user_projects].
  tick_split_sqlite E HE; [|now eexists].
  match goal with
  | |- context [tick ?E ?s] => rewrite (tick_not_at E s H1)
  end.
  cbn -[tick sql_select_user_projects].
  tick_split_sqlite E HE; now eexists.
Qed.

Lemma export_query_logs_to_pdf_returns E B d se pf df dt :
  sqlite_faults E → (∀ e, env_fault E ≠ Some (1, e)) →
  ∃ v, result (run (export_query_logs_to_pdf E B se pf df dt) d) = Returns v.
Proof.
  intros HE H1. unfold export_query_logs_to_pdf, read_sql_query. unfold_program.
  cbn -[tick sql_select_logs pdf_table_data].
  tick_split_sqlite E HE; [|now eexists].
  match goal with
  | |- context [tick ?E ?s] => rewrite (tick_not_at E s H1)
  end.
  cbn -[tick sql_select_logs pdf_table_data].
  tick_split_sqlite E HE; [|now eexists].
  destruct (sql_select_logs _ _ _); [now eexists|].
  destruct (B _); now eexists.
Qed.

Lemma verify_user_returns V E d email password :
  sqlite_faults E →
  (∀ row, users d !! email = Some row → ∃ b, V password (u_password_hash row) = inr b) →
  ∃ v, result (run (verify_user V E email password) d) = Returns v.
Proof.
  intros HE HV. rewrite verify_user_run. cbn [result].
  assert (Hrow : ∃ v,
            match users d !! email with
            | None => Returns (None, Some "Email not found.")
            | Some row =>
                match V password (u_password_hash row) with
                | inr true => Returns (Some (mk_login (u_name row) (u_role row)), None)
                | inr false => Returns (None, Some "Incorrect password.")
                | inl (SqliteError _) =>
                    Returns (None, Some "Database error. Please try again.")
                | inl (OtherError msg) => Raises (OtherError msg)
                end
            end = Returns v).
  { destruct (users d !! email) as [row|] eqn:Hu; [|now eexists].
    destruct (HV row eq_refl) as [b ->]. destruct b; now eexists. }
  destruct (env_fault E) as [[k e]|] eqn:Hf; [|exact Hrow].
  destruct (HE k e Hf) as [msg ->].
  destruct k as [|[|k]]; [now eexists | now eexists | exact Hrow].
Qed.




(** X23. A failure of the execute that pandas runs is not contained by the
    two exports: whatever the exception was, the call raises
    [pandas.errors.DatabaseError] with the text of the query and of the
    exception, the handler for [sqlite3.Error] is not entered, and the file
    is as it was. *)
Theorem pandas_execute_failure_escapes E d e :
  env_fault E = Some (1, e) →
  (∀ student_email project_filter date_from date_to,
     run (export_query_logs_to_csv E student_email project_filter date_from date_to) d
     = mk_run (Raises (pandas_database_error
                         (export_sql (export_conditions student_email project_filter
                                        date_from date_to)) e)) d [])
  ∧ (∀ reportlab_build student_email project_filter date_from date_to,
       run (export_query_logs_to_pdf E reportlab_build student_email project_filter
              date_from date_to) d
       = mk_run (Raises (pandas_database_error
                           (export_sql (export_conditions student_email project_filter
                                          date_from date_to)) e)) d []).
Proof.
  intros Hf. split; intros.
  - now apply export_query_logs_to_csv_escapes.
  - unfold export_query_logs_to_pdf, read_sql_query. unfold_program. unfold tick.
    rewrite Hf. reflexivity.
Qed.

Lemma pandas_execute_failure_escapes_witness :
  env_fault (failing_env "e" 1) = Some (1, SqliteError "disk I/O error")
  ∧ run (export_query_logs_to_csv (failing_env "e" 1) None None None None) sample_db
    = mk_run (Raises (pandas_database_error (export_sql (export_conditions None None
                                                           None None))
                        (SqliteError "disk I/O error"))) sample_db [].
Proof.
  split; [reflexivity|].
  exact (proj1 (pandas_execute_failure_escapes (failing_env "e" 1) sample_db
                  (SqliteError "disk I/O error") eq_refl) None None None None).
Defined.
